(** * Ubuntu Image Fetcher: the download / validate / dedup pipeline

    A shallow embedding of [answer.py] and the properties of its
    specification.

    Conventions of the embedding.
    - A Python [str] is a Rocq [string]; a character is a code point
      below 256 (requests decodes header values as ISO-8859-1).
    - A Python [bytes] is a [list byte].
    - The output directory is a finite map from path names to the
      contents of the regular files stored there.  A local file operation
      fails where a regular file is missing, and [os.rename] fails where
      its destination is a directory; the file system is taken to accept
      every file name the program makes up (on Linux: at most 255 bytes,
      neither NUL nor slash), which the theorems that promise a stored
      file state as the hypothesis [name_accepted].  The calls that change the directory
      are recorded, in order, in the field [fs_log] of the store.
    - [existing_hashes] is one Python [set] shared by reference between
      [main] and every [download_image] call: it is a field of the store.
    - A Python function is a computation in the monad [M]: it reads and
      writes the store and either returns a value or raises an exception;
      the effects made before an exception is raised persist.
    - The network, the wall clock and the interpreter's configuration
      (the mimetypes table, the integer digit limit) are inputs, gathered
      in the record [env]. *)

From Stdlib Require Import ZArith NArith Lia List String Ascii Strings.Byte.
From stdpp Require Import base option list strings pretty gmap.

(** ** Python string operations used by the program *)

Module Py.

Definition code (c : ascii) : nat := nat_of_ascii c.

Definition is_in (lo hi : nat) (c : ascii) : bool :=
  (lo <=? code c)%nat && (code c <=? hi)%nat.

(** [str.lower] on one code point below 256: A-Z and the Latin-1
    capitals U+00C0..U+00DE (U+00D7, the multiplication sign, is not a
    letter) move up by 32. *)
Definition lower_char (c : ascii) : ascii :=
  if is_in 65 90 c || (is_in 192 222 c && negb (code c =? 215)%nat)
  then ascii_of_nat (code c + 32)
  else c.

(** [s.lower()] *)
Fixpoint lower (s : string) : string :=
  match s with
  | EmptyString => EmptyString
  | String c s' => String (lower_char c) (lower s')
  end.

(** [c in s] for a one-character [c] *)
Fixpoint contains (c : ascii) (s : string) : bool :=
  match s with
  | EmptyString => false
  | String d s' => if Ascii.eqb c d then true else contains c s'
  end.

(** [s.find(c)] : the index of the first [c], [None] for Python's -1 *)
Fixpoint find (c : ascii) (s : string) : option nat :=
  match s with
  | EmptyString => None
  | String d s' => if Ascii.eqb c d then Some 0%nat else S <$> find c s'
  end.

(** [s.rfind(c)] : the index of the last [c] *)
Fixpoint rfind (c : ascii) (s : string) : option nat :=
  match s with
  | EmptyString => None
  | String d s' =>
      match rfind c s' with
      | Some i => Some (S i)
      | None => if Ascii.eqb c d then Some 0%nat else None
      end
  end.

(** [s[:i]] *)
Fixpoint slice_to (i : nat) (s : string) : string :=
  match i, s with
  | S i', String c s' => String c (slice_to i' s')
  | _, _ => EmptyString
  end.

(** [s[i:]] *)
Fixpoint slice_from (i : nat) (s : string) : string :=
  match i, s with
  | S i', String _ s' => slice_from i' s'
  | _, _ => s
  end.

(** [s.startswith(p)] *)
Definition startswith (p s : string) : bool := String.prefix p s.

(** [s.endswith("/")] *)
Fixpoint endswith_char (c : ascii) (s : string) : bool :=
  match s with
  | EmptyString => false
  | String d EmptyString => Ascii.eqb c d
  | String _ s' => endswith_char c s'
  end.

(** truth value of a [str]: the empty string is false *)
Definition truthy (s : string) : bool :=
  match s with EmptyString => false | _ => true end.

(** [s.lstrip(chars)] for a set of characters given as a predicate *)
Fixpoint lstrip (P : ascii -> bool) (s : string) : string :=
  match s with
  | String c s' => if P c then lstrip P s' else s
  | EmptyString => EmptyString
  end.

(** [s.rstrip(chars)] *)
Fixpoint rstrip (P : ascii -> bool) (s : string) : string :=
  match s with
  | EmptyString => EmptyString
  | String c s' =>
      match rstrip P s' with
      | EmptyString => if P c then EmptyString else String c EmptyString
      | r => String c r
      end
  end.

(** the white space of [str.strip()] among the code points
    below 256: TAB LF VT FF CR, FS GS RS US, SPACE, NEL and NBSP *)
Definition isspace (c : ascii) : bool :=
  is_in 9 13 c || is_in 28 32 c || (code c =? 133)%nat || (code c =? 160)%nat.

(** [s.strip()] *)
Definition strip (s : string) : string := rstrip isspace (lstrip isspace s).

(** [s.replace(c, "")] *)
Fixpoint remove_char (c : ascii) (s : string) : string :=
  match s with
  | EmptyString => EmptyString
  | String d s' => if Ascii.eqb c d then remove_char c s' else String d (remove_char c s')
  end.

Definition isdigit (c : ascii) : bool := is_in 48 57 c.

Definition digit_value (c : ascii) : Z := Z.of_nat (code c - 48).

Fixpoint forallb_str (P : ascii -> bool) (s : string) : bool :=
  match s with
  | EmptyString => true
  | String c s' => P c && forallb_str P s'
  end.

Fixpoint count_str (P : ascii -> bool) (s : string) : nat :=
  match s with
  | EmptyString => 0
  | String c s' => (if P c then 1 else 0) + count_str P s'
  end.

(** [s.find(c, start)] *)
Definition find_from (start : nat) (c : ascii) (s : string) : option nat :=
  (fun i => start + i)%nat <$> find c (slice_from start s).

(** *** [int(s)]

    Base 10, as CPython parses a [str]: white space is stripped at both
    ends, one sign may lead, and the rest is decimal digits with single
    underscores allowed between two digits.  [None] stands for
    [ValueError].  [prev_digit] records that the previous character was
    a digit, which is what an underscore and the end of the literal
    require. *)
Fixpoint int_digits (acc : Z) (prev_digit : bool) (s : string) : option Z :=
  match s with
  | EmptyString => if prev_digit then Some acc else None
  | String c s' =>
      if isdigit c then int_digits (10 * acc + digit_value c) true s'
      else if Ascii.eqb c "_" then
        (if prev_digit then int_digits acc false s' else None)
      else None
  end.

(** the white space [int] skips at both ends: TAB LF VT FF CR, SPACE,
    NEL and NBSP (not the separators FS GS RS US) *)
Definition int_space (c : ascii) : bool :=
  is_in 9 13 c || (code c =? 32)%nat || (code c =? 133)%nat || (code c =? 160)%nat.

Definition int_literal (s : string) : option Z :=
  match rstrip int_space (lstrip int_space s) with
  | String "+" d => int_digits 0 false d
  | String "-" d => Z.opp <$> int_digits 0 false d
  | d => int_digits 0 false d
  end.

(** the digits and underscores that [int] scans after the sign, up to
    the first character that is neither: the number of digits, or [None]
    when two underscores follow each other or an underscore ends the run *)
Fixpoint int_scan (digits : nat) (prev_underscore : bool) (s : string)
    : option nat :=
  match s with
  | EmptyString => if prev_underscore then None else Some digits
  | String c s' =>
      if isdigit c then int_scan (S digits) false s'
      else if Ascii.eqb c "_" then
        (if prev_underscore then None else int_scan digits true s')
      else if prev_underscore then None else Some digits
  end.

(** The limit on the number of digits of a decimal literal
    ([sys.get_int_max_str_digits()], 0 for no limit; literals of at most
    640 digits are never refused): the number of digits scanned, when it
    is over the limit.  The test is made when the run of digits has been
    scanned, before what follows the run is looked at. *)
Definition int_exceeds (max_str_digits : nat) (s : string) : option nat :=
  let unsigned :=
    match lstrip int_space s with
    | String "+" d => d
    | String "-" d => d
    | d => d
    end in
  match unsigned with
  | String "_" _ => None
  | _ =>
      match int_scan 0 false unsigned with
      | Some digits =>
          if (640 <? digits)%nat && (0 <? max_str_digits)%nat
             && (max_str_digits <? digits)%nat
          then Some digits
          else None
      | None => None
      end
  end.

(** [int(s)]; [None] stands for [ValueError] *)
Definition int (max_str_digits : nat) (s : string) : option Z :=
  match int_exceeds max_str_digits s with
  | Some _ => None
  | None => int_literal s
  end.

(** *** [repr(s)] *)

Definition hex_digit (n : nat) : ascii :=
  ascii_of_nat (if (n <? 10)%nat then 48 + n else 87 + n).

(** [c.isprintable()] for a code point below 256: all but the controls
    U+0000..U+001F and U+007F..U+00A0 and the soft hyphen U+00AD *)
Definition isprintable (c : ascii) : bool :=
  negb (is_in 0 31 c || is_in 127 160 c || (code c =? 173)%nat).

Definition repr_char (quote c : ascii) : string :=
  if Ascii.eqb c quote || Ascii.eqb c "092" then String "092" (String c "")
  else if (code c =? 9)%nat then "\t"
  else if (code c =? 10)%nat then "\n"
  else if (code c =? 13)%nat then "\r"
  else if isprintable c then String c ""
  else String "092" (String "x" (String (hex_digit (code c / 16))
                                   (String (hex_digit (code c mod 16)) ""))).

Fixpoint repr_body (quote : ascii) (s : string) : string :=
  match s with
  | EmptyString => EmptyString
  | String c s' => repr_char quote c +:+ repr_body quote s'
  end.

(** [repr(s)]: single quotes, unless the string holds a single quote and
    no double quote *)
Definition repr (s : string) : string :=
  let quote : ascii :=
    if contains "'" s && negb (contains "034" s) then "034"%char
    else "'"%char in
  String quote (repr_body quote s +:+ String quote "").

(** [str(e)] of the [ValueError] that [int(s)] raises *)
Definition int_error (max_str_digits : nat) (s : string) : string :=
  match int_exceeds max_str_digits s with
  | Some digits =>
      "Exceeds the limit (" +:+ pretty max_str_digits
      +:+ " digits) for integer string conversion: value has "
      +:+ pretty digits
      +:+ " digits; use sys.set_int_max_str_digits() to increase the limit"
  | None =>
      "invalid literal for int() with base 10: " +:+ slice_to 200 (repr s)
  end.

(** *** [os.path] (posixpath) *)

(** [os.path.basename(p)]: [i = p.rfind('/') + 1; return p[i:]] *)
Definition basename (p : string) : string :=
  let i := match rfind "/" p with Some k => S k | None => 0%nat end in
  slice_from i p.

(** [os.path.join(a, b)] *)
Definition join (a b : string) : string :=
  if startswith "/" b then b
  else if negb (truthy a) || endswith_char "/" a then a +:+ b
  else a +:+ "/" +:+ b.

(** *** [urllib.parse.urlparse(url).path]

    CPython's [urlsplit] followed by the parameter split of [urlparse],
    keeping the path component only.  The validity checks of the network
    location (bracketed hosts, NFKC normalisation), which raise
    [ValueError], are left out: [requests.get] has refused such a URL
    before [urlparse] is reached. *)

Definition c0_control_or_space (c : ascii) : bool := (code c <=? 32)%nat.

Definition isalpha_ascii (c : ascii) : bool := is_in 97 122 c || is_in 65 90 c.

Definition scheme_chars (c : ascii) : bool :=
  isalpha_ascii c || isdigit c || contains c "+-.".

Definition uses_params : list string :=
  [""; "ftp"; "hdl"; "prospero"; "http"; "imap"; "https"; "shttp"; "rtsp";
   "rtspu"; "sip"; "sips"; "mms"; "sftp"; "tel"].

(** [_splitnetloc(url, start)] *)
Definition splitnetloc (url : string) (start : nat) : string * string :=
  let delim :=
    fold_left (fun delim c =>
                 match find_from start c url with
                 | Some wdelim => Nat.min delim wdelim
                 | None => delim
                 end)
              ["/"; "?"; "#"]%char (String.length url) in
  (slice_from start (slice_to delim url), slice_from delim url).

(** the scheme and the rest of the URL, as the first half of [urlsplit]
    finds them; the default scheme is the empty string *)
Definition split_scheme (url : string) : string * string :=
  match find ":" url, url with
  | Some (S i), String c0 _ =>
      if isalpha_ascii c0 && forallb_str scheme_chars (slice_to (S i) url)
      then (lower (slice_to (S i) url), slice_from (S (S i)) url)
      else ("", url)
  | _, _ => ("", url)
  end.

(** [url.split(c, 1)[0]] when [c in url], else [url] *)
Definition before (c : ascii) (url : string) : string :=
  match find c url with
  | Some i => slice_to i url
  | None => url
  end.

(** the path component of [urlsplit(url)] *)
Definition urlsplit_path (url : string) : string * string :=
  let url := lstrip c0_control_or_space url in
  let url := remove_char "010" (remove_char "013" (remove_char "009" url)) in
  let '(scheme, url) := split_scheme url in
  let url := if startswith "//" url then snd (splitnetloc url 2) else url in
  let url := before "#" url in
  let url := before "?" url in
  (scheme, url).

(** the first component of [_splitparams(url)] *)
Definition splitparams (url : string) : string :=
  let i :=
    if contains "/" url then
      match rfind "/" url with
      | Some k => find_from k ";" url
      | None => None
      end
    else
      Some (match find ";" url with
            | Some i => i
            | None => String.length url - 1
            end)%nat in
  match i with
  | None => url
  | Some i => slice_to i url
  end.

(** [urlparse(url).path] *)
Definition urlparse_path (url : string) : string :=
  let '(scheme, url) := urlsplit_path url in
  if bool_decide (scheme ∈ uses_params) && contains ";" url
  then splitparams url
  else url.

(** *** [datetime] *)

(** a [datetime] value; the type guarantees 1 <= year <= 9999,
    1 <= month <= 12, and so on *)
Record datetime := {
  year : nat; month : nat; day : nat;
  hour : nat; minute : nat; second : nat
}.

Definition digit_char (n : nat) : ascii := ascii_of_nat (48 + n mod 10).

(** the [width] low decimal digits of [n], zero padded: the rendering
    of the fixed-width numeric directives on a [datetime] *)
Fixpoint zero_padded (width n : nat) : string :=
  match width with
  | O => ""
  | S w => zero_padded w (n / 10) +:+ String (digit_char n) ""
  end.

(** [d.strftime('%Y%m%d_%H%M%S')] *)
Definition strftime (d : datetime) : string :=
  zero_padded 4 (year d) +:+ zero_padded 2 (month d) +:+ zero_padded 2 (day d)
  +:+ "_" +:+
  zero_padded 2 (hour d) +:+ zero_padded 2 (minute d) +:+ zero_padded 2 (second d).

(** *** [mimetypes] *)

(** [mimetypes.guess_extension(type)] over the table [types_map_inv]
    (MIME type to extensions) of the interpreter: the type is lower-cased
    and the first registered extension is returned, [None] if there is
    none. *)
Definition guess_extension (types_map_inv : gmap string (list string))
    (type : string) : option string :=
  match default [] (types_map_inv !! lower type) with
  | [] => None
  | ext :: _ => Some ext
  end.

(** truth value of an optional [str]: [None] and the empty string are false *)
Definition truthy_opt (o : option string) : bool :=
  match o with Some s => truthy s | None => false end.

End Py.

(** ** SHA-256 (FIPS 180-4), the digest behind [hashlib.sha256] *)

Module SHA256.
Local Open Scope N_scope.

(** 32-bit words are numbers below 2^32 *)
Definition w32 (x : N) : N := N.land x 0xffffffff.
Definition add32 (x y : N) : N := w32 (x + y).
Definition rotr (n x : N) : N := N.lor (N.shiftr x n) (w32 (N.shiftl x (32 - n))).
Definition shr (n x : N) : N := N.shiftr x n.
Definition not32 (x : N) : N := N.lxor x 0xffffffff.

Definition Ch (x y z : N) : N := N.lxor (N.land x y) (N.land (not32 x) z).
Definition Maj (x y z : N) : N :=
  N.lxor (N.lxor (N.land x y) (N.land x z)) (N.land y z).
Definition Sigma0 (x : N) : N := N.lxor (N.lxor (rotr 2 x) (rotr 13 x)) (rotr 22 x).
Definition Sigma1 (x : N) : N := N.lxor (N.lxor (rotr 6 x) (rotr 11 x)) (rotr 25 x).
Definition sigma0 (x : N) : N := N.lxor (N.lxor (rotr 7 x) (rotr 18 x)) (shr 3 x).
Definition sigma1 (x : N) : N := N.lxor (N.lxor (rotr 17 x) (rotr 19 x)) (shr 10 x).

(** The constants are defined as the standard defines them: the first 32
    bits of the fractional parts of the cube roots (for [K]) and of the
    square roots (for [H0]) of the first prime numbers. *)

Definition is_prime (n : nat) : bool :=
  forallb (fun d => negb (n mod d =? 0)%nat) (seq 2 (n - 2)).

(** the prime numbers from 2 to [last] *)
Definition primes (last : nat) : list nat := List.filter is_prime (seq 2 (last - 1)).

(** the largest [r + x] with [x] below 2^[bits] and [(r + x)^e <= n] *)
Fixpoint iroot (e : N) (bits : nat) (n r : N) : N :=
  match bits with
  | O => r
  | S b =>
      let r' := r + 2 ^ N.of_nat b in
      iroot e b n (if r' ^ e <=? n then r' else r)
  end.

(** the first 32 bits of the fractional part of the [e]-th root of [p] *)
Definition frac_root (e : N) (p : nat) : N :=
  w32 (iroot e 40 (N.shiftl (N.of_nat p) (32 * e)) 0).

Definition K : list N := Eval vm_compute in map (frac_root 3) (primes 311).

Definition H0 : list N := Eval vm_compute in map (frac_root 2) (primes 19).

(** the [n] bytes of [x], most significant first *)
Fixpoint big_endian (n : nat) (x : N) : list N :=
  match n with
  | O => []
  | S n' => big_endian n' (N.shiftr x 8) ++ [N.land x 0xff]
  end.

(** padding: the bit 1, zeros up to 56 modulo 64, the bit length on 64 bits *)
Definition pad (msg : list N) : list N :=
  let len := N.of_nat (length msg) in
  let zeros := N.to_nat ((119 - len mod 64) mod 64) in
  msg ++ [0x80] ++ repeat 0 zeros ++ big_endian 8 (8 * len).

(** cut a list into [n] groups of [size] elements *)
Fixpoint groups {A} (size n : nat) (l : list A) : list (list A) :=
  match n with
  | O => []
  | S n' => firstn size l :: groups size n' (skipn size l)
  end.

Definition word_of_bytes (bs : list N) : N :=
  fold_left (fun acc b => N.lor (N.shiftl acc 8) b) bs 0.

(** the message schedule, kept most recent word first: every step adds
    W(t) = sigma1 W(t-2) + W(t-7) + sigma0 W(t-15) + W(t-16) *)
Fixpoint extend (n : nat) (w : list N) : list N :=
  match n with
  | O => w
  | S n' =>
      let wt := add32 (add32 (sigma1 (nth 1 w 0)) (nth 6 w 0))
                      (add32 (sigma0 (nth 14 w 0)) (nth 15 w 0)) in
      extend n' (wt :: w)
  end.

Definition schedule (block : list N) : list N :=
  rev (extend 48 (rev (map word_of_bytes (groups 4 16 block)))).

(** one round on the working variables a..h *)
Definition round (v : list N) (kw : N * N) : list N :=
  match v with
  | [a; b; c; d; e; f; g; h] =>
      let t1 := add32 (add32 (add32 h (Sigma1 e)) (add32 (Ch e f g) (fst kw))) (snd kw) in
      let t2 := add32 (Sigma0 a) (Maj a b c) in
      [add32 t1 t2; a; b; c; add32 d t1; e; f; g]
  | _ => v
  end.

Definition compress (h : list N) (block : list N) : list N :=
  let v := fold_left round (combine K (schedule block)) h in
  map (fun p => add32 (fst p) (snd p)) (combine h v).

Definition digest (msg : list N) : list N :=
  let padded := pad msg in
  fold_left compress (groups 64 (length padded / 64) padded) H0.

Definition hex_char (x : N) : ascii :=
  if x <? 10 then ascii_of_N (48 + x) else ascii_of_N (87 + x).

Fixpoint hex (n : nat) (x : N) : string :=
  match n with
  | O => ""
  | S n' => hex n' (N.shiftr x 4) +:+ String (hex_char (N.land x 0xf)) ""
  end.

(** [hashlib.sha256(data).hexdigest()] *)
Definition hexdigest (data : list byte) : string :=
  String.concat "" (map (hex 8) (digest (map Byte.to_N data))).

End SHA256.

(** ** Exceptions, the environment and the store *)

(** The exception classes the program can meet.  [RequestException]
    stands for [requests.exceptions.RequestException] and all its
    subclasses (connection errors, timeouts, [HTTPError], errors while the
    body is streamed); the others are plain subclasses of [Exception]. *)
Inductive exn :=
| RequestException (msg : string)
| ValueError (msg : string)
| OSError (msg : string)
| UnboundLocalError (msg : string)
| EOFError (msg : string).

(** [str(e)], what [{e}] prints *)
Definition str_exn (e : exn) : string :=
  match e with
  | RequestException msg | ValueError msg | OSError msg
  | UnboundLocalError msg | EOFError msg => msg
  end.

(** [isinstance(e, requests.exceptions.RequestException)] *)
Definition is_RequestException (e : exn) : bool :=
  match e with RequestException _ => true | _ => false end.

(** What [requests.get(url, stream=True)] hands back: the status line, the
    two headers the program reads ([None] when the header is absent), and
    the body as [iter_content] delivers it: the chunks it yields and then,
    possibly, the exception it raises instead of ending. *)
Record response := {
  status_code : nat;
  reason : string;
  response_url : string;
  content_type_header : option string;
  content_length_header : option string;
  content : list (list byte);
  content_error : option exn
}.

(** The inputs of a run.  [http n url] is the outcome of the [n]-th
    [requests.get] of the run (counted from 1) when it asks for [url];
    [clock n] is what [datetime.now()] reads during that call. *)
Record env := {
  http : nat -> string -> exn + response;
  clock : nat -> Py.datetime;
  types_map_inv : gmap string (list string);
  int_max_str_digits : nat
}.

(** A call that changes the file system. *)
Inductive fs_op :=
| op_open_wb (path : string)
| op_write (path : string) (chunk : list byte)
| op_remove (path : string)
| op_rename (src dst : string).

(** The mutable state.  [temp_filepath] is the local variable of that name
    in the running [download_image] call, [None] while it is unbound.
    [fs_log] lists the calls that have changed [fs], the oldest first. *)
Record store := {
  fs : gmap string (list byte);
  existing_hashes : gset string;
  stdout : list string;
  stdin : list string;
  requests_made : nat;
  temp_filepath : option string;
  fs_log : list fs_op
}.

Definition set_fs (f : gmap string (list byte) -> gmap string (list byte))
    (s : store) : store :=
  {| fs := f (fs s); existing_hashes := existing_hashes s; stdout := stdout s;
     stdin := stdin s; requests_made := requests_made s;
     temp_filepath := temp_filepath s; fs_log := fs_log s |}.

Definition set_existing_hashes (f : gset string -> gset string) (s : store) : store :=
  {| fs := fs s; existing_hashes := f (existing_hashes s); stdout := stdout s;
     stdin := stdin s; requests_made := requests_made s;
     temp_filepath := temp_filepath s; fs_log := fs_log s |}.

Definition set_stdout (f : list string -> list string) (s : store) : store :=
  {| fs := fs s; existing_hashes := existing_hashes s; stdout := f (stdout s);
     stdin := stdin s; requests_made := requests_made s;
     temp_filepath := temp_filepath s; fs_log := fs_log s |}.

Definition set_stdin (f : list string -> list string) (s : store) : store :=
  {| fs := fs s; existing_hashes := existing_hashes s; stdout := stdout s;
     stdin := f (stdin s); requests_made := requests_made s;
     temp_filepath := temp_filepath s; fs_log := fs_log s |}.

Definition set_requests_made (f : nat -> nat) (s : store) : store :=
  {| fs := fs s; existing_hashes := existing_hashes s; stdout := stdout s;
     stdin := stdin s; requests_made := f (requests_made s);
     temp_filepath := temp_filepath s; fs_log := fs_log s |}.

Definition set_temp_filepath (v : option string) (s : store) : store :=
  {| fs := fs s; existing_hashes := existing_hashes s; stdout := stdout s;
     stdin := stdin s; requests_made := requests_made s;
     temp_filepath := v; fs_log := fs_log s |}.

Definition set_fs_log (f : list fs_op -> list fs_op) (s : store) : store :=
  {| fs := fs s; existing_hashes := existing_hashes s; stdout := stdout s;
     stdin := stdin s; requests_made := requests_made s;
     temp_filepath := temp_filepath s; fs_log := f (fs_log s) |}.

(** [os.rename(src, dst)] on the files: one step that takes the file from
    [src] and puts it at [dst], replacing a file that is there *)
Definition rename (src dst : string) (files : gmap string (list byte))
    (data : list byte) : gmap string (list byte) :=
  <[dst := data]> (delete src files).

(** what a call does to the files *)
Definition apply_op (op : fs_op) (files : gmap string (list byte))
    : gmap string (list byte) :=
  match op with
  | op_open_wb path => <[path := []]> files
  | op_write path chunk => alter (fun data => data ++ chunk) path files
  | op_remove path => delete path files
  | op_rename src dst =>
      match files !! src with
      | Some data => rename src dst files data
      | None => files
      end
  end.

(** the files after a sequence of calls *)
Definition replay (ops : list fs_op) (files : gmap string (list byte))
    : gmap string (list byte) :=
  fold_left (fun files op => apply_op op files) ops files.

(** ** The monad of Python computations *)

Definition M (A : Type) : Type := store -> (exn + A) * store.

#[global] Instance M_ret : MRet M := fun A (a : A) s => (inr a, s).

#[global] Instance M_bind : MBind M := fun A B (k : A -> M B) (m : M A) s =>
  match m s with
  | (inr a, s') => k a s'
  | (inl e, s') => (inl e, s')
  end.

(** [raise e] *)
Definition raise {A} (e : exn) : M A := fun s => (inl e, s).

(** [try: body  except Exception as e: handler e].  An exception raised
    by the handler itself is not caught. *)
Definition try_except {A} (body : M A) (handler : exn -> M A) : M A := fun s =>
  match body s with
  | (inl e, s') => handler e s'
  | (inr a, s') => (inr a, s')
  end.

(** [for x in l: body x] *)
Fixpoint for_each {A} (l : list A) (body : A -> M unit) : M unit :=
  match l with
  | [] => mret tt
  | x :: l' => body x ;; for_each l' body
  end.

Definition modify (f : store -> store) : M unit := fun s => (inr tt, f s).

(** [print(line)] *)
Definition print (line : string) : M unit :=
  modify (set_stdout (fun out => out ++ [line])).

(** a call that changes the file system is made, and recorded *)
Definition do_op (op : fs_op) : M unit :=
  modify (fun s => set_fs_log (fun log => log ++ [op]) (set_fs (apply_op op) s)).

(** ** The program *)

Section Program.

Variable E : env.

(** *** Library calls *)

(** [requests.get(url, headers=headers, timeout=10, stream=True)] *)
Definition requests_get (url : string) : M response := fun s =>
  let n := S (requests_made s) in
  let s' := set_requests_made (fun _ => n) s in
  match http E n url with
  | inl e => (inl e, s')
  | inr r => (inr r, s')
  end.

(** [response.raise_for_status()]: [HTTPError], a [RequestException],
    for the status codes 400 to 599 *)
Definition raise_for_status (r : response) : M unit :=
  let code := status_code r in
  if (400 <=? code)%nat && (code <? 500)%nat then
    raise (RequestException (pretty code +:+ " Client Error: " +:+ reason r
                             +:+ " for url: " +:+ response_url r))
  else if (500 <=? code)%nat && (code <? 600)%nat then
    raise (RequestException (pretty code +:+ " Server Error: " +:+ reason r
                             +:+ " for url: " +:+ response_url r))
  else mret tt.

(** [int(s)] *)
Definition int (s : string) : M Z :=
  match Py.int (int_max_str_digits E) s with
  | Some n => mret n
  | None => raise (ValueError (Py.int_error (int_max_str_digits E) s))
  end.

(** [datetime.now()] *)
Definition datetime_now : M Py.datetime := fun s =>
  (inr (clock E (requests_made s)), s).

(** [mimetypes.guess_extension(content_type)] *)
Definition guess_extension (content_type : string) : option string :=
  Py.guess_extension (types_map_inv E) content_type.

(** [open(path, 'wb')]: the file is created, or truncated if it exists *)
Definition open_wb (path : string) : M unit := do_op (op_open_wb path).

(** [f.write(chunk)] on the file opened at [path] *)
Definition write (path : string) (chunk : list byte) : M unit :=
  do_op (op_write path chunk).

(** [with open(path, 'wb') as f:
       for chunk in response.iter_content(chunk_size=8192): f.write(chunk)]
    The file is closed, with what was written, also when the iteration
    raises. *)
Definition save_stream (path : string) (r : response) : M unit :=
  open_wb path ;;
  for_each (content r) (write path) ;;
  match content_error r with
  | Some e => raise e
  | None => mret tt
  end.

Definition no_such_file (path : string) : exn :=
  OSError ("[Errno 2] No such file or directory: " +:+ Py.repr path).

(** [os.remove(path)] *)
Definition os_remove (path : string) : M unit := fun s =>
  match fs s !! path with
  | Some _ => do_op (op_remove path) s
  | None => (inl (no_such_file path), s)
  end.

(** [path] is a directory.  The store holds the regular files only; the
    one directory the program can name beside them is the output
    directory itself or its parent, by a path that ends in the entry "."
    or "..". *)
Definition is_directory (files : gmap string (list byte)) (path : string)
    : bool :=
  bool_decide (Py.basename path ∈ ["."; ".."])
  && negb (bool_decide (is_Some (files !! path))).

(** [os.rename(src, dst)]: it replaces a regular file at [dst], and
    raises [OSError] when [dst] is a directory *)
Definition os_rename (src dst : string) : M unit := fun s =>
  match fs s !! src with
  | Some data =>
      if is_directory (fs s) dst then
        (inl (OSError ("[Errno 16] Device or resource busy: " +:+ Py.repr src
                       +:+ " -> " +:+ Py.repr dst)), s)
      else do_op (op_rename src dst) s
  | None =>
      (inl (OSError ("[Errno 2] No such file or directory: " +:+ Py.repr src
                     +:+ " -> " +:+ Py.repr dst)), s)
  end.

(** [os.path.exists(path)] *)
Definition os_path_exists (path : string) : M bool := fun s =>
  (inr (bool_decide (is_Some (fs s !! path))), s).

(** [os.path.isfile(path)] *)
Definition os_path_isfile (path : string) : M bool := fun s =>
  (inr (bool_decide (is_Some (fs s !! path))), s).

(** the name under which [path] is an entry of the directory [dir] *)
Definition entry_name (dir path : string) : option string :=
  let prefix := Py.join dir "" in
  let name := Py.slice_from (String.length prefix) path in
  if Py.startswith prefix path && Py.truthy name && negb (Py.contains "/" name)
  then Some name
  else None.

(** [os.listdir(dir)] *)
Definition os_listdir (dir : string) : M (list string) := fun s =>
  (inr (omap (entry_name dir) (elements (dom (fs s)))), s).

(** *** [calculate_file_hash] *)

(** a [hashlib.sha256] object is the bytes it has been fed so far *)
Definition sha256_new : list byte := [].
Definition sha256_update (h block : list byte) : list byte := h ++ block.

(** [for byte_block in iter(lambda: f.read(4096), b""):
       sha256_hash.update(byte_block)]
    [f] is what is left to read of the file; an empty read ends the loop. *)
Fixpoint hash_blocks (fuel : nat) (f : list byte) (sha256_hash : list byte)
    : list byte :=
  match fuel with
  | O => sha256_hash
  | S fuel' =>
      match take 4096 f with
      | [] => sha256_hash
      | byte_block =>
          hash_blocks fuel' (drop 4096 f) (sha256_update sha256_hash byte_block)
      end
  end.

Definition calculate_file_hash (filepath : string) : M string := fun s =>
  match fs s !! filepath with
  | None => (inl (no_such_file filepath), s)
  | Some data =>
      let sha256_hash := hash_blocks (S (length data)) data sha256_new in
      (inr (SHA256.hexdigest sha256_hash), s)
  end.

(** *** [is_valid_image_content_type] *)

Definition valid_types : list string :=
  ["image/jpeg"; "image/png"; "image/gif"; "image/bmp"].

Definition is_valid_image_content_type (content_type : string) : bool :=
  bool_decide (Py.lower content_type ∈ valid_types).

(** *** [download_image] *)

(** [file_hash in existing_hashes] *)
Definition hashes_contains (h : string) : M bool := fun s =>
  (inr (bool_decide (h ∈ existing_hashes s)), s).

(** [existing_hashes.add(file_hash)] *)
Definition hashes_add (h : string) : M unit :=
  modify (set_existing_hashes (fun hs => {[h]} ∪ hs)).

(** reading the local [temp_filepath] *)
Definition read_temp_filepath : M string := fun s =>
  match temp_filepath s with
  | Some p => (inr p, s)
  | None =>
      (inl (UnboundLocalError
              "cannot access local variable 'temp_filepath' where it is not associated with a value"),
       s)
  end.

(** lines 42-43, the test
    [content_length and int(content_length) > 10 * 1024 * 1024] *)
Definition declared_too_large (content_length : option string) : M bool :=
  match content_length with
  | Some cl =>
      if Py.truthy cl then
        n ← int cl; mret (10 * 1024 * 1024 <? n)%Z
      else mret false
  | None => mret false
  end.

(** lines 48-54, the file name: the base name of the URL's path, or a
    generated one *)
Definition choose_filename (url content_type : string) : M string :=
  let filename := Py.basename (Py.urlparse_path url) in
  if negb (Py.truthy filename)
     || negb (Py.truthy_opt (guess_extension content_type))
  then
    let extension :=
      if Py.truthy_opt (guess_extension content_type)
      then default "" (guess_extension content_type)
      else ".jpg" in
    now ← datetime_now;
    mret ("image_" +:+ Py.strftime now +:+ extension)
  else mret filename.

(** the body of the [try] statement *)
Definition download_image_try (url output_dir : string) : M bool :=
  response ← requests_get url;
  raise_for_status response ;;
  let content_type := default "" (content_type_header response) in
  if negb (is_valid_image_content_type content_type) then
    print ("✗ Invalid content type for " +:+ url +:+ ": " +:+ content_type) ;;
    mret false
  else
  let content_length := content_length_header response in
  too_large ← declared_too_large content_length;
  if too_large : bool then
    print ("✗ File too large for " +:+ url +:+ ": "
           +:+ default "" content_length +:+ " bytes") ;;
    mret false
  else
  filename ← choose_filename url content_type;
  let filepath := Py.join output_dir filename in
  let temp := filepath +:+ ".tmp" in
  modify (set_temp_filepath (Some temp)) ;;
  save_stream temp response ;;
  file_hash ← calculate_file_hash temp;
  duplicate ← hashes_contains file_hash;
  if duplicate : bool then
    os_remove temp ;;
    print ("✗ Duplicate image detected: " +:+ filename) ;;
    mret false
  else
  os_rename temp filepath ;;
  hashes_add file_hash ;;
  print ("✓ Successfully fetched: " +:+ filename) ;;
  print ("✓ Image saved to: " +:+ filepath) ;;
  mret true.

(** the two [except] clauses, tried in order *)
Definition download_image_except (url : string) (e : exn) : M bool :=
  if is_RequestException e then
    print ("✗ Network error for " +:+ url +:+ ": " +:+ str_exn e) ;;
    mret false
  else
    print ("✗ Error processing " +:+ url +:+ ": " +:+ str_exn e) ;;
    temp ← read_temp_filepath;
    found ← os_path_exists temp;
    (if found : bool then os_remove temp else mret tt) ;;
    mret false.

(** [download_image(url, output_dir, existing_hashes)]; a call starts
    with no local variable bound *)
Definition download_image (url output_dir : string) : M bool :=
  modify (set_temp_filepath None) ;;
  try_except (download_image_try url output_dir) (download_image_except url).

(** *** [main] *)

(** [input(prompt)] *)
Definition input (prompt : string) : M string := fun s =>
  let s := set_stdout (fun out => out ++ [prompt]) s in
  match stdin s with
  | line :: rest => (inr line, set_stdin (fun _ => rest) s)
  | [] => (inl (EOFError "EOF when reading a line"), s)
  end.

(** the [while True] loop that collects the URLs; every turn reads one
    line, so as many turns as there are lines, and one more, suffice *)
Fixpoint read_urls (fuel : nat) (urls : list string) : M (list string) :=
  match fuel with
  | O => mret urls
  | S fuel' =>
      line ← input "> ";
      let url := Py.strip line in
      if bool_decide (url = "") then mret urls
      else if Py.startswith "http://" url || Py.startswith "https://" url then
        read_urls fuel' (urls ++ [url])
      else
        print ("✗ Invalid URL format: " +:+ url) ;;
        read_urls fuel' urls
  end.

(** lines 100-102, the body of the loop over the directory *)
Definition hash_entry (output_dir filename : string) : M unit :=
  let filepath := Py.join output_dir filename in
  is_file ← os_path_isfile filepath;
  if is_file : bool then
    h ← calculate_file_hash filepath; hashes_add h
  else mret tt.

(** lines 97-102: the hashes of the files already in [output_dir] *)
Definition load_existing_hashes (output_dir : string) : M unit :=
  modify (set_existing_hashes (fun _ => ∅)) ;;
  names ← os_listdir output_dir;
  for_each names (hash_entry output_dir).

(** lines 120-124: the downloads, in input order *)
Fixpoint download_all (urls : list string) (output_dir : string)
    (success_count : nat) : M nat :=
  match urls with
  | [] => mret success_count
  | url :: rest =>
      ok ← download_image url output_dir;
      download_all rest output_dir
        (if ok : bool then success_count + 1 else success_count)%nat
  end.

(** [os.makedirs(output_dir, exist_ok=True)] changes nothing here: the
    store holds the files of the directory, which exists. *)
Definition main : M unit :=
  print "Welcome to the Ubuntu Image Fetcher" ;;
  print "A tool for mindfully collecting images from the web" ;;
  print "Built with respect for community and responsible use
" ;;
  let output_dir := "Fetched_Images" in
  load_existing_hashes output_dir ;;
  print "Enter image URLs (one per line, press Enter twice to finish):" ;;
  lines ← (fun s => (inr (stdin s), s));
  urls ← read_urls (S (length lines)) [];
  match urls with
  | [] => print "✗ No valid URLs provided"
  | _ =>
      success_count ← download_all urls output_dir 0;
      print "
Download Summary:" ;;
      print ("✓ Successfully downloaded: " +:+ pretty success_count +:+ " image(s)") ;;
      print ("✗ Failed: " +:+ pretty (length urls - success_count)%nat +:+ " image(s)") ;;
      print "
Connection strengthened. Community enriched."
  end.

(** *** Vocabulary of the specification *)

(** [raise_for_status] lets the response through *)
Definition status_passes (r : response) : bool :=
  (status_code r <? 400)%nat || (600 <=? status_code r)%nat.

(** the declared length is absent, empty, or an integer of at most
    10 MiB *)
Definition declared_length_passes (r : response) : bool :=
  match content_length_header r with
  | None => true
  | Some cl =>
      if Py.truthy cl then
        match Py.int (int_max_str_digits E) cl with
        | Some n => (n <=? 10485760)%Z
        | None => false
        end
      else true
  end.

(** the next request of the store [s], for [url], is answered by [r],
    and [r] is admissible: its status is no error and it passes the two
    checks of the validator *)
Definition accepted (s : store) (url : string) (r : response) : Prop :=
  http E (S (requests_made s)) url = inr r /\
  status_passes r = true /\
  is_valid_image_content_type (default "" (content_type_header r)) = true /\
  declared_length_passes r = true.

(** an extension can be inferred from the declared content type *)
Definition inferred_extension (content_type : string) : option string :=
  match guess_extension content_type with
  | Some ext => if Py.truthy ext then Some ext else None
  | None => None
  end.

(** the final file name, in the words of the specification: the base
    name of the URL's path if it is not empty and an extension can be
    inferred; else [image_<YYYYMMDD_HHMMSS><ext>], with [.jpg] for
    [<ext>] when none is known *)
Definition spec_filename (url content_type : string) (now : Py.datetime)
    : string :=
  let base := Py.basename (Py.urlparse_path url) in
  match inferred_extension content_type with
  | Some ext =>
      if bool_decide (base = "") then "image_" +:+ Py.strftime now +:+ ext
      else base
  | None => "image_" +:+ Py.strftime now +:+ ".jpg"
  end.

(** the paths a call can take, by what the environment answers *)
Inductive path_taken (s : store) (url : string) : Prop :=
| get_raises e :
    http E (S (requests_made s)) url = inl e -> path_taken s url
| status_fails r :
    http E (S (requests_made s)) url = inr r ->
    status_passes r = false -> path_taken s url
| invalid_type r :
    http E (S (requests_made s)) url = inr r ->
    status_passes r = true ->
    is_valid_image_content_type (default "" (content_type_header r)) = false ->
    path_taken s url
| bad_length r cl :
    http E (S (requests_made s)) url = inr r ->
    status_passes r = true ->
    is_valid_image_content_type (default "" (content_type_header r)) = true ->
    content_length_header r = Some cl -> cl ≠ "" ->
    Py.int (int_max_str_digits E) cl = None -> path_taken s url
| too_large r cl n :
    http E (S (requests_made s)) url = inr r ->
    status_passes r = true ->
    is_valid_image_content_type (default "" (content_type_header r)) = true ->
    content_length_header r = Some cl ->
    Py.int (int_max_str_digits E) cl = Some n -> (10485760 < n)%Z ->
    path_taken s url
| stream_raises r e :
    accepted s url r -> content_error r = Some e -> path_taken s url
| staged r :
    accepted s url r -> content_error r = None -> path_taken s url.

End Program.

(** ** Further vocabulary of the specification *)

(** *** File names the file system accepts *)

(** the number of bytes of a name on disk, in UTF-8: two for a code point
    from 128 on *)
Definition utf8_length (s : string) : nat :=
  String.length s + Py.count_str (fun c => (128 <=? Py.code c)%nat) s.

(** the file system takes [filename] and the staging name made of it as
    the name of a file of the output directory: it holds neither NUL nor
    slash, and the staging name has at most 255 bytes *)
Definition name_accepted (filename : string) : Prop :=
  Py.contains "000" filename = false /\
  Py.contains "/" filename = false /\
  utf8_length (filename +:+ ".tmp") <= 255.

(** *** Equality up to case *)

(** [c] and [d] are the same character, or the capital and the small
    form of one of the 26 letters *)
Definition same_letter (c d : ascii) : bool :=
  Ascii.eqb c d
  || (Py.is_in 65 90 c && (Py.code c + 32 =? Py.code d)%nat)
  || (Py.is_in 65 90 d && (Py.code d + 32 =? Py.code c)%nat).

(** two content types are equal up to case: character by character *)
Fixpoint equal_ignoring_case (a b : string) : bool :=
  match a, b with
  | EmptyString, EmptyString => true
  | String c a', String d b' => same_letter c d && equal_ignoring_case a' b'
  | _, _ => false
  end.

(** an ASCII character that is no capital letter *)
Definition no_capital (d : ascii) : bool :=
  (Py.code d <? 128)%nat && negb (Py.is_in 65 90 d).

(** the 256 characters *)
Definition all_chars : list ascii := map ascii_of_nat (seq 0 256).

(** *** The path component of a URL

    For a URL [scheme://authority/path?query#fragment]: the authority
    ends at the first slash, question mark or hash sign after ["://"];
    the path runs from there to the first question mark or hash sign; TAB,
    LF and CR are dropped wherever they stand.  The base name is what
    follows the last slash of the path, without the parameters that a
    semicolon introduces. *)

Definition dropped_from_url (c : ascii) : bool :=
  Ascii.eqb "009" c || Ascii.eqb "010" c || Ascii.eqb "013" c.

Definition ends_authority (c : ascii) : bool :=
  Ascii.eqb "/" c || Ascii.eqb "?" c || Ascii.eqb "#" c.

Definition ends_path (c : ascii) : bool := Ascii.eqb "?" c || Ascii.eqb "#" c.

(** [s] without the characters that satisfy [P] *)
Fixpoint without (P : ascii -> bool) (s : string) : string :=
  match s with
  | EmptyString => EmptyString
  | String c s' => if P c then without P s' else String c (without P s')
  end.

(** no character of [s] satisfies [P] *)
Definition none (P : ascii -> bool) (s : string) : bool :=
  Py.forallb_str (fun c => negb (P c)) s.

(** [s] up to the first character that satisfies [stop], left out *)
Fixpoint up_to (stop : ascii -> bool) (s : string) : string :=
  match s with
  | EmptyString => EmptyString
  | String c s' => if stop c then EmptyString else String c (up_to stop s')
  end.

(** [s] from the first character that satisfies [stop] on *)
Fixpoint from (stop : ascii -> bool) (s : string) : string :=
  match s with
  | EmptyString => EmptyString
  | String c s' => if stop c then s else from stop s'
  end.

(** the position of the first character that satisfies [stop]; the
    length of [s] if there is none *)
Fixpoint index_of (stop : ascii -> bool) (s : string) : nat :=
  match s with
  | EmptyString => 0
  | String c s' => if stop c then 0 else S (index_of stop s')
  end.

(** what follows the first ["://"] *)
Fixpoint after_scheme (url : string) : string :=
  match url with
  | EmptyString => EmptyString
  | String ":" (String "/" (String "/" rest)) => rest
  | String _ url' => after_scheme url'
  end.

(** what follows the last slash; the whole text if there is none *)
Fixpoint last_segment (path : string) : string :=
  match path with
  | EmptyString => EmptyString
  | String c path' =>
      if Py.contains "/" path' then last_segment path'
      else if Ascii.eqb "/" c then path'
      else path
  end.

Definition url_path (url : string) : string :=
  up_to ends_path (from ends_authority (after_scheme (without dropped_from_url url))).

Definition url_base_name (url : string) : string :=
  up_to (Ascii.eqb ";") (last_segment (url_path url)).

(** ** Concrete runs *)

Module Scenario.

(** the entries of CPython's default [mimetypes] table that the runs use *)
Definition py_types_map_inv : gmap string (list string) :=
  list_to_map
    [("image/jpeg", [".jpg"; ".jpe"; ".jpeg"]); ("image/png", [".png"]);
     ("image/gif", [".gif"]); ("image/bmp", [".bmp"]);
     ("text/html", [".html"; ".htm"])].

(** the clock reads one second more at every call *)
Definition new_year (n : nat) : Py.datetime :=
  {| Py.year := 2026; Py.month := 1; Py.day := 1;
     Py.hour := 0; Py.minute := 0; Py.second := n |}.

(** a server that answers every request with the response [r] *)
Definition always (r : response) : env :=
  {| http := fun _ _ => inr r; clock := new_year;
     types_map_inv := py_types_map_inv; int_max_str_digits := 4300 |}.

Definition reply (content_type content_length : option string)
    (chunks : list (list byte)) (error : option exn) : response :=
  {| status_code := 200; reason := "OK"; response_url := "";
     content_type_header := content_type;
     content_length_header := content_length;
     content := chunks; content_error := error |}.

Definition abc : list byte := list_byte_of_string "abc".

Definition png_abc : response := reply (Some "image/png") (Some "3") [abc] None.

Definition jpeg_abc : response := reply (Some "image/jpeg") None [abc] None.

Definition html_page : response :=
  reply (Some "text/html") (Some "20000000") [list_byte_of_string "<html>"] None.

Definition huge_png : response :=
  reply (Some "image/png") (Some "20000000") [abc] None.

Definition png_with_charset : response :=
  reply (Some "image/png; charset=utf-8") (Some "3") [abc] None.

Definition bad_length_png : response :=
  reply (Some "image/png") (Some "abc") [abc] None.

Definition broken_png : response :=
  reply (Some "image/png") None [list_byte_of_string "ab"]
        (Some (RequestException "Connection broken: IncompleteRead")).

Definition output_dir : string := "Fetched_Images".

Definition store_of (files : gmap string (list byte)) (hashes : gset string)
    : store :=
  {| fs := files; existing_hashes := hashes; stdout := []; stdin := [];
     requests_made := 0; temp_filepath := None; fs_log := [] |}.

Definition empty_dir : store := store_of ∅ ∅.

(** the directory holds the file [A], which no run has hashed yet *)
Definition dir_with_A : store := store_of {["Fetched_Images/A" := abc]} ∅.

(** the directory holds [old.png], whose hash is in the index *)
Definition dir_with_old : store :=
  store_of {["Fetched_Images/old.png" := abc]} {[SHA256.hexdigest abc]}.

(** one run: "a.png.tmp" is fetched into the empty directory, then
    "a.png"; the server sends the same bytes both times *)
Definition first_fetch : (exn + bool) * store :=
  download_image (always png_abc) "https://example.com/a.png.tmp"
    output_dir empty_dir.

Definition second_fetch : (exn + bool) * store :=
  download_image (always png_abc) "https://example.com/a.png"
    output_dir first_fetch.2.

(** a page of 20 MB declared as text/html *)
Definition html_fetch : (exn + bool) * store :=
  download_image (always html_page) "https://example.com/page"
    output_dir empty_dir.

(** "cat.png" is fetched into the empty directory *)
Definition cat_fetch : (exn + bool) * store :=
  download_image (always png_abc) "https://example.com/cat.png"
    output_dir empty_dir.

(** the path of the URL ends in "..": the final path is the parent of the
    output directory *)
Definition dots_fetch : (exn + bool) * store :=
  download_image (always png_abc) "https://example.com/.."
    output_dir empty_dir.

(** the content type is written in capitals *)
Definition capitals_png : response := reply (Some "IMAGE/PNG") (Some "3") [abc] None.

(** a session at the terminal: the user types the same URL twice, then
    an entry that is no URL, then an empty line *)
Definition session : store :=
  {| fs := ∅; existing_hashes := ∅; stdout := [];
     stdin := ["https://example.com/cat.png"; " https://example.com/cat.png ";
               "ftp://example.com/cat.png"; ""];
     requests_made := 0; temp_filepath := None; fs_log := [] |}.

End Scenario.

(** ** The terminal session *)

(** line 111, the test [url.startswith(('http://', 'https://'))] *)
Definition is_http_url (url : string) : bool :=
  Py.startswith "http://" url || Py.startswith "https://" url.

(** line 109: the entry ends the input *)
Definition is_blank (line : string) : Prop := Py.strip line = "".

(** the URLs the loop of lines 107-114 keeps of the entries typed *)
Definition typed_urls (entries : list string) : list string :=
  List.filter is_http_url (map Py.strip entries).

(** what that loop prints for the entries: a prompt before each, and a
    message after each one that is no URL *)
Definition transcript (entries : list string) : list string :=
  concat (map (fun line =>
                 "> " :: if is_http_url (Py.strip line) then []
                         else ["✗ Invalid URL format: " +:+ Py.strip line])
              entries).

(** what [main] prints before the first prompt, lines 89-91 and 105 *)
Definition greeting : list string :=
  ["Welcome to the Ubuntu Image Fetcher";
   "A tool for mindfully collecting images from the web";
   "Built with respect for community and responsible use
";
   "Enter image URLs (one per line, press Enter twice to finish):"].

(** the four lines of the summary, lines 127-130 *)
Definition summary (urls success_count : nat) : list string :=
  ["
Download Summary:";
   "✓ Successfully downloaded: " +:+ pretty success_count +:+ " image(s)";
   "✗ Failed: " +:+ pretty (urls - success_count) +:+ " image(s)";
   "
Connection strengthened. Community enriched."].

Module Sessions.

(** a file of 9000 bytes, read in three blocks *)
Definition three_blocks : list byte := repeat "x"%byte (3 * 3000).

Definition dir_with_large_file : store :=
  Scenario.store_of {["Fetched_Images/large.bin" := three_blocks]} ∅.

Definition not_found : response :=
  {| status_code := 404; reason := "Not Found";
     response_url := "https://example.com/cat.png";
     content_type_header := Some "text/html"; content_length_header := None;
     content := []; content_error := None |}.

(** the disk fills up while the body is written *)
Definition disk_full_png : response :=
  Scenario.reply (Some "image/png") None [list_byte_of_string "ab"]
    (Some (OSError "[Errno 28] No space left on device")).

Definition typing (entries : list string) : store :=
  {| fs := ∅; existing_hashes := ∅; stdout := []; stdin := entries;
     requests_made := 0; temp_filepath := None; fs_log := [] |}.

(** the loop of [main] over the same URL given twice *)
Definition twice : (exn + nat) * store :=
  download_all (Scenario.always Scenario.png_abc)
    ["https://example.com/cat.png"; "https://example.com/cat.png"]
    Scenario.output_dir 0 Scenario.empty_dir.

(** the user types two entries that are no URLs, then an empty line *)
Definition no_urls : store := typing ["cat.png"; " ftp://example.com/cat.png"; " "].

(** the user types a URL and an entry that is none, then an empty line *)
Definition one_url : store :=
  typing ["  https://example.com/cat.png "; "example.com"; ""; "ignored"].

(** the user types a URL, and the input ends *)
Definition no_empty_line : store := typing ["https://example.com/cat.png"].

(** "cat.png" is in the directory with the bytes "old", and the index
    knows them *)
Definition dir_with_cat : store :=
  Scenario.store_of {["Fetched_Images/cat.png" := list_byte_of_string "old"]}
    {[SHA256.hexdigest (list_byte_of_string "old")]}.

End Sessions.

(** * Checks of the model on concrete inputs *)

Example urlparse_path_plain :
  Py.urlparse_path "https://example.com/cat.png" = "/cat.png".
Proof. reflexivity. Qed.

Example urlparse_path_query :
  Py.urlparse_path "http://example.com/a/b.gif;v=1?x=/y#frag" = "/a/b.gif".
Proof. reflexivity. Qed.

Example urlparse_path_no_path :
  Py.urlparse_path "https://example.com" = "" /\
  Py.basename (Py.urlparse_path "https://example.com/") = "" /\
  Py.basename (Py.urlparse_path "https://example.com/img/") = "".
Proof. repeat split; reflexivity. Qed.

Example int_examples :
  Py.int 4300 " 20_000_000 " = Some 20000000%Z /\
  Py.int 4300 "-5" = Some (-5)%Z /\
  Py.int 4300 "abc" = None /\
  Py.int 4300 "" = None /\
  Py.int 4300 "1__0" = None /\
  Py.int 4300 "12.5" = None /\
  Py.int 4300 "+7" = Some 7%Z /\
  Py.int 4300 "0012" = Some 12%Z /\
  Py.int 4300 "1_" = None.
Proof. repeat split; reflexivity. Qed.

Example strftime_example :
  Py.strftime {| Py.year := 2026; Py.month := 3; Py.day := 9;
                 Py.hour := 7; Py.minute := 5; Py.second := 0 |}
  = "20260309_070500".
Proof. reflexivity. Qed.

Example join_example :
  Py.join "Fetched_Images" "cat.png" = "Fetched_Images/cat.png" /\
  Py.join "out/" "cat.png" = "out/cat.png".
Proof. split; reflexivity. Qed.

Example sha256_constants :
  length SHA256.K = 64 /\ length SHA256.H0 = 8 /\
  head SHA256.K = Some 0x428a2f98%N /\ last SHA256.K = Some 0xc67178f2%N /\
  head SHA256.H0 = Some 0x6a09e667%N /\ last SHA256.H0 = Some 0x5be0cd19%N.
Proof. split_and!; reflexivity. Qed.

Example sha256_abc :
  SHA256.hexdigest (list_byte_of_string "abc")
  = "ba7816bf8f01cfea414140de5dae2223b00361a396177a9cb410ff61f20015ad".
Proof. vm_compute. reflexivity. Qed.

Example sha256_empty :
  SHA256.hexdigest []
  = "e3b0c44298fc1c149afbf4c8996fb92427ae41e4649b934ca495991b7852b855".
Proof. vm_compute. reflexivity. Qed.

Example sha256_two_blocks :
  SHA256.hexdigest
    (list_byte_of_string "abcdbcdecdefdefgefghfghighijhijkijkljklmklmnlmnomnopnopq")
  = "248d6a61d20638b8e5c026930c3e6039a33ce45964ff2167f6ecedd419db06c1".
Proof. vm_compute. reflexivity. Qed.

Example main_session :
  (main (Scenario.always Scenario.png_abc) Scenario.session).1 = inr tt /\
  map_to_list (fs (main (Scenario.always Scenario.png_abc) Scenario.session).2)
  = [("Fetched_Images/cat.png", Scenario.abc)] /\
  drop 4 (stdout (main (Scenario.always Scenario.png_abc) Scenario.session).2)
  = ["> "; "> "; "> ";
     "✗ Invalid URL format: ftp://example.com/cat.png";
     "> ";
     "✓ Successfully fetched: cat.png";
     "✓ Image saved to: Fetched_Images/cat.png";
     "✗ Duplicate image detected: cat.png";
     "
Download Summary:";
     "✓ Successfully downloaded: 1 image(s)";
     "✗ Failed: 1 image(s)";
     "
Connection strengthened. Community enriched."].
Proof. split_and!; vm_compute; reflexivity. Qed.

(** * Properties *)

(** ** Strings *)

Lemma append_cons c (a b : string) : String c a +:+ b = String c (a +:+ b).
Proof. reflexivity. Qed.

Lemma append_length (a b : string) :
  String.length (a +:+ b) = String.length a + String.length b.
Proof.
  induction a as [|c a IH]; [reflexivity|].
  rewrite append_cons. cbn [String.length]. by rewrite IH.
Qed.

Lemma append_assoc (a b c : string) : (a +:+ b) +:+ c = a +:+ b +:+ c.
Proof.
  induction a as [|x a IH]; [reflexivity|].
  rewrite !append_cons. by rewrite IH.
Qed.

Lemma append_nil_r (a : string) : a +:+ "" = a.
Proof.
  induction a as [|x a IH]; [reflexivity|]. rewrite append_cons. by rewrite IH.
Qed.

(** the staging path is never the final path *)
Lemma tmp_suffix_ne (p : string) : p +:+ ".tmp" ≠ p.
Proof.
  intros H. apply (f_equal String.length) in H.
  rewrite append_length in H. cbn [String.length] in H. lia.
Qed.

Lemma contains_append (c : ascii) (a b : string) :
  Py.contains c (a +:+ b) = Py.contains c a || Py.contains c b.
Proof.
  induction a as [|d a IH]; [reflexivity|].
  rewrite append_cons. cbn [Py.contains]. by destruct (Ascii.eqb c d).
Qed.

Lemma rfind_None_contains (c : ascii) (s : string) :
  Py.rfind c s = None -> Py.contains c s = false.
Proof.
  induction s as [|d s IH]; [done|]. cbn [Py.rfind Py.contains].
  destruct (Py.rfind c s); [done|]. destruct (Ascii.eqb c d); [done|].
  intros _. by apply IH.
Qed.

(** a base name holds no slash *)
Lemma basename_no_slash (p : string) : Py.contains "/" (Py.basename p) = false.
Proof.
  unfold Py.basename. induction p as [|d p IH]; [reflexivity|].
  cbn [Py.rfind]. destruct (Py.rfind "/" p) as [i|] eqn:Hp.
  - exact IH.
  - apply rfind_None_contains in Hp.
    destruct (Ascii.eqb "/" d) eqn:Hd; cbn [Py.slice_from Py.contains].
    + exact Hp.
    + by rewrite Hd.
Qed.

Lemma zero_padded_no_slash (width n : nat) :
  Py.contains "/" (Py.zero_padded width n) = false.
Proof.
  revert n. induction width as [|width IH]; intros n; [reflexivity|].
  cbn [Py.zero_padded]. rewrite contains_append, IH. cbn [Py.contains orb].
  unfold Py.digit_char.
  assert (n mod 10 < 10) as Hlt by (apply Nat.mod_upper_bound; lia).
  destruct (n mod 10) as [|[|[|[|[|[|[|[|[|[|k]]]]]]]]]]; try reflexivity; lia.
Qed.

Lemma strftime_no_slash (d : Py.datetime) :
  Py.contains "/" (Py.strftime d) = false.
Proof.
  unfold Py.strftime. rewrite !contains_append, !zero_padded_no_slash.
  reflexivity.
Qed.

Lemma startswith_append (p x : string) : Py.startswith p (p +:+ x) = true.
Proof.
  unfold Py.startswith. induction p as [|c p IH]; [by destruct x|].
  rewrite append_cons. cbn [String.prefix].
  by destruct (ascii_dec c c).
Qed.

Lemma slice_from_append (p x : string) :
  Py.slice_from (String.length p) (p +:+ x) = x.
Proof.
  induction p as [|c p IH]; [by destruct x|].
  rewrite append_cons. exact IH.
Qed.

Lemma startswith_split (p s : string) :
  Py.startswith p s = true -> s = p +:+ Py.slice_from (String.length p) s.
Proof.
  unfold Py.startswith. revert s.
  induction p as [|c p IH]; intros s H; [by destruct s|].
  destruct s as [|d s]; [done|]. cbn [String.prefix] in H.
  destruct (ascii_dec c d) as [->|]; [|done].
  rewrite append_cons. cbn [String.length Py.slice_from].
  by rewrite <- IH.
Qed.

(** ** The store *)

Ltac simpl_store :=
  unfold set_fs, set_existing_hashes, set_stdout, set_stdin,
    set_requests_made, set_temp_filepath, set_fs_log;
  cbn [fs existing_hashes stdout stdin requests_made temp_filepath fs_log].

Ltac simpl_store_in_all :=
  unfold set_fs, set_existing_hashes, set_stdout, set_stdin,
    set_requests_made, set_temp_filepath, set_fs_log in *;
  cbn [fs existing_hashes stdout stdin requests_made temp_filepath fs_log] in *.

(** ** The steps of [download_image] *)

Section Steps.

Variable E : env.

(** The reading loop of [calculate_file_hash] ends and feeds the whole
    file to the hash object. *)
Lemma hash_blocks_all fuel (f h : list byte) :
  length f < fuel -> hash_blocks fuel f h = h ++ f.
Proof.
  revert f h. induction fuel as [|fuel IH]; intros f h Hlen; [lia|].
  cbn [hash_blocks].
  destruct (take 4096 f) as [|b block] eqn:Hblock.
  - assert (length (take 4096 f) = 0) as Hz by (rewrite Hblock; reflexivity).
    rewrite length_take in Hz.
    destruct f; [by rewrite app_nil_r|]. cbn [length] in Hz. lia.
  - rewrite <- Hblock. unfold sha256_update.
    rewrite IH.
    + by rewrite <- app_assoc, take_drop.
    + assert (length (take 4096 f) <> 0) as Hnz
        by (rewrite Hblock; cbn [length]; lia).
      rewrite length_take in Hnz. rewrite length_drop. lia.
Qed.

Lemma calculate_file_hash_file s path data :
  fs s !! path = Some data ->
  calculate_file_hash path s = (inr (SHA256.hexdigest data), s).
Proof.
  intros H. unfold calculate_file_hash. rewrite H.
  rewrite hash_blocks_all by lia. reflexivity.
Qed.

Lemma for_each_write path chunks s data :
  fs s !! path = Some data ->
  for_each chunks (write path) s
  = (inr tt, set_fs_log (fun log => log ++ (op_write path <$> chunks))
               (set_fs (insert path (data ++ concat chunks)) s)).
Proof.
  revert s data. induction chunks as [|chunk chunks IH]; intros s data Hdata.
  - cbn [for_each concat fmap list_fmap]. unfold mret, M_ret. f_equal.
    destruct s; simpl_store_in_all. f_equal.
    + by rewrite app_nil_r, insert_id.
    + by rewrite app_nil_r.
  - cbn [for_each]. unfold mbind, M_bind, write, do_op, modify.
    rewrite (IH _ (data ++ chunk)).
    + f_equal. destruct s; simpl_store_in_all. f_equal.
      * rewrite <- app_assoc. cbn [concat apply_op].
        apply map_eq; intros p. destruct (decide (path = p)) as [->|Hne].
        -- by rewrite !lookup_insert_eq.
        -- by rewrite !lookup_insert_ne, lookup_alter_ne.
      * by rewrite <- app_assoc.
    + destruct s; simpl_store_in_all. cbn [apply_op].
      by rewrite lookup_alter_eq, Hdata.
Qed.

(** Staging leaves the bytes received at the staging path, whether the
    stream ends or raises; it opens the staging path and writes the
    chunks to it, and does nothing else to the files. *)
Lemma save_stream_spec path r s :
  save_stream path r s
  = (match content_error r with Some e => inl e | None => inr tt end,
     set_fs_log (fun log => log ++ op_open_wb path :: (op_write path <$> content r))
       (set_fs (insert path (concat (content r))) s)).
Proof.
  unfold save_stream, open_wb, do_op, modify, mbind, M_bind.
  rewrite (for_each_write path (content r) _ []).
  - cbn [app]. destruct s; simpl_store. cbn [apply_op].
    rewrite insert_insert_eq, <- app_assoc. by destruct (content_error r).
  - destruct s; simpl_store. cbn [apply_op]. by rewrite lookup_insert_eq.
Qed.

(** a file at another path does not change what the path is *)
Lemma is_directory_insert_ne files p q data :
  p ≠ q -> is_directory (<[p := data]> files) q = is_directory files q.
Proof. intros Hne. unfold is_directory. by rewrite lookup_insert_ne. Qed.

Lemma raise_for_status_passes r s :
  status_passes r = true -> raise_for_status r s = (inr tt, s).
Proof.
  unfold status_passes, raise_for_status. intros H.
  destruct (400 <=? status_code r)%nat eqn:H4, (status_code r <? 500)%nat eqn:H5,
    (500 <=? status_code r)%nat eqn:H6, (status_code r <? 600)%nat eqn:H7;
    cbn [andb]; try reflexivity; exfalso;
    apply orb_true_iff in H as [H|H];
    repeat match goal with
    | H : (_ <=? _)%nat = true |- _ => apply Nat.leb_le in H
    | H : (_ <=? _)%nat = false |- _ => apply Nat.leb_gt in H
    | H : (_ <? _)%nat = true |- _ => apply Nat.ltb_lt in H
    | H : (_ <? _)%nat = false |- _ => apply Nat.ltb_ge in H
    end; lia.
Qed.

Lemma declared_too_large_passes r s :
  declared_length_passes E r = true ->
  declared_too_large E (content_length_header r) s = (inr false, s).
Proof.
  unfold declared_length_passes, declared_too_large, int.
  destruct (content_length_header r) as [cl|]; [|done].
  destruct (Py.truthy cl); [|done].
  destruct (Py.int _ cl) as [n|]; [|done].
  intros Hn. unfold mbind, M_bind, mret, M_ret. do 2 f_equal.
  apply Z.ltb_ge. apply Z.leb_le in Hn. lia.
Qed.

(** The file name chosen by the code is the one the specification
    describes. *)
Lemma choose_filename_spec url content_type s :
  choose_filename E url content_type s
  = (inr (spec_filename E url content_type (clock E (requests_made s))), s).
Proof.
  unfold choose_filename, spec_filename, inferred_extension, Py.truthy_opt.
  destruct (guess_extension E content_type) as [ext|]; cbn [default].
  - destruct (Py.truthy ext); cbn [negb orb].
    + destruct (Py.basename (Py.urlparse_path url)) as [|c base];
        cbn [Py.truthy negb orb]; [|done].
      rewrite bool_decide_eq_true_2 by done. done.
    + rewrite orb_true_r. done.
  - rewrite orb_true_r. done.
Qed.

(** What a call does with an admissible response whose body arrives
    whole: the outcome depends on the hash index and on what the final
    path is. *)
Lemma download_image_accepted s url output_dir r :
  accepted E s url r ->
  content_error r = None ->
  let filename := spec_filename E url (default "" (content_type_header r))
                    (clock E (S (requests_made s))) in
  let filepath := Py.join output_dir filename in
  let temp := filepath +:+ ".tmp" in
  let data := concat (content r) in
  let file_hash := SHA256.hexdigest data in
  let staging := op_open_wb temp :: (op_write temp <$> content r) in
  exists s',
    download_image E url output_dir s
    = (inr (negb (bool_decide (file_hash ∈ existing_hashes s))
            && negb (is_directory (fs s) filepath)), s') /\
    requests_made s' = S (requests_made s) /\
    stdin s' = stdin s /\
    if bool_decide (file_hash ∈ existing_hashes s) then
      fs s' = delete temp (fs s) /\
      existing_hashes s' = existing_hashes s /\
      stdout s' = stdout s ++ ["✗ Duplicate image detected: " +:+ filename] /\
      fs_log s' = fs_log s ++ staging ++ [op_remove temp]
    else if is_directory (fs s) filepath then
      fs s' = delete temp (fs s) /\
      existing_hashes s' = existing_hashes s /\
      stdout s' = stdout s ++
        ["✗ Error processing " +:+ url
         +:+ ": [Errno 16] Device or resource busy: " +:+ Py.repr temp
         +:+ " -> " +:+ Py.repr filepath] /\
      fs_log s' = fs_log s ++ staging ++ [op_remove temp]
    else
      fs s' = rename temp filepath (<[temp := data]> (fs s)) data /\
      existing_hashes s' = {[file_hash]} ∪ existing_hashes s /\
      stdout s' = stdout s ++ ["✓ Successfully fetched: " +:+ filename;
                               "✓ Image saved to: " +:+ filepath] /\
      fs_log s' = fs_log s ++ staging ++ [op_rename temp filepath].
Proof.
  intros (Hget & Hstatus & Htype & Hlen) Hstream.
  intros filename filepath temp data file_hash staging.
  assert (temp ≠ filepath) as Hne by apply tmp_suffix_ne.
  destruct s as [files hashes out inp n tmp log]. simpl_store_in_all.
  unfold download_image, try_except, download_image_try.
  unfold mbind, M_bind, modify, requests_get. simpl_store.
  rewrite Hget, raise_for_status_passes by done.
  rewrite Htype. cbn [negb].
  rewrite declared_too_large_passes by done.
  rewrite choose_filename_spec. simpl_store.
  fold filename. fold filepath. fold temp.
  rewrite save_stream_spec, Hstream. fold data. simpl_store.
  erewrite calculate_file_hash_file;
    [|by (simpl_store; rewrite lookup_insert_eq)].
  fold file_hash. unfold hashes_contains. simpl_store.
  destruct (bool_decide (file_hash ∈ hashes)) eqn:Hdup; cbn [negb andb].
  - unfold os_remove, do_op, modify. simpl_store. rewrite lookup_insert_eq.
    eexists. split; [reflexivity|]. simpl_store. cbn [apply_op].
    rewrite delete_insert_eq, <- !app_assoc. done.
  - unfold os_rename. simpl_store. rewrite lookup_insert_eq.
    rewrite is_directory_insert_ne by done.
    destruct (is_directory files filepath); cbn [negb].
    + unfold download_image_except, mbind, M_bind, print, modify.
      cbn [is_RequestException str_exn]. simpl_store.
      unfold read_temp_filepath, os_path_exists. simpl_store.
      rewrite lookup_insert_eq.
      rewrite bool_decide_eq_true_2 by by eexists.
      unfold os_remove, do_op, modify. simpl_store. rewrite lookup_insert_eq.
      simpl_store. cbn [apply_op].
      eexists. split; [reflexivity|]. simpl_store.
      rewrite delete_insert_eq, <- !app_assoc. done.
    + unfold do_op, modify. simpl_store. cbn [apply_op].
      rewrite lookup_insert_eq.
      eexists. split; [reflexivity|]. simpl_store.
      split_and!; try done; by rewrite <- !app_assoc.
Qed.

End Steps.

(** ** Duplicates and promotion *)

(** C1 (as amended): for every staged download whose content hash is
    already in the hash index, the call deletes the staged file, returns
    failure with the message "Duplicate image detected", leaves the hash
    index unchanged and leaves the file at every path other than the
    staging path as it was. *)
Theorem C1_duplicate_is_rolled_back (E : env) (s : store)
    (url output_dir : string) (r : response) :
  accepted E s url r ->
  content_error r = None ->
  let filename := spec_filename E url (default "" (content_type_header r))
                    (clock E (S (requests_made s))) in
  let temp := Py.join output_dir filename +:+ ".tmp" in
  SHA256.hexdigest (concat (content r)) ∈ existing_hashes s ->
  exists s',
    download_image E url output_dir s = (inr false, s') /\
    fs s' !! temp = None /\
    (forall p, p ≠ temp -> fs s' !! p = fs s !! p) /\
    existing_hashes s' = existing_hashes s /\
    stdout s' = stdout s ++ ["✗ Duplicate image detected: " +:+ filename].
Proof.
  intros Hacc Hstream filename temp Hdup.
  destruct (download_image_accepted E s url output_dir r Hacc Hstream)
    as (s' & Hrun & _ & _ & Heffect).
  rewrite bool_decide_eq_true_2 in Hrun, Heffect by done.
  cbn [negb andb] in Hrun.
  destruct Heffect as (Hfs & Hhashes & Hout & _).
  exists s'. repeat split; try done.
  - rewrite Hfs. apply lookup_delete_eq.
  - intros p Hp. rewrite Hfs. by apply lookup_delete_ne.
Qed.

Lemma C1_duplicate_is_rolled_back_witness :
  exists s',
    download_image (Scenario.always Scenario.png_abc)
      "https://example.com/cat.png" Scenario.output_dir Scenario.dir_with_old
    = (inr false, s') /\
    fs s' !! "Fetched_Images/cat.png.tmp" = None /\
    (forall p, p ≠ "Fetched_Images/cat.png.tmp" ->
               fs s' !! p = fs Scenario.dir_with_old !! p) /\
    existing_hashes s' = existing_hashes Scenario.dir_with_old /\
    stdout s' = ["✗ Duplicate image detected: cat.png"].
Proof.
  apply (C1_duplicate_is_rolled_back (Scenario.always Scenario.png_abc)
           Scenario.dir_with_old "https://example.com/cat.png"
           Scenario.output_dir Scenario.png_abc).
  - split_and!; vm_compute; reflexivity.
  - reflexivity.
  - apply (bool_decide_unpack _). vm_compute. exact I.
Defined.

(** C1 as stated fails: in one run, "a.png.tmp" is fetched and finalized
    under that name; the same bytes then arrive for "a.png", are staged at
    "a.png.tmp" over the finalized file, found to be a duplicate, and the
    staged file is deleted.  The finalized file is gone, while its hash
    stays in the index. *)
Lemma C1_finalized_file_is_deleted :
  (Scenario.first_fetch).1 = inr true /\
  accepted (Scenario.always Scenario.png_abc) (Scenario.first_fetch).2
    "https://example.com/a.png" Scenario.png_abc /\
  content_error Scenario.png_abc = None /\
  fs (Scenario.first_fetch).2 !! "Fetched_Images/a.png.tmp" = Some Scenario.abc /\
  SHA256.hexdigest Scenario.abc ∈ existing_hashes (Scenario.first_fetch).2 /\
  (Scenario.second_fetch).1 = inr false /\
  stdout (Scenario.second_fetch).2
  = stdout (Scenario.first_fetch).2 ++ ["✗ Duplicate image detected: a.png"] /\
  fs (Scenario.second_fetch).2 !! "Fetched_Images/a.png.tmp" = None.
Proof.
  unfold accepted. split_and!; vm_compute; reflexivity.
Qed.

(** *** The calls made on the file system *)

Lemma replay_app (ops1 ops2 : list fs_op) (files : gmap string (list byte)) :
  replay (ops1 ++ ops2) files = replay ops2 (replay ops1 files).
Proof. apply fold_left_app. Qed.

Lemma replay_writes (path : string) (chunks : list (list byte))
    (files : gmap string (list byte)) (data : list byte) :
  files !! path = Some data ->
  replay (op_write path <$> chunks) files = <[path := data ++ concat chunks]> files.
Proof.
  revert files data. induction chunks as [|chunk chunks IH]; intros files data Hdata.
  - cbn. by rewrite app_nil_r, insert_id.
  - cbn [fmap list_fmap concat]. unfold replay. cbn [fold_left apply_op].
    fold (replay (op_write path <$> chunks)
            (alter (fun d => d ++ chunk) path files)).
    rewrite (IH _ (data ++ chunk)) by (by rewrite lookup_alter_eq, Hdata).
    rewrite <- app_assoc.
    apply map_eq; intros p. destruct (decide (path = p)) as [->|Hne].
    + by rewrite !lookup_insert_eq.
    + by rewrite !lookup_insert_ne, lookup_alter_ne.
Qed.

(** opening the staging path and writing the chunks leaves the body there *)
Lemma replay_staging (path : string) (chunks : list (list byte))
    (files : gmap string (list byte)) :
  replay (op_open_wb path :: (op_write path <$> chunks)) files
  = <[path := concat chunks]> files.
Proof.
  unfold replay. cbn [fold_left apply_op].
  fold (replay (op_write path <$> chunks) (<[path := []]> files)).
  rewrite (replay_writes _ _ _ []) by apply lookup_insert_eq.
  cbn [app]. apply insert_insert_eq.
Qed.

(** the calls made on one path leave the other paths alone *)
Lemma replay_other_path (path p : string) (ops : list fs_op)
    (files : gmap string (list byte)) :
  Forall (fun op => op = op_open_wb path \/ exists chunk, op = op_write path chunk) ops ->
  p ≠ path ->
  replay ops files !! p = files !! p.
Proof.
  intros Hops Hne. revert files.
  induction Hops as [|op ops Hop _ IH]; intros files; [done|].
  unfold replay. cbn [fold_left]. fold (replay ops (apply_op op files)).
  rewrite IH. destruct Hop as [->|[chunk ->]]; cbn [apply_op].
  - by rewrite lookup_insert_ne.
  - by rewrite lookup_alter_ne.
Qed.

Lemma staging_one_path (path : string) (chunks : list (list byte)) :
  Forall (fun op => op = op_open_wb path \/ exists chunk, op = op_write path chunk)
    (op_open_wb path :: (op_write path <$> chunks)).
Proof.
  constructor; [by left|]. apply Forall_fmap, Forall_forall.
  intros chunk _. right. by exists chunk.
Qed.

(** C2 (as amended): for every fetched response whose hash is not in the
    hash index, whose file name the file system accepts and whose final
    path is no directory, the call moves the staged file to the final path
    by one [os.rename], the only call it makes on the final path: until
    then the final path holds what it held before, from then on the whole
    body.  The call adds the hash to the index and returns success,
    reporting the final file name. *)
Theorem C2_fresh_download_is_promoted (E : env) (s : store)
    (url output_dir : string) (r : response) :
  accepted E s url r ->
  content_error r = None ->
  let filename := spec_filename E url (default "" (content_type_header r))
                    (clock E (S (requests_made s))) in
  let filepath := Py.join output_dir filename in
  let temp := filepath +:+ ".tmp" in
  let data := concat (content r) in
  let file_hash := SHA256.hexdigest data in
  let staging := op_open_wb temp :: (op_write temp <$> content r) in
  file_hash ∉ existing_hashes s ->
  name_accepted filename ->
  is_directory (fs s) filepath = false ->
  exists s',
    download_image E url output_dir s = (inr true, s') /\
    fs_log s' = fs_log s ++ staging ++ [op_rename temp filepath] /\
    fs s' = replay (staging ++ [op_rename temp filepath]) (fs s) /\
    (forall k, k <= length staging ->
       replay (take k staging) (fs s) !! filepath = fs s !! filepath) /\
    replay staging (fs s) !! temp = Some data /\
    fs s' !! filepath = Some data /\
    fs s' !! temp = None /\
    (forall p, p ≠ filepath -> p ≠ temp -> fs s' !! p = fs s !! p) /\
    existing_hashes s' = {[file_hash]} ∪ existing_hashes s /\
    stdout s' = stdout s ++ ["✓ Successfully fetched: " +:+ filename;
                             "✓ Image saved to: " +:+ filepath].
Proof.
  intros Hacc Hstream filename filepath temp data file_hash staging
    Hfresh _ Hfile.
  destruct (download_image_accepted E s url output_dir r Hacc Hstream)
    as (s' & Hrun & _ & _ & Heffect).
  fold filename filepath temp data file_hash staging in Hrun, Heffect.
  rewrite bool_decide_eq_false_2 in Hrun, Heffect by done.
  rewrite Hfile in Hrun, Heffect. cbn [negb andb] in Hrun.
  destruct Heffect as (Hfs & Hhashes & Hout & Hlog).
  assert (temp ≠ filepath) as Hne by apply tmp_suffix_ne.
  assert (replay staging (fs s) = <[temp := data]> (fs s)) as Hstaged
    by apply replay_staging.
  exists s'. split_and!; try done.
  - rewrite replay_app, Hstaged, Hfs. unfold replay.
    cbn [fold_left apply_op]. by rewrite lookup_insert_eq.
  - intros k _. apply (replay_other_path temp); [|done].
    apply Forall_take, staging_one_path.
  - rewrite Hstaged. apply lookup_insert_eq.
  - rewrite Hfs. apply lookup_insert_eq.
  - rewrite Hfs. unfold rename.
    rewrite lookup_insert_ne by done. apply lookup_delete_eq.
  - intros p Hp1 Hp2. rewrite Hfs. unfold rename.
    by rewrite lookup_insert_ne, lookup_delete_ne, lookup_insert_ne.
Qed.

Lemma C2_fresh_download_is_promoted_witness :
  exists s',
    download_image (Scenario.always Scenario.png_abc)
      "https://example.com/cat.png" Scenario.output_dir Scenario.empty_dir
    = (inr true, s') /\
    fs_log s'
    = [] ++ [op_open_wb "Fetched_Images/cat.png.tmp";
             op_write "Fetched_Images/cat.png.tmp" Scenario.abc]
         ++ [op_rename "Fetched_Images/cat.png.tmp" "Fetched_Images/cat.png"] /\
    fs s' !! "Fetched_Images/cat.png" = Some Scenario.abc /\
    fs s' !! "Fetched_Images/cat.png.tmp" = None /\
    existing_hashes s' = {[SHA256.hexdigest Scenario.abc]} ∪ ∅ /\
    stdout s' = ["✓ Successfully fetched: cat.png";
                 "✓ Image saved to: Fetched_Images/cat.png"].
Proof.
  destruct (C2_fresh_download_is_promoted (Scenario.always Scenario.png_abc)
              Scenario.empty_dir "https://example.com/cat.png"
              Scenario.output_dir Scenario.png_abc)
    as (s' & Hrun & Hlog & _ & _ & _ & Hfile & Htemp & _ & Hhashes & Hout).
  - split_and!; vm_compute; reflexivity.
  - reflexivity.
  - apply not_elem_of_empty.
  - split_and!; [reflexivity..|]. vm_compute. lia.
  - reflexivity.
  - exists s'. split_and!;
      [exact Hrun|exact Hlog|exact Hfile|exact Htemp|exact Hhashes|exact Hout].
Defined.

(** C2 as stated fails: the response to "https://example.com/.." is
    fetched whole and its hash is not in the index, but the file name is
    "..", the final path is the parent of the output directory, and
    [os.rename] raises.  The call reports a processing error, removes the
    staged file and returns failure; no hash is added, no file is stored. *)
Lemma C2_final_path_is_a_directory :
  accepted (Scenario.always Scenario.png_abc) Scenario.empty_dir
    "https://example.com/.." Scenario.png_abc /\
  content_error Scenario.png_abc = None /\
  (SHA256.hexdigest (concat (content Scenario.png_abc))
   ∉ existing_hashes Scenario.empty_dir) /\
  spec_filename (Scenario.always Scenario.png_abc) "https://example.com/.."
    "image/png" (Scenario.new_year 1) = ".." /\
  (Scenario.dots_fetch).1 = inr false /\
  stdout (Scenario.dots_fetch).2
  = ["✗ Error processing https://example.com/..: [Errno 16] Device or resource busy: 'Fetched_Images/...tmp' -> 'Fetched_Images/..'"] /\
  fs (Scenario.dots_fetch).2 = ∅ /\
  existing_hashes (Scenario.dots_fetch).2 = ∅ /\
  fs_log (Scenario.dots_fetch).2
  = [op_open_wb "Fetched_Images/...tmp";
     op_write "Fetched_Images/...tmp" Scenario.abc;
     op_remove "Fetched_Images/...tmp"].
Proof.
  unfold accepted. split_and!; try (vm_compute; reflexivity).
  apply not_elem_of_empty.
Qed.

(** ** The paths that end in a failure *)

Section Failures.

Variable E : env.

Ltac start_run s :=
  destruct s as [files hashes out inp made tmp log]; simpl_store_in_all;
  unfold download_image, try_except, download_image_try;
  unfold mbind, M_bind, modify, requests_get; simpl_store.

Lemma raise_for_status_fails r s :
  status_passes r = false ->
  exists msg, raise_for_status r s = (inl (RequestException msg), s).
Proof.
  unfold status_passes, raise_for_status. intros H.
  apply orb_false_iff in H as [H1 H2].
  apply Nat.ltb_ge in H1. apply Nat.leb_gt in H2.
  destruct (status_code r <? 500)%nat eqn:H5.
  - rewrite (proj2 (Nat.leb_le _ _)) by lia. cbn [andb]. by eexists.
  - apply Nat.ltb_ge in H5.
    rewrite andb_false_r.
    rewrite (proj2 (Nat.leb_le 500 _)), (proj2 (Nat.ltb_lt _ 600)) by lia.
    cbn [andb]. by eexists.
Qed.

(** [requests.get] raises *)
Lemma download_image_get_raises s url output_dir e :
  http E (S (requests_made s)) url = inl e ->
  exists s',
    download_image E url output_dir s
    = (if is_RequestException e then inr false
       else inl (UnboundLocalError
              "cannot access local variable 'temp_filepath' where it is not associated with a value"),
       s') /\
    fs s' = fs s /\ existing_hashes s' = existing_hashes s /\
    requests_made s' = S (requests_made s) /\
    stdout s' = stdout s ++
      [(if is_RequestException e then "✗ Network error for "
        else "✗ Error processing ") +:+ url +:+ ": " +:+ str_exn e] /\
    fs_log s' = fs_log s.
Proof.
  intros Hget. start_run s. rewrite Hget.
  unfold download_image_except, mbind, M_bind, print, modify.
  destruct (is_RequestException e); simpl_store; by eexists.
Qed.

(** the status is an error: [raise_for_status] raises [HTTPError] *)
Lemma download_image_status_fails s url output_dir r :
  http E (S (requests_made s)) url = inr r ->
  status_passes r = false ->
  exists s' msg,
    download_image E url output_dir s = (inr false, s') /\
    fs s' = fs s /\ existing_hashes s' = existing_hashes s /\
    requests_made s' = S (requests_made s) /\
    stdout s' = stdout s ++ ["✗ Network error for " +:+ url +:+ ": " +:+ msg] /\
    fs_log s' = fs_log s.
Proof.
  intros Hget Hstatus. start_run s. rewrite Hget.
  destruct (raise_for_status_fails r
              {| fs := files; existing_hashes := hashes; stdout := out;
                 stdin := inp; requests_made := S made; temp_filepath := None;
                 fs_log := log |}
              Hstatus) as [msg ->].
  unfold download_image_except, mbind, M_bind, print, modify.
  cbn [is_RequestException str_exn]. simpl_store. by eexists _, msg.
Qed.

(** the content type is not on the list *)
Lemma download_image_invalid_type s url output_dir r :
  http E (S (requests_made s)) url = inr r ->
  status_passes r = true ->
  is_valid_image_content_type (default "" (content_type_header r)) = false ->
  exists s',
    download_image E url output_dir s = (inr false, s') /\
    fs s' = fs s /\ existing_hashes s' = existing_hashes s /\
    requests_made s' = S (requests_made s) /\
    stdout s' = stdout s ++
      ["✗ Invalid content type for " +:+ url +:+ ": "
       +:+ default "" (content_type_header r)] /\
    fs_log s' = fs_log s.
Proof.
  intros Hget Hstatus Htype. start_run s.
  rewrite Hget, raise_for_status_passes, Htype by done.
  cbn [negb]. unfold print, modify. simpl_store. by eexists.
Qed.

(** the declared length is an integer above 10 MiB *)
Lemma download_image_too_large s url output_dir r cl n :
  http E (S (requests_made s)) url = inr r ->
  status_passes r = true ->
  is_valid_image_content_type (default "" (content_type_header r)) = true ->
  content_length_header r = Some cl ->
  Py.int (int_max_str_digits E) cl = Some n ->
  (10485760 < n)%Z ->
  exists s',
    download_image E url output_dir s = (inr false, s') /\
    fs s' = fs s /\ existing_hashes s' = existing_hashes s /\
    requests_made s' = S (requests_made s) /\
    stdout s' = stdout s ++
      ["✗ File too large for " +:+ url +:+ ": " +:+ cl +:+ " bytes"] /\
    fs_log s' = fs_log s.
Proof.
  intros Hget Hstatus Htype Hcl Hint Hn. start_run s.
  rewrite Hget, raise_for_status_passes, Htype by done.
  cbn [negb]. rewrite Hcl. unfold declared_too_large, int.
  assert (Py.truthy cl = true) as ->.
  { destruct cl; [|done]. vm_compute in Hint. discriminate Hint. }
  rewrite Hint. unfold mbind, M_bind, mret, M_ret.
  rewrite (proj2 (Z.ltb_lt _ _)) by (cbn; lia).
  unfold print, modify, mbind, M_bind. simpl_store. cbn [default]. by eexists.
Qed.

(** the declared length is not an integer: [int] raises [ValueError]
    before [temp_filepath] is bound, and the handler, reading that
    variable, raises [UnboundLocalError] *)
Lemma download_image_bad_length s url output_dir r cl :
  http E (S (requests_made s)) url = inr r ->
  status_passes r = true ->
  is_valid_image_content_type (default "" (content_type_header r)) = true ->
  content_length_header r = Some cl ->
  cl ≠ "" ->
  Py.int (int_max_str_digits E) cl = None ->
  exists s',
    download_image E url output_dir s
    = (inl (UnboundLocalError
              "cannot access local variable 'temp_filepath' where it is not associated with a value"),
       s') /\
    fs s' = fs s /\ existing_hashes s' = existing_hashes s /\
    requests_made s' = S (requests_made s) /\
    stdout s' = stdout s ++
      ["✗ Error processing " +:+ url +:+ ": "
       +:+ Py.int_error (int_max_str_digits E) cl] /\
    fs_log s' = fs_log s.
Proof.
  intros Hget Hstatus Htype Hcl Hne Hint. start_run s.
  rewrite Hget, raise_for_status_passes, Htype by done.
  cbn [negb]. rewrite Hcl. unfold declared_too_large, int.
  assert (Py.truthy cl = true) as -> by by destruct cl.
  rewrite Hint. unfold mbind, M_bind, raise.
  unfold download_image_except, mbind, M_bind, print, modify.
  cbn [is_RequestException str_exn]. simpl_store.
  unfold read_temp_filepath. simpl_store. by eexists.
Qed.

(** the body stops with an exception: a [RequestException] is reported
    as a network error and the staged file stays; any other exception is
    reported as a processing error and the staged file is removed *)
Lemma download_image_stream_raises s url output_dir r e :
  accepted E s url r ->
  content_error r = Some e ->
  let filename := spec_filename E url (default "" (content_type_header r))
                    (clock E (S (requests_made s))) in
  let temp := Py.join output_dir filename +:+ ".tmp" in
  exists s',
    download_image E url output_dir s = (inr false, s') /\
    fs s' = (if is_RequestException e
             then <[temp := concat (content r)]> (fs s)
             else delete temp (fs s)) /\
    existing_hashes s' = existing_hashes s /\
    requests_made s' = S (requests_made s) /\
    stdout s' = stdout s ++
      [(if is_RequestException e then "✗ Network error for "
        else "✗ Error processing ") +:+ url +:+ ": " +:+ str_exn e] /\
    fs_log s' = fs_log s ++ op_open_wb temp :: (op_write temp <$> content r)
                ++ (if is_RequestException e then [] else [op_remove temp]).
Proof.
  intros (Hget & Hstatus & Htype & Hlen) Hstream filename temp.
  start_run s.
  rewrite Hget, raise_for_status_passes, Htype by done.
  cbn [negb]. rewrite declared_too_large_passes by done.
  rewrite choose_filename_spec. simpl_store. fold filename. fold temp.
  rewrite save_stream_spec, Hstream. simpl_store.
  unfold download_image_except, mbind, M_bind, print, modify.
  destruct (is_RequestException e); simpl_store.
  - eexists. split_and!; try done. simpl_store. by rewrite app_nil_r.
  - unfold read_temp_filepath, os_path_exists. simpl_store.
    rewrite lookup_insert_eq.
    rewrite bool_decide_eq_true_2 by by eexists.
    unfold os_remove, do_op, modify. simpl_store. rewrite lookup_insert_eq.
    simpl_store. cbn [apply_op].
    eexists. split_and!; try done; simpl_store.
    + by rewrite delete_insert_eq.
    + by rewrite <- app_assoc.
Qed.

End Failures.

(** ** Every call falls under one of the paths *)

Section Cases.

Variable E : env.

Lemma path_taken_total s url : path_taken E s url.
Proof.
  destruct (http E (S (requests_made s)) url) as [e|r] eqn:Hget;
    [by eapply get_raises|].
  destruct (status_passes r) eqn:Hstatus; [|by eapply status_fails].
  destruct (is_valid_image_content_type (default "" (content_type_header r)))
    eqn:Htype; [|by eapply invalid_type].
  destruct (declared_length_passes E r) eqn:Hlen.
  { destruct (content_error r) as [e|] eqn:Hstream.
    - by eapply (stream_raises _ _ _ r e).
    - by eapply (staged _ _ _ r). }
  unfold declared_length_passes in Hlen.
  destruct (content_length_header r) as [cl|] eqn:Hcl; [|done].
  destruct (Py.truthy cl) eqn:Htruthy; [|done].
  assert (cl ≠ "") by (by destruct cl).
  destruct (Py.int (int_max_str_digits E) cl) as [n|] eqn:Hint.
  - apply Z.leb_gt in Hlen. by eapply (too_large _ _ _ r cl n).
  - by eapply (bad_length _ _ _ r cl).
Qed.

(** A call returns success only on the path that stages the whole body,
    finds its hash new and renames the staged file. *)
Lemma download_image_true_inv s url output_dir s' :
  download_image E url output_dir s = (inr true, s') ->
  exists r,
    accepted E s url r /\ content_error r = None /\
    (SHA256.hexdigest (concat (content r)) ∉ existing_hashes s) /\
    is_directory (fs s)
      (Py.join output_dir
         (spec_filename E url (default "" (content_type_header r))
            (clock E (S (requests_made s))))) = false.
Proof.
  intros Hrun. destruct (path_taken_total s url)
    as [e Hget|r Hget Hst|r Hget Hst Hty|r cl Hget Hst Hty Hcl Hne Hint
       |r cl n Hget Hst Hty Hcl Hint Hn|r e Hacc Herr|r Hacc Hok].
  - destruct (download_image_get_raises E s url output_dir e Hget)
      as (s1 & Heq & _). rewrite Heq in Hrun.
    by destruct (is_RequestException e).
  - destruct (download_image_status_fails E s url output_dir r Hget Hst)
      as (s1 & msg & Heq & _). by rewrite Heq in Hrun.
  - destruct (download_image_invalid_type E s url output_dir r Hget Hst Hty)
      as (s1 & Heq & _). by rewrite Heq in Hrun.
  - destruct (download_image_bad_length E s url output_dir r cl
                Hget Hst Hty Hcl Hne Hint) as (s1 & Heq & _).
    by rewrite Heq in Hrun.
  - destruct (download_image_too_large E s url output_dir r cl n
                Hget Hst Hty Hcl Hint Hn) as (s1 & Heq & _).
    by rewrite Heq in Hrun.
  - destruct (download_image_stream_raises E s url output_dir r e Hacc Herr)
      as (s1 & Heq & _). by rewrite Heq in Hrun.
  - exists r.
    destruct (download_image_accepted E s url output_dir r Hacc Hok)
      as (s1 & Heq & _). rewrite Heq in Hrun.
    split_and!; [done..| |].
    + intros Hin. rewrite bool_decide_eq_true_2 in Hrun by done. done.
    + destruct (is_directory _ _); [|done].
      rewrite andb_false_r in Hrun. done.
Qed.

(** The hash index only grows, and a call makes exactly one request. *)
Lemma download_image_grows s url output_dir :
  existing_hashes s ⊆ existing_hashes (download_image E url output_dir s).2 /\
  requests_made (download_image E url output_dir s).2 = S (requests_made s).
Proof.
  destruct (path_taken_total s url)
    as [e Hget|r Hget Hst|r Hget Hst Hty|r cl Hget Hst Hty Hcl Hne Hint
       |r cl n Hget Hst Hty Hcl Hint Hn|r e Hacc Herr|r Hacc Hok].
  - destruct (download_image_get_raises E s url output_dir e Hget)
      as (s1 & Heq & _ & Hh & Hn & _).
    rewrite Heq. cbn [snd]. by rewrite Hh, Hn.
  - destruct (download_image_status_fails E s url output_dir r Hget Hst)
      as (s1 & msg & Heq & _ & Hh & Hn & _).
    rewrite Heq. cbn [snd]. by rewrite Hh, Hn.
  - destruct (download_image_invalid_type E s url output_dir r Hget Hst Hty)
      as (s1 & Heq & _ & Hh & Hn & _).
    rewrite Heq. cbn [snd]. by rewrite Hh, Hn.
  - destruct (download_image_bad_length E s url output_dir r cl
                Hget Hst Hty Hcl Hne Hint) as (s1 & Heq & _ & Hh & Hn & _).
    rewrite Heq. cbn [snd]. by rewrite Hh, Hn.
  - destruct (download_image_too_large E s url output_dir r cl n
                Hget Hst Hty Hcl Hint Hn) as (s1 & Heq & _ & Hh & Hm & _).
    rewrite Heq. cbn [snd]. by rewrite Hh, Hm.
  - destruct (download_image_stream_raises E s url output_dir r e Hacc Herr)
      as (s1 & Heq & _ & Hh & Hn & _).
    rewrite Heq. cbn [snd]. by rewrite Hh, Hn.
  - destruct (download_image_accepted E s url output_dir r Hacc Hok)
      as (s1 & Heq & Hn & _ & Heffect).
    rewrite Heq. cbn [snd]. split; [|done].
    destruct (bool_decide _); [|destruct (is_directory _ _)];
      destruct Heffect as (_ & -> & _); [done..|apply union_subseteq_r].
Qed.

Lemma download_all_grows urls s output_dir count :
  existing_hashes s ⊆ existing_hashes (download_all E urls output_dir count s).2.
Proof.
  revert s count. induction urls as [|url urls IH]; intros s count; [done|].
  cbn [download_all]. unfold mbind, M_bind.
  pose proof (download_image_grows s url output_dir) as [Hgrow _].
  destruct (download_image E url output_dir s) as [[e|ok] s1]; [done|].
  etrans; [exact Hgrow|]. apply IH.
Qed.

End Cases.

(** ** The validator *)

Lemma lower_append (a b : string) : Py.lower (a +:+ b) = Py.lower a +:+ Py.lower b.
Proof.
  induction a as [|c a IH]; [reflexivity|].
  rewrite append_cons. cbn [Py.lower]. by rewrite append_cons, IH.
Qed.

Lemma lower_nonempty (a : string) : a ≠ "" -> Py.lower a ≠ "".
Proof. by destruct a. Qed.

(** no entry of the list extends to another one, on either side *)
Lemma valid_types_no_extension (x y : string) :
  x ∈ valid_types -> y ≠ "" ->
  ((x +:+ y) ∉ valid_types) /\ ((y +:+ x) ∉ valid_types).
Proof.
  unfold valid_types. intros Hx Hy.
  rewrite !elem_of_cons, elem_of_nil in Hx.
  split; rewrite !elem_of_cons, elem_of_nil.
  - intros H.
    destruct Hx as [->|[->|[->|[->|[]]]]];
      destruct H as [H|[H|[H|[H|[]]]]];
      lazy [String.append] in H; simplify_eq.
  - intros H. destruct y as [|c [|c' y]]; [done| |].
    + destruct Hx as [->|[->|[->|[->|[]]]]];
        destruct H as [H|[H|[H|[H|[]]]]];
        lazy [String.append] in H; simplify_eq.
    + assert (String.length (String c (String c' y) +:+ x) <= 10) as Hlen
        by (destruct H as [->|[->|[->|[->|[]]]]]; cbn; lia).
      rewrite append_length in Hlen. cbn [String.length] in Hlen.
      destruct Hx as [->|[->|[->|[->|[]]]]]; cbn in Hlen; lia.
Qed.

(** *** Equality up to case and [str.lower] *)

Lemma all_chars_complete (c : ascii) : In c all_chars.
Proof.
  unfold all_chars. rewrite <- (ascii_nat_embedding c).
  apply in_map, in_seq. pose proof (nat_ascii_bounded c). lia.
Qed.

(** [str.lower] takes a character to such a [d] exactly when it is [d] or
    the capital of [d] *)
Lemma lower_char_same_letter (c d : ascii) :
  no_capital d = true ->
  Py.lower_char c = d <-> same_letter c d = true.
Proof.
  assert (forallb (fun c => forallb (fun d =>
            implb (no_capital d)
              (Bool.eqb (Ascii.eqb (Py.lower_char c) d) (same_letter c d)))
            all_chars) all_chars = true) as Hall
    by (vm_compute; reflexivity).
  intros Hd. rewrite forallb_forall in Hall.
  specialize (Hall c (all_chars_complete c)).
  rewrite forallb_forall in Hall.
  specialize (Hall d (all_chars_complete d)).
  rewrite Hd in Hall. cbn [implb] in Hall.
  apply Bool.eqb_prop in Hall. rewrite <- Hall. symmetry. apply Ascii.eqb_eq.
Qed.

Lemma lower_equal_ignoring_case (t a : string) :
  Py.forallb_str no_capital t = true ->
  Py.lower a = t <-> equal_ignoring_case a t = true.
Proof.
  revert a. induction t as [|d t IH]; intros a Ht.
  - destruct a; cbn; split; congruence.
  - cbn [Py.forallb_str] in Ht. apply andb_true_iff in Ht as [Hd Ht].
    destruct a as [|c a]; [cbn; split; congruence|].
    cbn [Py.lower equal_ignoring_case]. rewrite andb_true_iff.
    rewrite <- (IH a Ht), <- (lower_char_same_letter c d Hd).
    split; [intros H; by simplify_eq|intros [-> ->]; done].
Qed.

(** C3: the validator accepts exactly the content types that are equal,
    up to the case of their letters, to image/jpeg, image/png, image/gif or
    image/bmp; a call whose response declares any other content type, the
    empty and the missing one included, fails with the message "Invalid
    content type" and stores nothing, while a response that declares one
    of the four, in any case, passes the check and is stored. *)
Theorem C3_content_type_validation (E : env) :
  (forall content_type,
     is_valid_image_content_type content_type = true <->
     equal_ignoring_case content_type "image/jpeg" = true \/
     equal_ignoring_case content_type "image/png" = true \/
     equal_ignoring_case content_type "image/gif" = true \/
     equal_ignoring_case content_type "image/bmp" = true) /\
  is_valid_image_content_type "" = false /\
  (forall s url output_dir r,
     http E (S (requests_made s)) url = inr r ->
     status_passes r = true ->
     is_valid_image_content_type (default "" (content_type_header r)) = false ->
     exists s',
       download_image E url output_dir s = (inr false, s') /\
       stdout s' = stdout s ++
         ["✗ Invalid content type for " +:+ url +:+ ": "
          +:+ default "" (content_type_header r)] /\
       fs s' = fs s /\
       existing_hashes s' = existing_hashes s) /\
  (forall s url output_dir r listed,
     http E (S (requests_made s)) url = inr r ->
     status_passes r = true ->
     listed ∈ ["image/jpeg"; "image/png"; "image/gif"; "image/bmp"] ->
     equal_ignoring_case (default "" (content_type_header r)) listed = true ->
     declared_length_passes E r = true ->
     content_error r = None ->
     let filename := spec_filename E url (default "" (content_type_header r))
                       (clock E (S (requests_made s))) in
     name_accepted filename ->
     is_directory (fs s) (Py.join output_dir filename) = false ->
     (SHA256.hexdigest (concat (content r)) ∉ existing_hashes s) ->
     exists s',
       download_image E url output_dir s = (inr true, s') /\
       fs s' !! Py.join output_dir filename = Some (concat (content r))).
Proof.
  assert (forall content_type,
     is_valid_image_content_type content_type = true <->
     equal_ignoring_case content_type "image/jpeg" = true \/
     equal_ignoring_case content_type "image/png" = true \/
     equal_ignoring_case content_type "image/gif" = true \/
     equal_ignoring_case content_type "image/bmp" = true) as Hvalid.
  { intros content_type. unfold is_valid_image_content_type, valid_types.
    rewrite bool_decide_eq_true, !elem_of_cons, elem_of_nil.
    rewrite <- !lower_equal_ignoring_case by reflexivity. tauto. }
  split_and!.
  - exact Hvalid.
  - reflexivity.
  - intros s url output_dir r Hget Hstatus Htype.
    destruct (download_image_invalid_type E s url output_dir r Hget Hstatus Htype)
      as (s' & Hrun & Hfs & Hhashes & _ & Hout & _).
    by exists s'.
  - intros s url output_dir r listed Hget Hstatus Hlisted Hcase Hlen Hstream
      filename _ Hfile Hfresh.
    assert (accepted E s url r) as Hacc.
    { split_and!; [done..| |done]. apply Hvalid.
      rewrite !elem_of_cons, elem_of_nil in Hlisted.
      destruct Hlisted as [->|[->|[->|[->|[]]]]]; tauto. }
    destruct (download_image_accepted E s url output_dir r Hacc Hstream)
      as (s' & Hrun & _ & _ & Heffect).
    fold filename in Hrun, Heffect.
    rewrite bool_decide_eq_false_2 in Hrun, Heffect by done.
    rewrite Hfile in Hrun, Heffect. cbn [negb andb] in Hrun.
    destruct Heffect as (Hfs & _).
    exists s'. split; [done|]. rewrite Hfs. apply lookup_insert_eq.
Qed.

Lemma C3_content_type_validation_witness :
  is_valid_image_content_type "IMAGE/PNG" = true /\
  is_valid_image_content_type "Image/Jpeg" = true /\
  (exists s',
     download_image (Scenario.always Scenario.html_page)
       "https://example.com/page" Scenario.output_dir Scenario.empty_dir
     = (inr false, s') /\
     stdout s' = ["✗ Invalid content type for https://example.com/page: text/html"] /\
     fs s' = ∅ /\
     existing_hashes s' = ∅) /\
  (exists s',
     download_image (Scenario.always Scenario.capitals_png)
       "https://example.com/cat.png" Scenario.output_dir Scenario.empty_dir
     = (inr true, s') /\
     fs s' !! "Fetched_Images/cat.png" = Some Scenario.abc).
Proof.
  split_and!.
  - apply (proj1 (C3_content_type_validation (Scenario.always Scenario.png_abc))
             "IMAGE/PNG").
    right; left. reflexivity.
  - apply (proj1 (C3_content_type_validation (Scenario.always Scenario.png_abc))
             "Image/Jpeg").
    left. reflexivity.
  - apply (proj1 (proj2 (proj2 (C3_content_type_validation
                                  (Scenario.always Scenario.html_page))))
             Scenario.empty_dir "https://example.com/page" Scenario.output_dir
             Scenario.html_page);
      vm_compute; reflexivity.
  - apply (proj2 (proj2 (proj2 (C3_content_type_validation
                                  (Scenario.always Scenario.capitals_png))))
             Scenario.empty_dir "https://example.com/cat.png"
             Scenario.output_dir Scenario.capitals_png "image/png").
    + reflexivity.
    + reflexivity.
    + apply (bool_decide_unpack _). vm_compute. exact I.
    + reflexivity.
    + vm_compute. reflexivity.
    + reflexivity.
    + split_and!; [reflexivity..|]. vm_compute. lia.
    + reflexivity.
    + apply not_elem_of_empty.
Defined.

(** C4 (as amended): for every response whose declared content length
    is present and is read by [int] as an integer above 10,485,760, the
    call fails before any byte of the body is stored (it makes no call on
    the file system), whatever the declared content type.  The message is
    "File too large" when the status is no error and the content type is
    on the list, "Invalid content type" when the status is no error and
    the content type is not on the list, and "Network error" when the
    status is an error. *)
Theorem C4_declared_length_over_limit (E : env) (s : store)
    (url output_dir : string) (r : response) (cl : string) (n : Z) :
  http E (S (requests_made s)) url = inr r ->
  content_length_header r = Some cl ->
  Py.int (int_max_str_digits E) cl = Some n ->
  (10485760 < n)%Z ->
  exists s' line,
    download_image E url output_dir s = (inr false, s') /\
    fs s' = fs s /\
    fs_log s' = fs_log s /\
    existing_hashes s' = existing_hashes s /\
    stdout s' = stdout s ++ [line] /\
    if status_passes r then
      line = if is_valid_image_content_type (default "" (content_type_header r))
             then "✗ File too large for " +:+ url +:+ ": " +:+ cl +:+ " bytes"
             else "✗ Invalid content type for " +:+ url +:+ ": "
                  +:+ default "" (content_type_header r)
    else
      exists msg, line = "✗ Network error for " +:+ url +:+ ": " +:+ msg.
Proof.
  intros Hget Hcl Hint Hn.
  destruct (status_passes r) eqn:Hstatus.
  - destruct (is_valid_image_content_type (default "" (content_type_header r)))
      eqn:Htype.
    + destruct (download_image_too_large E s url output_dir r cl n
                  Hget Hstatus Htype Hcl Hint Hn)
        as (s' & Hrun & Hfs & Hhashes & _ & Hout & Hlog).
      by eexists s', _.
    + destruct (download_image_invalid_type E s url output_dir r
                  Hget Hstatus Htype)
        as (s' & Hrun & Hfs & Hhashes & _ & Hout & Hlog).
      by eexists s', _.
  - destruct (download_image_status_fails E s url output_dir r Hget Hstatus)
      as (s' & msg & Hrun & Hfs & Hhashes & _ & Hout & Hlog).
    eexists s', _. split_and!; [done..|]. by exists msg.
Qed.

Lemma C4_declared_length_over_limit_witness :
  exists s' line,
    download_image (Scenario.always Scenario.huge_png)
      "https://example.com/cat.png" Scenario.output_dir Scenario.empty_dir
    = (inr false, s') /\
    fs s' = ∅ /\
    fs_log s' = [] /\
    existing_hashes s' = ∅ /\
    stdout s' = [] ++ [line] /\
    line = "✗ File too large for https://example.com/cat.png: 20000000 bytes".
Proof.
  apply (C4_declared_length_over_limit (Scenario.always Scenario.huge_png)
           Scenario.empty_dir "https://example.com/cat.png"
           Scenario.output_dir Scenario.huge_png "20000000" 20000000).
  - reflexivity.
  - reflexivity.
  - vm_compute. reflexivity.
  - lia.
Defined.

(** C4 as stated fails: a response declaring 20,000,000 bytes and the
    content type text/html is rejected with "Invalid content type", not
    with "File too large": the content type is checked first. *)
Lemma C4_invalid_type_is_reported_first :
  content_length_header Scenario.html_page = Some "20000000" /\
  Py.int 4300 "20000000" = Some 20000000%Z /\
  (Scenario.html_fetch).1 = inr false /\
  stdout (Scenario.html_fetch).2
  = ["✗ Invalid content type for https://example.com/page: text/html"].
Proof. split_and!; vm_compute; reflexivity. Qed.

(** C10: the check compares the whole lower-cased header with the
    entries of the list, so a content type that is a listed one followed
    or preceded by anything (parameters, white space) is not valid, and a
    call whose response declares it fails with "Invalid content type". *)
Theorem C10_extra_characters_are_rejected (E : env) :
  (forall content_type,
     is_valid_image_content_type content_type = true <->
     Py.lower content_type ∈ ["image/jpeg"; "image/png"; "image/gif"; "image/bmp"]) /\
  (forall content_type extra,
     is_valid_image_content_type content_type = true -> extra ≠ "" ->
     is_valid_image_content_type (content_type +:+ extra) = false /\
     is_valid_image_content_type (extra +:+ content_type) = false) /\
  is_valid_image_content_type "image/png; charset=utf-8" = false /\
  is_valid_image_content_type " image/png" = false /\
  (forall s url output_dir r content_type extra,
     http E (S (requests_made s)) url = inr r ->
     status_passes r = true ->
     is_valid_image_content_type content_type = true -> extra ≠ "" ->
     content_type_header r = Some (content_type +:+ extra) \/
     content_type_header r = Some (extra +:+ content_type) ->
     exists s',
       download_image E url output_dir s = (inr false, s') /\
       stdout s' = stdout s ++
         ["✗ Invalid content type for " +:+ url +:+ ": "
          +:+ default "" (content_type_header r)]).
Proof.
  assert (forall content_type extra,
     is_valid_image_content_type content_type = true -> extra ≠ "" ->
     is_valid_image_content_type (content_type +:+ extra) = false /\
     is_valid_image_content_type (extra +:+ content_type) = false) as Hext.
  { intros content_type extra Hvalid Hextra.
    unfold is_valid_image_content_type in *.
    apply bool_decide_eq_true in Hvalid.
    destruct (valid_types_no_extension (Py.lower content_type) (Py.lower extra)
                Hvalid (lower_nonempty extra Hextra)) as [H1 H2].
    rewrite !lower_append. by rewrite !bool_decide_eq_false_2. }
  split_and!; [|exact Hext|reflexivity|reflexivity|].
  - intros content_type. unfold is_valid_image_content_type.
    by rewrite bool_decide_eq_true.
  - intros s url output_dir r content_type extra Hget Hstatus Hvalid Hextra Hct.
    destruct (Hext content_type extra Hvalid Hextra) as [H1 H2].
    assert (is_valid_image_content_type (default "" (content_type_header r))
            = false) as Htype by (by destruct Hct as [-> | ->]).
    destruct (download_image_invalid_type E s url output_dir r Hget Hstatus Htype)
      as (s' & Hrun & _ & _ & _ & Hout & _).
    by exists s'.
Qed.

Lemma C10_extra_characters_are_rejected_witness :
  exists s',
    download_image (Scenario.always Scenario.png_with_charset)
      "https://example.com/cat.png" Scenario.output_dir Scenario.empty_dir
    = (inr false, s') /\
    stdout s'
    = ["✗ Invalid content type for https://example.com/cat.png: image/png; charset=utf-8"].
Proof.
  apply (proj2 (proj2 (proj2 (proj2 (C10_extra_characters_are_rejected
                         (Scenario.always Scenario.png_with_charset)))))
           Scenario.empty_dir "https://example.com/cat.png" Scenario.output_dir
           Scenario.png_with_charset "image/png" "; charset=utf-8");
    try (vm_compute; reflexivity).
  - discriminate.
  - left. reflexivity.
Defined.

(** ** The two defects *)

(** C5 fails on the code: when the body of an accepted response breaks
    off with a [RequestException], the first [except] clause reports a
    network error and returns, and the staged file stays in the output
    directory, under its name ending in .tmp, with the bytes received. *)
Theorem C5_staged_file_survives_stream_error (E : env) (s : store)
    (url output_dir : string) (r : response) (msg : string) :
  accepted E s url r ->
  content_error r = Some (RequestException msg) ->
  let filename := spec_filename E url (default "" (content_type_header r))
                    (clock E (S (requests_made s))) in
  let temp := Py.join output_dir filename +:+ ".tmp" in
  exists s',
    download_image E url output_dir s = (inr false, s') /\
    stdout s' = stdout s ++ ["✗ Network error for " +:+ url +:+ ": " +:+ msg] /\
    fs s' !! temp = Some (concat (content r)).
Proof.
  intros Hacc Hstream filename temp.
  destruct (download_image_stream_raises E s url output_dir r _ Hacc Hstream)
    as (s' & Hrun & Hfs & _ & _ & Hout & _).
  cbn [is_RequestException str_exn] in Hfs, Hout.
  exists s'. split_and!; [done..|].
  rewrite Hfs. apply lookup_insert_eq.
Qed.

Lemma C5_staged_file_survives_stream_error_witness :
  exists s',
    download_image (Scenario.always Scenario.broken_png)
      "https://example.com/cat.png" Scenario.output_dir Scenario.empty_dir
    = (inr false, s') /\
    stdout s'
    = ["✗ Network error for https://example.com/cat.png: Connection broken: IncompleteRead"] /\
    fs s' !! "Fetched_Images/cat.png.tmp" = Some (list_byte_of_string "ab").
Proof.
  apply (C5_staged_file_survives_stream_error
           (Scenario.always Scenario.broken_png) Scenario.empty_dir
           "https://example.com/cat.png" Scenario.output_dir
           Scenario.broken_png "Connection broken: IncompleteRead").
  - split_and!; vm_compute; reflexivity.
  - reflexivity.
Defined.

(** C6 fails on the code: when a response with a listed content type
    declares a content length that is no integer, [int] raises
    [ValueError] before [temp_filepath] is assigned, the second [except]
    clause reads that variable, and the call ends with an
    [UnboundLocalError] that nothing catches. *)
Theorem C6_non_integer_length_raises (E : env) (s : store)
    (url output_dir : string) (r : response) (cl : string) :
  http E (S (requests_made s)) url = inr r ->
  status_passes r = true ->
  is_valid_image_content_type (default "" (content_type_header r)) = true ->
  content_length_header r = Some cl ->
  cl ≠ "" ->
  Py.int (int_max_str_digits E) cl = None ->
  exists s',
    download_image E url output_dir s
    = (inl (UnboundLocalError
              "cannot access local variable 'temp_filepath' where it is not associated with a value"),
       s') /\
    stdout s' = stdout s ++
      ["✗ Error processing " +:+ url +:+ ": "
       +:+ Py.int_error (int_max_str_digits E) cl].
Proof.
  intros Hget Hstatus Htype Hcl Hne Hint.
  destruct (download_image_bad_length E s url output_dir r cl
              Hget Hstatus Htype Hcl Hne Hint)
    as (s' & Hrun & _ & _ & _ & Hout & _).
  by exists s'.
Qed.

Lemma C6_non_integer_length_raises_witness :
  exists s',
    download_image (Scenario.always Scenario.bad_length_png)
      "https://example.com/cat.png" Scenario.output_dir Scenario.empty_dir
    = (inl (UnboundLocalError
              "cannot access local variable 'temp_filepath' where it is not associated with a value"),
       s') /\
    stdout s'
    = ["✗ Error processing https://example.com/cat.png: invalid literal for int() with base 10: 'abc'"].
Proof.
  apply (C6_non_integer_length_raises
           (Scenario.always Scenario.bad_length_png) Scenario.empty_dir
           "https://example.com/cat.png" Scenario.output_dir
           Scenario.bad_length_png "abc");
    try (vm_compute; reflexivity).
  discriminate.
Defined.

(** ** File names *)

Lemma zero_padded_length (width n : nat) :
  String.length (Py.zero_padded width n) = width.
Proof.
  revert n. induction width as [|width IH]; intros n; [reflexivity|].
  cbn [Py.zero_padded]. rewrite append_length, IH. cbn [String.length]. lia.
Qed.

(** a time stamp has fifteen characters *)
Lemma strftime_length (d : Py.datetime) : String.length (Py.strftime d) = 15.
Proof.
  unfold Py.strftime. rewrite !append_length, !zero_padded_length.
  reflexivity.
Qed.

(** joining a name that does not start with a slash puts it after the
    directory *)
Lemma join_relative (dir : string) (c : ascii) (name : string) :
  c ≠ "/"%char ->
  Py.join dir (String c name) = Py.join dir "" +:+ String c name.
Proof.
  intros Hc. unfold Py.join, Py.startswith. cbn [String.prefix].
  destruct (ascii_dec "/" c) as [Heq|_]; [by subst c|].
  cbn [String.prefix].
  destruct (negb (Py.truthy dir) || Py.endswith_char "/" dir).
  - by rewrite append_nil_r.
  - by rewrite <- !append_assoc, append_nil_r.
Qed.

Section Names.

Variable E : env.

(** the names chosen at two moments for one URL and one content type
    are the same, or two generated names with the same extension *)
Lemma spec_filename_two_moments url content_type t1 t2 :
  spec_filename E url content_type t1 = spec_filename E url content_type t2 \/
  exists ext,
    spec_filename E url content_type t1 = "image_" +:+ Py.strftime t1 +:+ ext /\
    spec_filename E url content_type t2 = "image_" +:+ Py.strftime t2 +:+ ext.
Proof.
  unfold spec_filename.
  destruct (inferred_extension E content_type) as [ext|].
  - destruct (bool_decide _); [right; by exists ext | by left].
  - right. by exists ".jpg".
Qed.

(** the staging path of a later call is not the final path of an
    earlier call for the same URL and content type *)
Lemma later_staging_path_ne output_dir url content_type t1 t2 :
  Py.join output_dir (spec_filename E url content_type t2) +:+ ".tmp"
  ≠ Py.join output_dir (spec_filename E url content_type t1).
Proof.
  destruct (spec_filename_two_moments url content_type t1 t2)
    as [->|(ext & -> & ->)]; [apply tmp_suffix_ne|].
  change ("image_" +:+ Py.strftime t1 +:+ ext)
    with (String "i" ("mage_" +:+ Py.strftime t1 +:+ ext)).
  change ("image_" +:+ Py.strftime t2 +:+ ext)
    with (String "i" ("mage_" +:+ Py.strftime t2 +:+ ext)).
  rewrite !join_relative by done.
  intros H. apply (f_equal String.length) in H.
  rewrite !append_length in H. cbn [String.length] in H.
  rewrite !append_length, !strftime_length in H. cbn [String.length] in H.
  lia.
Qed.

End Names.

(** ** The path of a URL *)

(** cutting at a position found by [find] and cutting at the first
    character that stops agree *)
Lemma before_up_to (c : ascii) (s : string) :
  Py.before c s = up_to (Ascii.eqb c) s.
Proof.
  unfold Py.before. induction s as [|d s IH]; [done|].
  cbn [Py.find up_to]. destruct (Ascii.eqb c d); [done|].
  destruct (Py.find c s) as [i|]; cbn; by rewrite <- IH.
Qed.

Lemma up_to_twice (s : string) :
  up_to (Ascii.eqb "?") (up_to (Ascii.eqb "#") s) = up_to ends_path s.
Proof.
  induction s as [|d s IH]; [done|]. unfold ends_path. cbn [up_to].
  destruct (Ascii.eqb "#" d) eqn:Hhash.
  - by rewrite orb_true_r.
  - cbn [up_to]. rewrite orb_false_r.
    destruct (Ascii.eqb "?" d); [done|]. f_equal. exact IH.
Qed.

Lemma up_to_none (c : ascii) (s : string) :
  Py.contains c s = false -> up_to (Ascii.eqb c) s = s.
Proof.
  induction s as [|d s IH]; [done|]. cbn [Py.contains up_to].
  destruct (Ascii.eqb c d); [done|]. intros H. by rewrite IH.
Qed.

Lemma up_to_contains (stop : ascii -> bool) (c : ascii) (s : string) :
  Py.contains c s = false -> Py.contains c (up_to stop s) = false.
Proof.
  induction s as [|d s IH]; [done|]. cbn [Py.contains up_to].
  destruct (Ascii.eqb c d) eqn:Hd; [done|]. intros H.
  destruct (stop d); [done|]. cbn [Py.contains]. rewrite Hd. by apply IH.
Qed.

Lemma index_of_le (stop : ascii -> bool) (s : string) :
  index_of stop s <= String.length s.
Proof.
  induction s as [|d s IH]; [done|]. cbn [index_of String.length].
  destruct (stop d); lia.
Qed.

Lemma index_of_orb (P Q : ascii -> bool) (s : string) :
  index_of (fun c => P c || Q c) s = Nat.min (index_of P s) (index_of Q s).
Proof.
  induction s as [|d s IH]; [done|]. cbn [index_of].
  destruct (P d), (Q d); cbn [orb]; lia.
Qed.

Lemma find_index_of (c : ascii) (s : string) :
  match Py.find c s with Some i => i | None => String.length s end
  = index_of (Ascii.eqb c) s.
Proof.
  induction s as [|d s IH]; [done|]. cbn [Py.find index_of String.length].
  destruct (Ascii.eqb c d); [done|].
  destruct (Py.find c s) as [i|]; cbn; by rewrite <- IH.
Qed.

Lemma slice_from_index_of (stop : ascii -> bool) (s : string) :
  Py.slice_from (index_of stop s) s = from stop s.
Proof.
  induction s as [|d s IH]; [done|]. cbn [index_of from].
  destruct (stop d); [done|]. exact IH.
Qed.

(** one turn of the loop of [_splitnetloc] *)
Lemma splitnetloc_step (t : string) (delim : nat) (c : ascii) :
  match Py.find_from 2 c (String "/" (String "/" t)) with
  | Some wdelim => Nat.min delim wdelim
  | None => delim
  end
  = Nat.min delim (if Py.contains c t then 2 + index_of (Ascii.eqb c) t
                   else delim).
Proof.
  unfold Py.find_from. cbn [Py.slice_from].
  rewrite <- find_index_of.
  assert (Py.contains c t = bool_decide (is_Some (Py.find c t))) as ->.
  { induction t as [|d t IH]; [done|]. cbn [Py.contains Py.find].
    destruct (Ascii.eqb c d); [done|]. rewrite IH.
    by destruct (Py.find c t). }
  destruct (Py.find c t) as [i|]; cbn; lia.
Qed.

Lemma contains_index_of (c : ascii) (s : string) :
  Py.contains c s = false -> index_of (Ascii.eqb c) s = String.length s.
Proof.
  induction s as [|d s IH]; [done|]. cbn [Py.contains index_of String.length].
  destruct (Ascii.eqb c d); [done|]. intros H. by rewrite IH.
Qed.

(** the network location ends at the first slash, question mark or hash
    sign *)
Lemma splitnetloc_from (t : string) :
  (Py.splitnetloc (String "/" (String "/" t)) 2).2 = from ends_authority t.
Proof.
  unfold Py.splitnetloc. cbn [snd fold_left].
  rewrite !splitnetloc_step.
  rewrite <- slice_from_index_of.
  change (index_of ends_authority t)
    with (index_of (fun c => (fun c => Ascii.eqb "/" c || Ascii.eqb "?" c) c
                             || Ascii.eqb "#" c) t).
  rewrite index_of_orb, index_of_orb.
  pose proof (index_of_le (Ascii.eqb "/") t) as H1.
  pose proof (index_of_le (Ascii.eqb "?") t) as H2.
  pose proof (index_of_le (Ascii.eqb "#") t) as H3.
  pose proof (contains_index_of "/" t) as C1.
  pose proof (contains_index_of "?" t) as C2.
  pose proof (contains_index_of "#" t) as C3.
  cbn [String.length].
  assert (forall k, Py.slice_from (2 + k) (String "/" (String "/" t))
                    = Py.slice_from k t) as Hslice by done.
  rewrite <- Hslice. f_equal.
  destruct (Py.contains "/" t), (Py.contains "?" t), (Py.contains "#" t);
    try specialize (C1 eq_refl); try specialize (C2 eq_refl);
    try specialize (C3 eq_refl); lia.
Qed.

Lemma remove_chars_without (s : string) :
  Py.remove_char "010" (Py.remove_char "013" (Py.remove_char "009" s))
  = without dropped_from_url s.
Proof.
  induction s as [|d s IH]; [done|]. unfold dropped_from_url.
  cbn [Py.remove_char without].
  destruct (Ascii.eqb "009" d) eqn:H9; [exact IH|].
  cbn [Py.remove_char orb].
  destruct (Ascii.eqb "013" d) eqn:H13; [by rewrite orb_true_r|].
  cbn [Py.remove_char]. rewrite orb_false_r.
  destruct (Ascii.eqb "010" d) eqn:H10; [exact IH|].
  f_equal. exact IH.
Qed.

(** the path that [urlsplit] finds in a URL given with the scheme http
    or https *)
Lemma urlsplit_path_http (scheme tail : string) :
  scheme = "http" \/ scheme = "https" ->
  exists s, s ∈ Py.uses_params /\
    Py.urlsplit_path (scheme +:+ "://" +:+ tail)
    = (s, url_path (scheme +:+ "://" +:+ tail)).
Proof.
  intros [-> | ->].
  - exists "http". split; [apply (bool_decide_unpack _); vm_compute; exact I|].
    unfold Py.urlsplit_path, url_path.
    assert (Py.lstrip Py.c0_control_or_space ("http" +:+ "://" +:+ tail)
            = "http" +:+ "://" +:+ tail) as -> by reflexivity.
    rewrite remove_chars_without.
    set (t := without dropped_from_url tail).
    assert (without dropped_from_url ("http" +:+ "://" +:+ tail)
            = String "h" (String "t" (String "t" (String "p" (String ":"
                (String "/" (String "/" t))))))) as -> by reflexivity.
    assert (Py.split_scheme (String "h" (String "t" (String "t" (String "p"
              (String ":" (String "/" (String "/" t)))))))
            = ("http", String "/" (String "/" t))) as -> by reflexivity.
    cbv iota beta.
    assert (Py.startswith "//" (String "/" (String "/" t)) = true) as ->
      by apply (startswith_append "//" t).
    rewrite splitnetloc_from, !before_up_to, up_to_twice.
    reflexivity.
  - exists "https". split; [apply (bool_decide_unpack _); vm_compute; exact I|].
    unfold Py.urlsplit_path, url_path.
    assert (Py.lstrip Py.c0_control_or_space ("https" +:+ "://" +:+ tail)
            = "https" +:+ "://" +:+ tail) as -> by reflexivity.
    rewrite remove_chars_without.
    set (t := without dropped_from_url tail).
    assert (without dropped_from_url ("https" +:+ "://" +:+ tail)
            = String "h" (String "t" (String "t" (String "p" (String "s"
                (String ":" (String "/" (String "/" t)))))))) as ->
      by reflexivity.
    assert (Py.split_scheme (String "h" (String "t" (String "t" (String "p"
              (String "s" (String ":" (String "/" (String "/" t))))))))
            = ("https", String "/" (String "/" t))) as -> by reflexivity.
    cbv iota beta.
    assert (Py.startswith "//" (String "/" (String "/" t)) = true) as ->
      by apply (startswith_append "//" t).
    rewrite splitnetloc_from, !before_up_to, up_to_twice.
    reflexivity.
Qed.

Lemma rfind_Some_contains (c : ascii) (s : string) (k : nat) :
  Py.rfind c s = Some k -> Py.contains c s = true.
Proof.
  destruct (Py.contains c s) eqn:Hc; [done|].
  intros H. induction s as [|d s IH] in k, Hc, H |- *; [done|].
  cbn [Py.contains Py.rfind] in *.
  destruct (Ascii.eqb c d); [done|].
  destruct (Py.rfind c s) as [i|]; [|done]. by eapply IH.
Qed.

Lemma contains_rfind (c : ascii) (s : string) :
  Py.contains c s = true -> exists k, Py.rfind c s = Some k.
Proof.
  intros Hc. destruct (Py.rfind c s) as [k|] eqn:Hr; [by exists k|].
  apply rfind_None_contains in Hr. congruence.
Qed.

Lemma find_None_contains (c : ascii) (s : string) :
  Py.find c s = None -> Py.contains c s = false.
Proof.
  induction s as [|d s IH]; [done|]. cbn [Py.find Py.contains].
  destruct (Ascii.eqb c d); [done|].
  destruct (Py.find c s); [done|]. intros _. by apply IH.
Qed.

Lemma find_Some_contains (c : ascii) (s : string) (i : nat) :
  Py.find c s = Some i -> Py.contains c s = true.
Proof.
  destruct (Py.contains c s) eqn:Hc; [done|].
  intros H. induction s as [|d s IH] in i, Hc, H |- *; [done|].
  cbn [Py.contains Py.find] in *.
  destruct (Ascii.eqb c d); [done|].
  destruct (Py.find c s) as [j|]; [|done]. by eapply IH.
Qed.

Lemma contains_find (c : ascii) (s : string) :
  Py.contains c s = true -> exists i, Py.find c s = Some i.
Proof.
  intros Hc. destruct (Py.find c s) as [i|] eqn:Hf; [by exists i|].
  apply find_None_contains in Hf. congruence.
Qed.

(** [os.path.basename] gives what follows the last slash *)
Lemma basename_last_segment (p : string) : Py.basename p = last_segment p.
Proof.
  unfold Py.basename. induction p as [|c p IH]; [done|].
  cbn [Py.rfind last_segment].
  destruct (Py.rfind "/" p) as [i|] eqn:Hr.
  - rewrite (rfind_Some_contains _ _ _ Hr). exact IH.
  - rewrite (rfind_None_contains _ _ Hr).
    by destruct (Ascii.eqb "/" c).
Qed.

Lemma last_segment_none (p : string) :
  Py.contains "/" p = false -> last_segment p = p.
Proof.
  destruct p as [|c p]; [done|]. cbn [Py.contains last_segment].
  destruct (Ascii.eqb "/" c); [done|]. by intros ->.
Qed.

Lemma last_segment_append (d m : string) :
  Py.contains "/" m = false -> last_segment (d +:+ String "/" m) = m.
Proof.
  intros Hm. induction d as [|c d IH].
  - change ("" +:+ String "/" m) with (String "/" m).
    cbn [last_segment]. by rewrite Hm.
  - rewrite append_cons. cbn [last_segment].
    rewrite contains_append. cbn [Py.contains Ascii.eqb Bool.eqb].
    by rewrite orb_true_r.
Qed.

(** a path that holds a slash is what precedes its last slash, the
    slash, and its last segment *)
Lemma rfind_last_segment (p : string) (k : nat) :
  Py.rfind "/" p = Some k ->
  p = Py.slice_to k p +:+ String "/" (last_segment p) /\
  Py.slice_from k p = String "/" (last_segment p) /\
  String.length (Py.slice_to k p) = k.
Proof.
  revert k. induction p as [|c p IH]; intros k; [done|].
  cbn [Py.rfind last_segment].
  destruct (Py.rfind "/" p) as [i|] eqn:Hr.
  - intros [= <-]. rewrite (rfind_Some_contains _ _ _ Hr).
    destruct (IH i eq_refl) as (H1 & H2 & H3).
    cbn [Py.slice_to Py.slice_from String.length]. rewrite append_cons.
    split_and!; [by rewrite <- H1|done|by rewrite H3].
  - rewrite (rfind_None_contains _ _ Hr).
    destruct (Ascii.eqb_spec "/" c) as [<-|]; [|done].
    intros [= <-]. done.
Qed.

Lemma slice_to_append (d x : string) (m : nat) :
  Py.slice_to (String.length d + m) (d +:+ x) = d +:+ Py.slice_to m x.
Proof.
  induction d as [|c d IH]; [done|].
  rewrite !append_cons. cbn [String.length Nat.add Py.slice_to]. by rewrite IH.
Qed.

(** the base name of the path of [urlparse]: the parameters of the last
    segment are cut off *)
Lemma basename_splitparams (p : string) :
  Py.basename (if Py.contains ";" p then Py.splitparams p else p)
  = up_to (Ascii.eqb ";") (last_segment p).
Proof.
  unfold Py.splitparams.
  destruct (Py.contains "/" p) eqn:Hslash.
  - destruct (contains_rfind _ _ Hslash) as [k Hk]. rewrite Hk.
    destruct (rfind_last_segment p k Hk) as (Hp & Hfrom & Hlen).
    set (l := last_segment p) in *.
    assert (Py.contains "/" l = false) as Hl
      by (unfold l; rewrite <- basename_last_segment; apply basename_no_slash).
    unfold Py.find_from. rewrite Hfrom. cbn [Py.find Ascii.eqb Bool.eqb].
    destruct (Py.find ";" l) as [j|] eqn:Hj; cbn.
    + assert (Py.basename (Py.slice_to (k + S j) p) = up_to (Ascii.eqb ";") l)
        as Hcut.
      { rewrite Hp at 1. rewrite <- Hlen at 1. rewrite slice_to_append.
        cbn [Py.slice_to]. rewrite basename_last_segment.
        rewrite <- before_up_to. unfold Py.before. rewrite Hj.
        apply last_segment_append.
        pose proof (up_to_contains (Ascii.eqb ";") "/" l Hl) as Hup.
        rewrite <- before_up_to in Hup. unfold Py.before in Hup.
        by rewrite Hj in Hup. }
      destruct (Py.contains ";" p) eqn:Hsemi; [exact Hcut|].
      exfalso. rewrite Hp, contains_append in Hsemi.
      cbn [Py.contains] in Hsemi.
      apply orb_false_iff in Hsemi as [_ Hsemi].
      cbn [Ascii.eqb Bool.eqb] in Hsemi.
      apply find_Some_contains in Hj. congruence.
    + apply find_None_contains in Hj.
      rewrite (up_to_none _ _ Hj).
      destruct (Py.contains ";" p); apply basename_last_segment.
  - rewrite (last_segment_none _ Hslash).
    destruct (Py.contains ";" p) eqn:Hsemi.
    + destruct (contains_find _ _ Hsemi) as [i Hi]. rewrite Hi.
      pose proof (before_up_to ";" p) as Hb. unfold Py.before in Hb.
      rewrite Hi in Hb. rewrite Hb.
      rewrite basename_last_segment. apply last_segment_none.
      by apply up_to_contains.
    + rewrite (up_to_none _ _ Hsemi).
      rewrite basename_last_segment. by apply last_segment_none.
Qed.

(** For a URL that starts with "http://" or "https://", the base name of
    the path that [urlparse] finds is the base name of the path component
    of the URL. *)
Lemma basename_urlparse_path (url : string) :
  Py.startswith "http://" url || Py.startswith "https://" url = true ->
  Py.basename (Py.urlparse_path url) = url_base_name url.
Proof.
  intros Hurl.
  assert (exists scheme tail,
            (scheme = "http" \/ scheme = "https") /\
            url = scheme +:+ "://" +:+ tail) as (scheme & tail & Hscheme & ->).
  { apply orb_true_iff in Hurl as [H|H]; apply startswith_split in H.
    - exists "http", (Py.slice_from (String.length "http://") url).
      split; [by left|exact H].
    - exists "https", (Py.slice_from (String.length "https://") url).
      split; [by right|exact H]. }
  destruct (urlsplit_path_http scheme tail Hscheme) as (s & Hs & Hsplit).
  unfold Py.urlparse_path, url_base_name. rewrite Hsplit.
  rewrite bool_decide_eq_true_2 by done. cbn [andb].
  apply basename_splitparams.
Qed.

(** *** The parts of a URL *)

Lemma none_append (P : ascii -> bool) (a b : string) :
  none P (a +:+ b) = none P a && none P b.
Proof.
  unfold none. induction a as [|c a IH]; [done|].
  rewrite append_cons. cbn [Py.forallb_str]. by rewrite IH, andb_assoc.
Qed.

Lemma without_none (P : ascii -> bool) (s : string) :
  none P s = true -> without P s = s.
Proof.
  unfold none. induction s as [|c s IH]; [done|].
  cbn [Py.forallb_str without]. intros [Hc Hs]%andb_true_iff.
  destruct (P c); [done|]. by rewrite IH.
Qed.

Lemma up_to_append (P : ascii -> bool) (a b : string) :
  none P a = true -> up_to P (a +:+ b) = a +:+ up_to P b.
Proof.
  unfold none. induction a as [|c a IH]; [done|].
  cbn [Py.forallb_str]. intros [Hc Ha]%andb_true_iff.
  rewrite !append_cons. cbn [up_to]. destruct (P c); [done|]. by rewrite IH.
Qed.

Lemma none_contains (P : ascii -> bool) (c : ascii) (s : string) :
  none P s = true -> P c = true -> Py.contains c s = false.
Proof.
  unfold none. intros Hs Hc. induction s as [|d s IH]; [done|].
  cbn [Py.forallb_str Py.contains] in *.
  apply andb_true_iff in Hs as [Hd Hs].
  destruct (Ascii.eqb_spec c d) as [->|]; [|by apply IH].
  by rewrite Hc in Hd.
Qed.

Lemma none_weaken (P Q : ascii -> bool) (s : string) :
  (forall c, Q c = true -> P c = true) -> none P s = true -> none Q s = true.
Proof.
  unfold none. intros HPQ. induction s as [|d s IH]; [done|].
  cbn [Py.forallb_str]. intros [Hd Hs]%andb_true_iff.
  rewrite IH by done. destruct (Q d) eqn:HQ; [|done].
  by rewrite (HPQ d HQ) in Hd.
Qed.

(** the authority ends at the first slash at the latest *)
Lemma from_authority_slash (before y : string) :
  none ends_path before = true ->
  exists x, from ends_authority (before +:+ String "/" y) = x +:+ String "/" y /\
            none ends_path x = true.
Proof.
  intros Hb. induction before as [|c a IH].
  - exists "". done.
  - rewrite append_cons. cbn [from].
    destruct (ends_authority c).
    + exists (String c a). by rewrite append_cons.
    + apply IH. unfold none in *. cbn [Py.forallb_str] in Hb.
      by apply andb_true_iff in Hb as [_ Hb].
Qed.

(** The base name of the path of the URL
    scheme://before/name;parameters?query#fragment is "name". *)
Lemma url_base_name_parts (scheme before name params rest : string) :
  scheme = "http" \/ scheme = "https" ->
  none dropped_from_url (before +:+ "/" +:+ name +:+ params +:+ rest) = true ->
  none ends_path before = true ->
  none (fun c => ends_authority c || Ascii.eqb ";" c) name = true ->
  params = "" \/ (exists q, params = String ";" q /\ none ends_authority q = true) ->
  rest = "" \/ (exists c q, rest = String c q /\ ends_path c = true) ->
  url_base_name (scheme +:+ "://" +:+ before +:+ "/" +:+ name +:+ params +:+ rest)
  = name.
Proof.
  intros Hscheme Hclean Hbefore Hname Hparams Hrest.
  set (tail := before +:+ "/" +:+ name +:+ params +:+ rest) in *.
  unfold url_base_name, url_path.
  assert (after_scheme (without dropped_from_url (scheme +:+ "://" +:+ tail))
          = tail) as ->.
  { rewrite <- (without_none _ _ Hclean) at 2.
    by destruct Hscheme as [-> | ->]. }
  unfold tail.
  change ("/" +:+ name +:+ params +:+ rest)
    with (String "/" (name +:+ params +:+ rest)).
  destruct (from_authority_slash before (name +:+ params +:+ rest) Hbefore)
    as (x & -> & Hx).
  assert (none ends_path name = true) as Hname1.
  { revert Hname. apply none_weaken. intros c. unfold ends_path, ends_authority.
    intros [->| ->]%orb_true_iff; by rewrite ?orb_true_r. }
  assert (none (Ascii.eqb ";") name = true) as Hname2.
  { revert Hname. apply none_weaken. intros c ->. by rewrite orb_true_r. }
  assert (Py.contains "/" name = false) as Hname3
    by (by apply (none_contains _ "/" _ Hname)).
  assert (none ends_path params = true /\ Py.contains "/" params = false /\
          up_to (Ascii.eqb ";") params = "") as (Hp1 & Hp2 & Hp3).
  { destruct Hparams as [->|(q & -> & Hq)]; [done|].
    split_and!; [| |done].
    - unfold none. cbn [Py.forallb_str]. change (negb (ends_path ";")) with true.
      revert Hq. apply none_weaken. intros c. unfold ends_path, ends_authority.
      intros [->| ->]%orb_true_iff; by rewrite ?orb_true_r.
    - cbn [Py.contains Ascii.eqb Bool.eqb].
      by apply (none_contains _ "/" _ Hq). }
  assert (up_to ends_path rest = "") as Hr.
  { destruct Hrest as [->|(c & q & -> & Hc)]; [done|]. cbn [up_to]. by rewrite Hc. }
  rewrite (up_to_append _ x) by done. change (String "/" ?y) with ("/" +:+ y).
  rewrite (up_to_append _ "/") by done.
  rewrite (up_to_append _ name) by done.
  rewrite (up_to_append _ params) by done.
  rewrite Hr, append_nil_r.
  change ("/" +:+ name +:+ params) with (String "/" (name +:+ params)).
  rewrite last_segment_append
    by (rewrite contains_append, Hname3, Hp2; done).
  rewrite (up_to_append _ name) by done.
  by rewrite Hp3, append_nil_r.
Qed.

(** C7: for every accepted response, the file name the call chooses,
    and uses in its messages and for the file it stores, is the base name
    of the URL's path when that base name is not empty and an extension
    can be inferred from the declared content type; otherwise it is
    image_<YYYYMMDD_HHMMSS><ext>, where <ext> is the inferred extension,
    or .jpg when none is known.  The base name of the URL's path is what
    [os.path.basename(urlparse(url).path)] gives; for a URL that starts
    with "http://" or "https://" it is the last segment of the path
    component, without parameters: "name" in
    scheme://authority/directories/name;parameters?query#fragment. *)
Theorem C7_final_filename (E : env) (s : store) (url output_dir : string)
    (r : response) :
  accepted E s url r ->
  let content_type := default "" (content_type_header r) in
  let base := Py.basename (Py.urlparse_path url) in
  let stamp := Py.strftime (clock E (S (requests_made s))) in
  let data := concat (content r) in
  exists filename,
    (forall st, requests_made st = S (requests_made s) ->
                choose_filename E url content_type st = (inr filename, st)) /\
    (forall ext, guess_extension E content_type = Some ext -> ext ≠ "" ->
                 base ≠ "" -> filename = base) /\
    (forall ext, guess_extension E content_type = Some ext -> ext ≠ "" ->
                 base = "" -> filename = "image_" +:+ stamp +:+ ext) /\
    (guess_extension E content_type = None \/
     guess_extension E content_type = Some "" ->
     filename = "image_" +:+ stamp +:+ ".jpg") /\
    (is_http_url url = true -> base = url_base_name url) /\
    (forall scheme before name params rest,
       scheme = "http" \/ scheme = "https" ->
       none dropped_from_url (before +:+ "/" +:+ name +:+ params +:+ rest) = true ->
       none ends_path before = true ->
       none (fun c => ends_authority c || Ascii.eqb ";" c) name = true ->
       params = "" \/
       (exists q, params = String ";" q /\ none ends_authority q = true) ->
       rest = "" \/ (exists c q, rest = String c q /\ ends_path c = true) ->
       url = scheme +:+ "://" +:+ before +:+ "/" +:+ name +:+ params +:+ rest ->
       base = name) /\
    (content_error r = None ->
     name_accepted filename ->
     exists s',
       (download_image E url output_dir s).2 = s' /\
       if bool_decide (SHA256.hexdigest data ∈ existing_hashes s)
       then stdout s' = stdout s ++ ["✗ Duplicate image detected: " +:+ filename]
       else if is_directory (fs s) (Py.join output_dir filename)
       then stdout s' = stdout s ++
              ["✗ Error processing " +:+ url
               +:+ ": [Errno 16] Device or resource busy: "
               +:+ Py.repr (Py.join output_dir filename +:+ ".tmp")
               +:+ " -> " +:+ Py.repr (Py.join output_dir filename)]
       else fs s' !! Py.join output_dir filename = Some data /\
            stdout s' = stdout s ++
              ["✓ Successfully fetched: " +:+ filename;
               "✓ Image saved to: " +:+ Py.join output_dir filename]).
Proof.
  intros Hacc content_type base stamp data.
  exists (spec_filename E url content_type (clock E (S (requests_made s)))).
  split_and!.
  - intros st Hst. by rewrite choose_filename_spec, Hst.
  - intros ext Hext Hne Hbase. unfold spec_filename, inferred_extension.
    rewrite Hext. destruct ext; [done|]. cbn [Py.truthy].
    by rewrite bool_decide_eq_false_2.
  - intros ext Hext Hne Hbase. unfold spec_filename, inferred_extension.
    rewrite Hext. destruct ext; [done|]. cbn [Py.truthy].
    by rewrite bool_decide_eq_true_2.
  - intros [Hext|Hext]; unfold spec_filename, inferred_extension;
      by rewrite Hext.
  - apply basename_urlparse_path.
  - intros scheme before name params rest Hscheme H1 H2 H3 H4 H5 ->.
    unfold base. rewrite basename_urlparse_path.
    + by apply url_base_name_parts.
    + destruct Hscheme as [-> | ->].
      * apply orb_true_iff. left. apply (startswith_append "http://").
      * apply orb_true_iff. right. apply (startswith_append "https://").
  - intros Hstream _.
    destruct (download_image_accepted E s url output_dir r Hacc Hstream)
      as (s' & Hrun & _ & _ & Heffect).
    exists s'. split; [by rewrite Hrun|].
    fold content_type data in Heffect.
    destruct (bool_decide _); [|destruct (is_directory _ _)];
      destruct Heffect as (Hfs & _ & Hout & _); [done|done|].
    split; [|done]. rewrite Hfs. apply lookup_insert_eq.
Qed.

Lemma C7_final_filename_witness :
  url_base_name "https://example.com/img/cat.png;v=1?size=2#top" = "cat.png" /\
  (exists filename s',
     filename = "cat.png" /\
     choose_filename (Scenario.always Scenario.png_abc)
       "https://example.com/img/cat.png;v=1?size=2#top" "image/png"
       (download_image (Scenario.always Scenario.png_abc)
          "https://example.com/img/cat.png;v=1?size=2#top"
          Scenario.output_dir Scenario.empty_dir).2
     = (inr filename, s') /\
     fs s' !! "Fetched_Images/cat.png" = Some Scenario.abc) /\
  (exists filename s',
     filename = "image_20260101_000001.jpg" /\
     (download_image (Scenario.always Scenario.jpeg_abc)
        "https://example.com/" Scenario.output_dir Scenario.empty_dir).2 = s' /\
     fs s' !! "Fetched_Images/image_20260101_000001.jpg" = Some Scenario.abc).
Proof.
  split_and!.
  - reflexivity.
  - destruct (C7_final_filename (Scenario.always Scenario.png_abc)
                Scenario.empty_dir
                "https://example.com/img/cat.png;v=1?size=2#top"
                Scenario.output_dir Scenario.png_abc)
      as (filename & Hchoose & Hurl & _ & _ & Hbase & _ & Hstore).
    { split_and!; vm_compute; reflexivity. }
    assert (filename = "cat.png") as ->.
    { rewrite (Hurl ".png");
        [|vm_compute; reflexivity|discriminate|vm_compute; discriminate].
      rewrite Hbase by reflexivity. reflexivity. }
    destruct Hstore as (s' & Hrun & Heffect);
      [reflexivity|split_and!; [reflexivity..|vm_compute; lia]|].
    exists "cat.png", s'. split_and!; [reflexivity| |].
    + rewrite Hrun. apply Hchoose. rewrite <- Hrun. vm_compute. reflexivity.
    + rewrite bool_decide_eq_false_2 in Heffect by apply not_elem_of_empty.
      apply Heffect.
  - destruct (C7_final_filename (Scenario.always Scenario.jpeg_abc)
                Scenario.empty_dir "https://example.com/" Scenario.output_dir
                Scenario.jpeg_abc)
      as (filename & _ & _ & Hname & _ & _ & _ & Hstore).
    { split_and!; vm_compute; reflexivity. }
    assert (filename = "image_20260101_000001.jpg") as ->.
    { apply (Hname ".jpg"); [vm_compute; reflexivity|discriminate|reflexivity]. }
    destruct Hstore as (s' & Hrun & Heffect);
      [reflexivity|split_and!; [reflexivity..|vm_compute; lia]|].
    exists "image_20260101_000001.jpg", s'. split_and!; [reflexivity|exact Hrun|].
    rewrite bool_decide_eq_false_2 in Heffect by apply not_elem_of_empty.
    apply Heffect.
Defined.

(** ** Runs of several calls *)

(** C8: when a call for a URL succeeds and the server answers the next
    call for the same URL with the same response, the second call returns
    failure with the message "Duplicate image detected", leaves the hash
    index as the first call left it, keeps the file of the first call and
    creates no file: of the two calls, one counts as a success and one
    final file results. *)
Theorem C8_same_url_twice (E : env) (s s1 : store) (url output_dir : string)
    (r : response) :
  http E (S (requests_made s)) url = inr r ->
  http E (S (S (requests_made s))) url = inr r ->
  download_image E url output_dir s = (inr true, s1) ->
  let filepath :=
    Py.join output_dir
      (spec_filename E url (default "" (content_type_header r))
         (clock E (S (requests_made s)))) in
  let data := concat (content r) in
  exists s2 filename2,
    download_image E url output_dir s1 = (inr false, s2) /\
    stdout s2 = stdout s1 ++ ["✗ Duplicate image detected: " +:+ filename2] /\
    existing_hashes s2 = existing_hashes s1 /\
    fs s1 !! filepath = Some data /\
    fs s2 !! filepath = Some data /\
    dom (fs s2) ⊆ dom (fs s1) /\
    dom (fs s2) ∖ dom (fs s) ⊆ {[filepath]} /\
    download_all E [url; url] output_dir 0 s = (inr 1, s2).
Proof.
  intros Hget1 Hget2 Hrun1 filepath data.
  destruct (download_image_true_inv E s url output_dir s1 Hrun1)
    as (r' & Hacc & Hstream & Hfresh & Hfile).
  assert (r' = r) as ->.
  { destruct Hacc as [Hget _]. rewrite Hget1 in Hget. by simplify_eq. }
  destruct (download_image_accepted E s url output_dir r Hacc Hstream)
    as (s1' & Hrun1' & Hmade1 & _ & Heffect1).
  rewrite Hrun1 in Hrun1'. rewrite bool_decide_eq_false_2 in Hrun1', Heffect1 by done.
  rewrite Hfile in Hrun1', Heffect1.
  assert (s1' = s1) as -> by by simplify_eq. clear Hrun1'.
  destruct Heffect1 as (Hfs1 & Hhashes1 & _).
  fold data filepath in Hfs1. fold data in Hhashes1.
  assert (accepted E s1 url r) as Hacc2.
  { destruct Hacc as (_ & ? & ? & ?). split_and!; [|done..].
    by rewrite Hmade1. }
  assert (SHA256.hexdigest data ∈ existing_hashes s1) as Hin
    by (rewrite Hhashes1; apply elem_of_union_l; by apply elem_of_singleton).
  destruct (download_image_accepted E s1 url output_dir r Hacc2 Hstream)
    as (s2 & Hrun2 & _ & _ & Heffect2).
  fold data in Hrun2, Heffect2.
  rewrite bool_decide_eq_true_2 in Hrun2, Heffect2 by done.
  cbn [negb andb] in Hrun2.
  destruct Heffect2 as (Hfs2 & Hhashes2 & Hout2 & _).
  rewrite Hmade1 in Hfs2.
  pose proof (later_staging_path_ne E output_dir url
                (default "" (content_type_header r))
                (clock E (S (requests_made s)))
                (clock E (S (S (requests_made s))))) as Hne.
  fold filepath in Hne.
  assert (fs s1 !! filepath = Some data) as Hfile1
    by (rewrite Hfs1; apply lookup_insert_eq).
  eexists s2, _. split_and!; [exact Hrun2|exact Hout2|exact Hhashes2|exact Hfile1| | | |].
  - rewrite Hfs2. by rewrite lookup_delete_ne.
  - rewrite Hfs2. apply subseteq_dom, delete_subseteq.
  - rewrite Hfs2, Hfs1. unfold rename.
    rewrite dom_delete_L, dom_insert_L, dom_delete_L, dom_insert_L.
    intros p.
    rewrite !elem_of_difference, !elem_of_union, elem_of_difference,
      elem_of_union, !elem_of_singleton.
    tauto.
  - cbn [download_all]. unfold mbind, M_bind. rewrite Hrun1, Hrun2. reflexivity.
Qed.

Lemma C8_same_url_twice_witness :
  exists s2 filename2,
    download_image (Scenario.always Scenario.png_abc)
      "https://example.com/cat.png" Scenario.output_dir (Scenario.cat_fetch).2
    = (inr false, s2) /\
    stdout s2 = stdout (Scenario.cat_fetch).2
                ++ ["✗ Duplicate image detected: " +:+ filename2] /\
    existing_hashes s2 = existing_hashes (Scenario.cat_fetch).2 /\
    fs (Scenario.cat_fetch).2 !! "Fetched_Images/cat.png" = Some Scenario.abc /\
    fs s2 !! "Fetched_Images/cat.png" = Some Scenario.abc /\
    dom (fs s2) ⊆ dom (fs (Scenario.cat_fetch).2) /\
    dom (fs s2) ∖ dom (fs Scenario.empty_dir) ⊆ {["Fetched_Images/cat.png"]} /\
    download_all (Scenario.always Scenario.png_abc)
      ["https://example.com/cat.png"; "https://example.com/cat.png"]
      Scenario.output_dir 0 Scenario.empty_dir
    = (inr 1, s2).
Proof.
  apply (C8_same_url_twice (Scenario.always Scenario.png_abc)
           Scenario.empty_dir (Scenario.cat_fetch).2
           "https://example.com/cat.png" Scenario.output_dir Scenario.png_abc);
    vm_compute; reflexivity.
Defined.

(** ** The hash index at the start of a run *)

(** a directory entry is found again by joining the directory and its name *)
Lemma entry_name_join (dir path name : string) :
  entry_name dir path = Some name -> Py.join dir name = path.
Proof.
  unfold entry_name. intros H.
  destruct (Py.startswith _ path) eqn:Hprefix; [|done].
  destruct (Py.slice_from _ path) as [|c rest] eqn:Hname; [done|].
  cbn [Py.truthy andb Py.contains] in H.
  destruct (Ascii.eqb "/" c) eqn:Hc; [done|].
  destruct (Py.contains "/" rest); [done|]. cbn [negb] in H.
  injection H as <-.
  rewrite join_relative.
  - rewrite <- Hname. symmetry. by apply startswith_split.
  - intros ->. by rewrite Ascii.eqb_refl in Hc.
Qed.

Section Index.

Variable output_dir : string.

Lemma for_each_hash_entry names s :
  (forall name, name ∈ names -> is_Some (fs s !! Py.join output_dir name)) ->
  exists s',
    for_each names (hash_entry output_dir) s = (inr tt, s') /\
    fs s' = fs s /\ stdout s' = stdout s /\ stdin s' = stdin s /\
    requests_made s' = requests_made s /\
    forall h, h ∈ existing_hashes s' <->
      h ∈ existing_hashes s \/
      exists name data, name ∈ names /\
        fs s !! Py.join output_dir name = Some data /\
        h = SHA256.hexdigest data.
Proof.
  revert s. induction names as [|name names IH]; intros s Hfiles.
  - exists s. split_and!; try done. intros h. split; [by left|].
    intros [?|(name & data & Hin & _)]; [done|]. by apply elem_of_nil in Hin.
  - destruct (Hfiles name) as [data Hdata]; [apply list_elem_of_here|].
    cbn [for_each]. unfold mbind at 1, M_bind at 1.
    unfold hash_entry at 1, os_path_isfile, mbind, M_bind.
    rewrite bool_decide_eq_true_2 by by eexists.
    rewrite (calculate_file_hash_file s _ data Hdata).
    unfold hashes_add, modify.
    destruct (IH (set_existing_hashes
                    (fun hs => {[SHA256.hexdigest data]} ∪ hs) s))
      as (s' & Hrun & Hfs & Hout & Hin & Hmade & Hhashes).
    { intros name' Hname'. apply Hfiles. by apply list_elem_of_further. }
    exists s'. destruct s; simpl_store_in_all.
    split_and!; try done. intros h. rewrite Hhashes.
    rewrite elem_of_union, elem_of_singleton. split.
    + intros [[->|?]|(name' & data' & Hname' & Hdata' & ->)].
      * right. exists name, data. split_and!; [apply list_elem_of_here|done..].
      * by left.
      * right. exists name', data'.
        split_and!; [by apply list_elem_of_further|done..].
    + intros [?|(name' & data' & Hname' & Hdata' & ->)]; [by left; right|].
      apply elem_of_cons in Hname' as [->|Hname'].
      * left; left. rewrite Hdata in Hdata'. by simplify_eq.
      * right. by exists name', data'.
Qed.

(** Loading the index hashes every file of the output directory, and
    nothing else. *)
Lemma load_existing_hashes_spec s :
  exists s',
    load_existing_hashes output_dir s = (inr tt, s') /\
    fs s' = fs s /\ stdout s' = stdout s /\
    requests_made s' = requests_made s /\
    forall h, h ∈ existing_hashes s' <->
      exists path name data,
        entry_name output_dir path = Some name /\
        fs s !! path = Some data /\
        h = SHA256.hexdigest data.
Proof.
  unfold load_existing_hashes, modify, os_listdir, mbind, M_bind.
  set (s0 := set_existing_hashes (fun _ => ∅) s).
  set (names := omap (entry_name output_dir) (elements (dom (fs s0)))).
  assert (forall name, name ∈ names <->
            exists path, entry_name output_dir path = Some name /\
                         is_Some (fs s !! path)) as Hnames.
  { intros name. unfold names. rewrite list_elem_of_omap.
    split; intros (path & H1 & H2); exists path.
    - apply elem_of_elements, elem_of_dom in H1. by destruct s.
    - split; [|done]. apply elem_of_elements, elem_of_dom. by destruct s. }
  destruct (for_each_hash_entry names s0)
    as (s' & Hrun & Hfs & Hout & _ & Hmade & Hhashes).
  { intros name Hname. apply Hnames in Hname as (path & Hentry & Hfile).
    rewrite (entry_name_join _ _ _ Hentry). by destruct s. }
  exists s'. split_and!; [done|by destruct s..|].
  intros h. rewrite Hhashes. split.
  - intros [Hin|(name & data & Hname & Hdata & ->)].
    { destruct s; simpl_store_in_all. by apply elem_of_empty in Hin. }
    apply Hnames in Hname as (path & Hentry & _).
    exists path, name, data. split_and!; [done| |done].
    rewrite <- (entry_name_join _ _ _ Hentry). by destruct s.
  - intros (path & name & data & Hentry & Hdata & ->). right.
    exists name, data. split_and!; [|by rewrite (entry_name_join _ _ _ Hentry); destruct s|done].
    apply Hnames. exists path. split; [done|by eexists].
Qed.

End Index.

Lemma download_all_app (E : env) urls url output_dir count s :
  download_all E (urls ++ [url]) output_dir count s
  = match download_all E urls output_dir count s with
    | (inr count', s') =>
        match download_image E url output_dir s' with
        | (inr ok, s'') =>
            (inr (if ok : bool then count' + 1 else count'), s'')
        | (inl e, s'') => (inl e, s'')
        end
    | (inl e, s') => (inl e, s')
    end.
Proof.
  revert count s. induction urls as [|u urls IH]; intros count s.
  - cbn [app download_all]. unfold mbind, M_bind, mret, M_ret.
    by destruct (download_image E url output_dir s) as [[e|[]] s'].
  - cbn [app download_all]. unfold mbind, M_bind.
    destruct (download_image E u output_dir s) as [[e|ok] s']; [done|].
    apply IH.
Qed.

(** C9: loading the hash index at the start of a run hashes every file
    of the output directory, and leaves exactly those hashes in the index.
    Hence, for every file that was there with content hash H, a later
    fetch of the run whose body hashes to H fails with the message
    "Duplicate image detected", although no call of the run stored that
    file. *)
Theorem C9_preexisting_files_are_duplicates (E : env) (s : store)
    (output_dir : string) :
  exists s1,
    load_existing_hashes output_dir s = (inr tt, s1) /\
    fs s1 = fs s /\
    (forall h, h ∈ existing_hashes s1 <->
       exists path name data,
         entry_name output_dir path = Some name /\
         fs s !! path = Some data /\
         h = SHA256.hexdigest data) /\
    (forall urls count s2 url r path name data,
       entry_name output_dir path = Some name ->
       fs s !! path = Some data ->
       download_all E urls output_dir 0 s1 = (inr count, s2) ->
       accepted E s2 url r ->
       content_error r = None ->
       SHA256.hexdigest (concat (content r)) = SHA256.hexdigest data ->
       exists s3 filename,
         download_image E url output_dir s2 = (inr false, s3) /\
         stdout s3 = stdout s2 ++ ["✗ Duplicate image detected: " +:+ filename] /\
         existing_hashes s3 = existing_hashes s2 /\
         download_all E (urls ++ [url]) output_dir 0 s1 = (inr count, s3)).
Proof.
  destruct (load_existing_hashes_spec output_dir s)
    as (s1 & Hload & Hfs & _ & _ & Hhashes).
  exists s1. split_and!; [done..|].
  intros urls count s2 url r path name data Hentry Hdata Hloop Hacc Hstream Hhash.
  assert (SHA256.hexdigest (concat (content r)) ∈ existing_hashes s2) as Hin.
  { pose proof (download_all_grows E urls s1 output_dir 0) as Hgrow.
    rewrite Hloop in Hgrow. apply Hgrow, Hhashes.
    by exists path, name, data. }
  destruct (download_image_accepted E s2 url output_dir r Hacc Hstream)
    as (s3 & Hrun & _ & _ & Heffect).
  rewrite bool_decide_eq_true_2 in Hrun, Heffect by done.
  cbn [negb andb] in Hrun.
  destruct Heffect as (_ & Hhashes3 & Hout & _).
  eexists s3, _. split_and!; [exact Hrun|exact Hout|exact Hhashes3|].
  by rewrite download_all_app, Hloop, Hrun.
Qed.

Lemma C9_preexisting_files_are_duplicates_witness :
  exists s3 filename,
    download_image (Scenario.always Scenario.png_abc)
      "https://example.com/cat.png" Scenario.output_dir
      (load_existing_hashes Scenario.output_dir Scenario.dir_with_A).2
    = (inr false, s3) /\
    stdout s3 = ["✗ Duplicate image detected: " +:+ filename] /\
    existing_hashes s3
    = existing_hashes (load_existing_hashes Scenario.output_dir Scenario.dir_with_A).2.
Proof.
  destruct (C9_preexisting_files_are_duplicates
              (Scenario.always Scenario.png_abc) Scenario.dir_with_A
              Scenario.output_dir) as (s1 & Hload & _ & _ & Hdup).
  rewrite Hload. cbn [snd].
  destruct (Hdup [] 0 s1 "https://example.com/cat.png" Scenario.png_abc
              "Fetched_Images/A" "A" Scenario.abc)
    as (s3 & filename & Hrun & Hout & Hhashes & _).
  - vm_compute; reflexivity.
  - vm_compute; reflexivity.
  - reflexivity.
  - assert (s1 = (load_existing_hashes Scenario.output_dir Scenario.dir_with_A).2)
      as -> by (by rewrite Hload).
    split_and!; vm_compute; reflexivity.
  - reflexivity.
  - reflexivity.
  - exists s3, filename. split_and!; [exact Hrun| |exact Hhashes].
    rewrite Hout. f_equal.
    assert (s1 = (load_existing_hashes Scenario.output_dir Scenario.dir_with_A).2)
      as -> by (by rewrite Hload).
    reflexivity.
Defined.

(** * Further properties of the code *)

(** ** [calculate_file_hash] *)

(** X1: [calculate_file_hash] returns the SHA-256 digest of the whole
    content of the file, whatever its size: reading it in blocks of 4096
    bytes loses and repeats nothing, and the loop ends.  It changes
    nothing.  Where there is no file it raises, and changes nothing
    either. *)
Theorem X1_calculate_file_hash_whole_file (s : store) (filepath : string) :
  (forall data, fs s !! filepath = Some data ->
     calculate_file_hash filepath s = (inr (SHA256.hexdigest data), s)) /\
  (fs s !! filepath = None ->
     exists msg, calculate_file_hash filepath s = (inl (OSError msg), s)).
Proof.
  split.
  - intros data. apply calculate_file_hash_file.
  - intros Hfile. unfold calculate_file_hash. rewrite Hfile. by eexists.
Qed.

Lemma X1_calculate_file_hash_whole_file_witness :
  length Sessions.three_blocks = (3 * 3000)%nat /\
  calculate_file_hash "Fetched_Images/large.bin" Sessions.dir_with_large_file
  = (inr (SHA256.hexdigest Sessions.three_blocks), Sessions.dir_with_large_file).
Proof.
  split; [reflexivity|].
  apply (proj1 (X1_calculate_file_hash_whole_file
                  Sessions.dir_with_large_file "Fetched_Images/large.bin")).
  reflexivity.
Defined.

(** ** [download_image]: the failures before and during the download *)

(** X2: when [requests.get] raises a [RequestException], or the
    response comes with a status from 400 to 599, the call returns
    failure after the one line "Network error for <url>: ...", makes no
    second request, stores nothing and leaves the hash index as it was. *)
Theorem X2_network_failure (E : env) (s : store) (url output_dir : string) :
  (exists msg, http E (S (requests_made s)) url = inl (RequestException msg)) \/
  (exists r, http E (S (requests_made s)) url = inr r /\
             (400 <= status_code r < 600)%nat) ->
  exists s' msg,
    download_image E url output_dir s = (inr false, s') /\
    stdout s' = stdout s ++ ["✗ Network error for " +:+ url +:+ ": " +:+ msg] /\
    fs s' = fs s /\
    existing_hashes s' = existing_hashes s /\
    requests_made s' = S (requests_made s).
Proof.
  intros [(msg & Hget)|(r & Hget & Hcode)].
  - destruct (download_image_get_raises E s url output_dir _ Hget)
      as (s' & Hrun & Hfs & Hhashes & Hmade & Hout & _).
    by exists s', msg.
  - assert (status_passes r = false) as Hstatus.
    { unfold status_passes. apply orb_false_iff.
      split; [apply Nat.ltb_ge|apply Nat.leb_gt]; lia. }
    destruct (download_image_status_fails E s url output_dir r Hget Hstatus)
      as (s' & msg & Hrun & Hfs & Hhashes & Hmade & Hout & _).
    by exists s', msg.
Qed.

Lemma X2_network_failure_witness :
  exists s' msg,
    download_image (Scenario.always Sessions.not_found)
      "https://example.com/cat.png" Scenario.output_dir Scenario.dir_with_old
    = (inr false, s') /\
    stdout s' = ["✗ Network error for https://example.com/cat.png: " +:+ msg] /\
    fs s' = fs Scenario.dir_with_old /\
    existing_hashes s' = existing_hashes Scenario.dir_with_old /\
    requests_made s' = 1.
Proof.
  apply (X2_network_failure (Scenario.always Sessions.not_found)
           Scenario.dir_with_old "https://example.com/cat.png"
           Scenario.output_dir).
  right. exists Sessions.not_found. split; [reflexivity|].
  cbn [status_code Sessions.not_found]. lia.
Defined.

(** X3: when the body of an accepted response stops with an exception
    that is no [RequestException] (the disk is full, say), the second
    [except] clause removes the staged file: the call returns failure
    after the one line "Error processing <url>: ...", no file is left at
    the staging path, every other path is as before, and so is the hash
    index. *)
Theorem X3_processing_error_cleans_up (E : env) (s : store)
    (url output_dir : string) (r : response) (e : exn) :
  accepted E s url r ->
  content_error r = Some e ->
  is_RequestException e = false ->
  let filename := spec_filename E url (default "" (content_type_header r))
                    (clock E (S (requests_made s))) in
  let temp := Py.join output_dir filename +:+ ".tmp" in
  exists s',
    download_image E url output_dir s = (inr false, s') /\
    stdout s' = stdout s
                ++ ["✗ Error processing " +:+ url +:+ ": " +:+ str_exn e] /\
    fs s' !! temp = None /\
    (forall p, p ≠ temp -> fs s' !! p = fs s !! p) /\
    existing_hashes s' = existing_hashes s.
Proof.
  intros Hacc Hstream Hkind filename temp.
  destruct (download_image_stream_raises E s url output_dir r e Hacc Hstream)
    as (s' & Hrun & Hfs & Hhashes & _ & Hout & _).
  rewrite Hkind in Hfs, Hout. fold filename temp in Hfs.
  exists s'. split_and!; [done..| | |done].
  - rewrite Hfs. apply lookup_delete_eq.
  - intros p Hp. rewrite Hfs. by apply lookup_delete_ne.
Qed.

Lemma X3_processing_error_cleans_up_witness :
  exists s',
    download_image (Scenario.always Sessions.disk_full_png)
      "https://example.com/cat.png" Scenario.output_dir Scenario.dir_with_old
    = (inr false, s') /\
    stdout s'
    = ["✗ Error processing https://example.com/cat.png: [Errno 28] No space left on device"] /\
    fs s' !! "Fetched_Images/cat.png.tmp" = None /\
    (forall p, p ≠ "Fetched_Images/cat.png.tmp" ->
               fs s' !! p = fs Scenario.dir_with_old !! p) /\
    existing_hashes s' = existing_hashes Scenario.dir_with_old.
Proof.
  apply (X3_processing_error_cleans_up (Scenario.always Sessions.disk_full_png)
           Scenario.dir_with_old "https://example.com/cat.png"
           Scenario.output_dir Sessions.disk_full_png
           (OSError "[Errno 28] No space left on device")).
  - split_and!; vm_compute; reflexivity.
  - reflexivity.
  - reflexivity.
Defined.

(** X4: the limit on the declared length is inclusive, and bears on the
    declared length only: the test lets 10485760 through and stops
    10485761.  A response with a status that is no error and a listed
    content type, whose declared length is absent, empty, or an integer of
    at most 10,485,760 (a negative one too), is not refused as too large:
    the call opens the staging file and writes to it every chunk that
    arrives, whatever their number.  When moreover the body arrives whole,
    the file system accepts the file name and the final path is no
    directory, the call returns success exactly when the hash of the body
    is new, and the final path then holds the whole body. *)
Theorem X4_declared_length_within_limit (E : env) (s : store)
    (url output_dir : string) (r : response) :
  http E (S (requests_made s)) url = inr r ->
  status_passes r = true ->
  is_valid_image_content_type (default "" (content_type_header r)) = true ->
  content_length_header r = None \/
  content_length_header r = Some "" \/
  (exists cl n, content_length_header r = Some cl /\
                Py.int (int_max_str_digits E) cl = Some n /\
                (n <= 10485760)%Z) ->
  let filename := spec_filename E url (default "" (content_type_header r))
                    (clock E (S (requests_made s))) in
  let filepath := Py.join output_dir filename in
  let temp := filepath +:+ ".tmp" in
  let data := concat (content r) in
  name_accepted filename ->
  declared_too_large E (Some "10485760") s = (inr false, s) /\
  declared_too_large E (Some "10485761") s = (inr true, s) /\
  exists res s',
    download_image E url output_dir s = (res, s') /\
    (exists rest,
       fs_log s' = fs_log s ++ op_open_wb temp :: (op_write temp <$> content r)
                   ++ rest) /\
    (content_error r = None ->
     is_directory (fs s) filepath = false ->
     res = inr (negb (bool_decide (SHA256.hexdigest data ∈ existing_hashes s))) /\
     ((SHA256.hexdigest data ∉ existing_hashes s) ->
      fs s' !! filepath = Some data)).
Proof.
  intros Hget Hstatus Htype Hlen filename filepath temp data _.
  split_and!; [vm_compute; reflexivity..|].
  assert (accepted E s url r) as Hacc.
  { split_and!; [done..|]. unfold declared_length_passes.
    destruct Hlen as [->|[->|(cl & n & -> & Hint & Hn)]]; [done..|].
    rewrite Hint. destruct (Py.truthy cl); [|done]. by apply Z.leb_le. }
  destruct (content_error r) as [e|] eqn:Hstream.
  - destruct (download_image_stream_raises E s url output_dir r e Hacc Hstream)
      as (s' & Hrun & _ & _ & _ & _ & Hlog).
    eexists _, s'. split_and!; [exact Hrun| |done].
    eexists. exact Hlog.
  - destruct (download_image_accepted E s url output_dir r Hacc Hstream)
      as (s' & Hrun & _ & _ & Heffect).
    fold filename filepath temp data in Hrun, Heffect.
    eexists _, s'. split_and!; [exact Hrun| |].
    + destruct (bool_decide _); [|destruct (is_directory _ _)];
        destruct Heffect as (_ & _ & _ & ->); eexists; reflexivity.
    + intros _ Hfile. rewrite Hfile in Heffect |- *.
      rewrite andb_true_r. split; [done|]. intros Hfresh.
      rewrite bool_decide_eq_false_2 in Heffect by done.
      destruct Heffect as (-> & _). apply lookup_insert_eq.
Qed.

Lemma X4_declared_length_within_limit_witness :
  declared_too_large (Scenario.always Scenario.png_abc) (Some "10485760")
    Scenario.empty_dir = (inr false, Scenario.empty_dir) /\
  declared_too_large (Scenario.always Scenario.png_abc) (Some "10485761")
    Scenario.empty_dir = (inr true, Scenario.empty_dir) /\
  exists res s',
    download_image (Scenario.always Scenario.png_abc)
      "https://example.com/cat.png" Scenario.output_dir Scenario.empty_dir
    = (res, s') /\
    res = inr true /\
    fs s' !! "Fetched_Images/cat.png" = Some Scenario.abc.
Proof.
  destruct (X4_declared_length_within_limit (Scenario.always Scenario.png_abc)
              Scenario.empty_dir "https://example.com/cat.png"
              Scenario.output_dir Scenario.png_abc)
    as (Hat & Hover & res & s' & Hrun & _ & Hstored).
  - reflexivity.
  - reflexivity.
  - vm_compute; reflexivity.
  - right; right. exists "3", 3%Z.
    split_and!; [reflexivity|vm_compute; reflexivity|lia].
  - split_and!; [reflexivity..|]. vm_compute. lia.
  - split_and!; [exact Hat|exact Hover|].
    destruct Hstored as [Hres Hfile]; [reflexivity..|].
    exists res, s'. split_and!; [exact Hrun| |].
    + rewrite Hres. rewrite bool_decide_eq_false_2 by apply not_elem_of_empty.
      reflexivity.
    + apply Hfile, not_elem_of_empty.
Defined.

(** ** [download_image]: what every call keeps *)

Section Every_call.

Variable E : env.

(** the effects of a call on the files, the hash index and the output,
    path by path *)
Lemma download_image_effects s url output_dir :
  exists res s',
    download_image E url output_dir s = (res, s') /\
    requests_made s' = S (requests_made s) /\
    ((fs s' = fs s /\ existing_hashes s' = existing_hashes s /\
      res ≠ inr true /\
      exists line, stdout s' = stdout s ++ ["✗ " +:+ line]) \/
     (exists r,
        let filename := spec_filename E url (default "" (content_type_header r))
                          (clock E (S (requests_made s))) in
        let filepath := Py.join output_dir filename in
        let temp := filepath +:+ ".tmp" in
        let data := concat (content r) in
        http E (S (requests_made s)) url = inr r /\
        ((res = inr false /\ existing_hashes s' = existing_hashes s /\
          (fs s' = <[temp := data]> (fs s) \/ fs s' = delete temp (fs s)) /\
          exists line, stdout s' = stdout s ++ ["✗ " +:+ line]) \/
         (res = inr true /\
          (SHA256.hexdigest data ∉ existing_hashes s) /\
          existing_hashes s' = {[SHA256.hexdigest data]} ∪ existing_hashes s /\
          fs s' = <[filepath := data]> (delete temp (fs s)) /\
          stdout s' = stdout s ++ ["✓ Successfully fetched: " +:+ filename;
                                   "✓ Image saved to: " +:+ filepath])))).
Proof.
  destruct (path_taken_total E s url)
    as [e Hget|r Hget Hst|r Hget Hst Hty|r cl Hget Hst Hty Hcl Hne Hint
       |r cl n Hget Hst Hty Hcl Hint Hn|r e Hacc Herr|r Hacc Hok].
  - destruct (download_image_get_raises E s url output_dir e Hget)
      as (s' & Hrun & Hfs & Hhashes & Hmade & Hout & _).
    eexists _, s'. split_and!; [exact Hrun|done|]. left.
    split_and!; [done..| |].
    + by destruct (is_RequestException e).
    + rewrite Hout. destruct (is_RequestException e); by eexists.
  - destruct (download_image_status_fails E s url output_dir r Hget Hst)
      as (s' & msg & Hrun & Hfs & Hhashes & Hmade & Hout & _).
    eexists _, s'. split_and!; [exact Hrun|done|]. left.
    split_and!; [done..|]. rewrite Hout. by eexists.
  - destruct (download_image_invalid_type E s url output_dir r Hget Hst Hty)
      as (s' & Hrun & Hfs & Hhashes & Hmade & Hout & _).
    eexists _, s'. split_and!; [exact Hrun|done|]. left.
    split_and!; [done..|]. rewrite Hout. by eexists.
  - destruct (download_image_bad_length E s url output_dir r cl
                Hget Hst Hty Hcl Hne Hint)
      as (s' & Hrun & Hfs & Hhashes & Hmade & Hout & _).
    eexists _, s'. split_and!; [exact Hrun|done|]. left.
    split_and!; [done..|]. rewrite Hout. by eexists.
  - destruct (download_image_too_large E s url output_dir r cl n
                Hget Hst Hty Hcl Hint Hn)
      as (s' & Hrun & Hfs & Hhashes & Hmade & Hout & _).
    eexists _, s'. split_and!; [exact Hrun|done|]. left.
    split_and!; [done..|]. rewrite Hout. by eexists.
  - destruct (download_image_stream_raises E s url output_dir r e Hacc Herr)
      as (s' & Hrun & Hfs & Hhashes & Hmade & Hout & _).
    eexists _, s'. split_and!; [exact Hrun|done|]. right.
    exists r. cbn zeta. split; [by destruct Hacc|]. left.
    split_and!; [done..| |].
    + rewrite Hfs. destruct (is_RequestException e); [by left | by right].
    + rewrite Hout. destruct (is_RequestException e); by eexists.
  - destruct (download_image_accepted E s url output_dir r Hacc Hok)
      as (s' & Hrun & Hmade & _ & Heffect).
    eexists _, s'. split_and!; [exact Hrun|done|]. right.
    exists r. cbn zeta. split; [by destruct Hacc|].
    destruct (decide (SHA256.hexdigest (concat (content r)) ∈ existing_hashes s))
      as [Hin|Hnew].
    + rewrite bool_decide_eq_true_2 in Heffect |- * by done.
      destruct Heffect as (Hfs & Hhashes & Hout & _). left.
      split_and!; [done..|by right|]. rewrite Hout. by eexists.
    + rewrite bool_decide_eq_false_2 in Heffect |- * by done.
      destruct (is_directory _ _); destruct Heffect as (Hfs & Hhashes & Hout & _).
      * left. split_and!; [done..|by right|]. rewrite Hout. by eexists.
      * right. split_and!; [done..| |done].
        rewrite Hfs. unfold rename. by rewrite delete_insert_eq.
Qed.

End Every_call.

(** X5: whatever happens, a call changes the files at two paths at
    most, both made of the output directory and the file name chosen for
    the response: the final path and the staging path, which is the final
    path followed by ".tmp". *)
Theorem X5_only_two_paths_change (E : env) (s : store)
    (url output_dir p : string) :
  fs (download_image E url output_dir s).2 !! p = fs s !! p \/
  exists r,
    http E (S (requests_made s)) url = inr r /\
    let filepath :=
      Py.join output_dir
        (spec_filename E url (default "" (content_type_header r))
           (clock E (S (requests_made s)))) in
    p = filepath \/ p = filepath +:+ ".tmp".
Proof.
  destruct (download_image_effects E s url output_dir)
    as (res & s' & Hrun & _ & [(Hfs & _)|(r & Hget & Hcase)]).
  { left. rewrite Hrun. cbn [snd]. by rewrite Hfs. }
  rewrite Hrun. cbn [snd]. cbn zeta in Hcase.
  set (filepath := Py.join output_dir _) in *.
  destruct (decide (p = filepath)) as [->|Hne1];
    [right; exists r; split; [done|by left]|].
  destruct (decide (p = filepath +:+ ".tmp")) as [->|Hne2];
    [right; exists r; split; [done|by right]|].
  left. destruct Hcase as [(_ & _ & [Hfs|Hfs] & _)|(_ & _ & _ & Hfs & _)];
    rewrite Hfs.
  - by rewrite lookup_insert_ne.
  - by rewrite lookup_delete_ne.
  - by rewrite lookup_insert_ne, lookup_delete_ne.
Qed.

(** X6: the hash index changes on success only.  A call that returns
    failure or raises leaves it as it was; a call that returns success
    adds one hash that was not in it, the hash of the file it has just
    stored at the final path. *)
Theorem X6_index_changes_on_success_only (E : env) (s : store)
    (url output_dir : string) :
  match download_image E url output_dir s with
  | (inr true, s') =>
      exists filepath data,
        fs s' !! filepath = Some data /\
        (SHA256.hexdigest data ∉ existing_hashes s) /\
        existing_hashes s' = {[SHA256.hexdigest data]} ∪ existing_hashes s
  | (_, s') => existing_hashes s' = existing_hashes s
  end.
Proof.
  destruct (download_image_effects E s url output_dir)
    as (res & s' & Hrun & _ & [(_ & Hhashes & Hres & _)|(r & Hget & Hcase)]).
  { rewrite Hrun. by destruct res as [e|[]]. }
  rewrite Hrun. cbn zeta in Hcase.
  destruct Hcase as [(-> & Hhashes & _)|(-> & Hnew & Hhashes & Hfs & _)];
    [done|].
  eexists _, _. split_and!; [|exact Hnew|exact Hhashes].
  rewrite Hfs. apply lookup_insert_eq.
Qed.

(** X7: the report of a call tells its outcome.  A call that returns
    success prints exactly two lines, "Successfully fetched: <name>" and
    "Image saved to: <path>"; a call that returns failure, or raises,
    prints exactly one line, which starts with the cross. *)
Theorem X7_report_tells_outcome (E : env) (s : store)
    (url output_dir : string) :
  match download_image E url output_dir s with
  | (inr true, s') =>
      exists filename,
        stdout s' = stdout s
                    ++ ["✓ Successfully fetched: " +:+ filename;
                        "✓ Image saved to: " +:+ Py.join output_dir filename]
  | (_, s') => exists line, stdout s' = stdout s ++ ["✗ " +:+ line]
  end.
Proof.
  destruct (download_image_effects E s url output_dir)
    as (res & s' & Hrun & _ & [(_ & _ & Hres & Hout)|(r & Hget & Hcase)]).
  { rewrite Hrun. by destruct res as [e|[]]. }
  rewrite Hrun. cbn zeta in Hcase.
  destruct Hcase as [(-> & _ & _ & Hout)|(-> & _ & _ & _ & Hout)];
    [done|by eexists].
Qed.
(** ** The loop over the URLs *)

(** X8: when the loop of [main] over the URLs ends, the count of
    successes has grown by at most the number of URLs, one request was
    made for each URL, and the hash index has grown by exactly as many
    hashes as there were successes. *)
Theorem X8_successes_are_counted (E : env) (urls : list string)
    (output_dir : string) (count n : nat) (s s' : store) :
  download_all E urls output_dir count s = (inr n, s') ->
  count <= n <= count + length urls /\
  requests_made s' = requests_made s + length urls /\
  existing_hashes s ⊆ existing_hashes s' /\
  size (existing_hashes s') = size (existing_hashes s) + (n - count).
Proof.
  revert count s. induction urls as [|url urls IH]; intros count s Hloop.
  - cbn in Hloop. injection Hloop as <- <-. cbn [length].
    split_and!; [lia..|done|lia].
  - cbn [download_all] in Hloop. unfold mbind, M_bind in Hloop.
    destruct (download_image_effects E s url output_dir)
      as (res & s1 & Hrun & Hmade & Hcase).
    rewrite Hrun in Hloop. destruct res as [e|ok]; [done|].
    apply IH in Hloop as (Hn & Hreq & Hsub & Hsize).
    cbn [length]. rewrite Hreq, Hmade, Hsize.
    assert (existing_hashes s ⊆ existing_hashes s1 /\
            size (existing_hashes s1)
            = size (existing_hashes s) + (if ok then 1 else 0)) as [Hsub1 Hsize1].
    { destruct Hcase as [(_ & -> & Hres & _)|(r & _ & Hcase)].
      - split; [done|]. destruct ok; [done|lia].
      - cbn zeta in Hcase.
        destruct Hcase as [(Hres & -> & _)|(Hres & Hnew & -> & _)];
          injection Hres as ->.
        + split; [done|lia].
        + split; [apply union_subseteq_r|].
          rewrite size_union by (by apply disjoint_singleton_l).
          rewrite size_singleton. lia. }
    rewrite Hsize1. destruct ok; split_and!; try lia; by etrans.
Qed.

Lemma X8_successes_are_counted_witness :
  0 <= 1 <= 0 + length ["https://example.com/cat.png"; "https://example.com/cat.png"] /\
  requests_made (Sessions.twice).2
  = requests_made Scenario.empty_dir
    + length ["https://example.com/cat.png"; "https://example.com/cat.png"] /\
  existing_hashes Scenario.empty_dir ⊆ existing_hashes (Sessions.twice).2 /\
  size (existing_hashes (Sessions.twice).2)
  = size (existing_hashes Scenario.empty_dir) + (1 - 0).
Proof.
  apply (X8_successes_are_counted (Scenario.always Scenario.png_abc)
           ["https://example.com/cat.png"; "https://example.com/cat.png"]
           Scenario.output_dir 0 1 Scenario.empty_dir (Sessions.twice).2).
  vm_compute. reflexivity.
Defined.

(** X9: the loop over two lists of URLs, one after the other, is the
    loop over the first followed by the loop over the second, which
    starts from the count and the store the first has reached; when a call
    raises, the loop stops there and the URLs that follow are not
    requested. *)
Theorem X9_loop_in_two_parts (E : env) (urls1 urls2 : list string)
    (output_dir : string) (count : nat) (s : store) :
  download_all E (urls1 ++ urls2) output_dir count s
  = match download_all E urls1 output_dir count s with
    | (inr count1, s1) => download_all E urls2 output_dir count1 s1
    | (inl e, s1) => (inl e, s1)
    end.
Proof.
  revert count s. induction urls1 as [|url urls1 IH]; intros count s.
  - reflexivity.
  - cbn [app download_all]. unfold mbind, M_bind.
    destruct (download_image E url output_dir s) as [[e|ok] s1]; [done|].
    apply IH.
Qed.
(** ** The terminal session of [main] *)

(** the entries typed up to the first empty one: what the loop returns,
    prints and leaves unread *)
Lemma read_urls_entries (entries : list string) :
  forall (fuel : nat) (urls : list string) (s : store) (blank : string)
         (rest : list string),
  stdin s = entries ++ blank :: rest ->
  Forall (fun line => ~ is_blank line) entries ->
  is_blank blank ->
  length entries < fuel ->
  exists s',
    read_urls fuel urls s = (inr (urls ++ typed_urls entries), s') /\
    stdin s' = rest /\
    stdout s' = stdout s ++ transcript entries ++ ["> "] /\
    fs s' = fs s /\
    existing_hashes s' = existing_hashes s /\
    requests_made s' = requests_made s.
Proof.
  induction entries as [|entry entries IH];
    intros fuel urls s blank rest Hstdin Hentries Hblank Hfuel;
    (destruct fuel as [|fuel]; [cbn [length] in Hfuel; lia|]);
    cbn [read_urls]; unfold mbind at 1, M_bind at 1, input;
    destruct s as [files hashes out inp made tmp log]; simpl_store_in_all;
    subst inp; cbn [app].
  - unfold is_blank in Hblank. rewrite Hblank.
    rewrite bool_decide_eq_true_2 by done.
    eexists. split; [by rewrite app_nil_r|]. simpl_store. done.
  - apply Forall_cons in Hentries as [Hentry Hentries].
    unfold is_blank in Hentry. rewrite bool_decide_eq_false_2 by done.
    unfold typed_urls, transcript. cbn [map List.filter concat].
    fold (typed_urls entries). fold (transcript entries).
    change (Py.startswith "http://" (Py.strip entry)
            || Py.startswith "https://" (Py.strip entry))
      with (is_http_url (Py.strip entry)).
    destruct (is_http_url (Py.strip entry)).
    + match goal with |- context [read_urls fuel ?u ?st] =>
        destruct (IH fuel u st blank rest) as (s' & Hrun & Hrest);
          [reflexivity|exact Hentries|exact Hblank|cbn [length] in Hfuel; lia|]
      end.
      exists s'. rewrite Hrun. simpl_store_in_all.
      destruct Hrest as (-> & -> & -> & -> & ->).
      split_and!; try done.
      * by rewrite <- app_assoc.
      * by rewrite <- !app_assoc.
    + unfold mbind, M_bind, print, modify. simpl_store.
      match goal with |- context [read_urls fuel ?u ?st] =>
        destruct (IH fuel u st blank rest) as (s' & Hrun & Hrest);
          [reflexivity|exact Hentries|exact Hblank|cbn [length] in Hfuel; lia|]
      end.
      exists s'. rewrite Hrun. simpl_store_in_all.
      destruct Hrest as (-> & -> & -> & -> & ->).
      split_and!; try done.
      by rewrite <- !app_assoc.
Qed.

(** X10: the input loop, as [main] runs it, reads the entries up to the
    first one that is empty once stripped, and leaves the rest unread.  It returns,
    in the order typed, the stripped entries that start with "http://" or
    "https://"; it prints a prompt before every entry read, and
    "Invalid URL format" after each entry it drops; it touches neither
    the files nor the hash index and makes no request. *)
Theorem X10_input_loop (entries : list string) (blank : string)
    (rest : list string) (s : store) :
  stdin s = entries ++ blank :: rest ->
  Forall (fun line => ~ is_blank line) entries ->
  is_blank blank ->
  exists s',
    read_urls (S (length (stdin s))) [] s = (inr (typed_urls entries), s') /\
    stdin s' = rest /\
    stdout s' = stdout s ++ transcript entries ++ ["> "] /\
    fs s' = fs s /\
    existing_hashes s' = existing_hashes s /\
    requests_made s' = requests_made s.
Proof.
  intros Hstdin Hentries Hblank.
  assert (length entries < S (length (stdin s))) as Hfuel
    by (rewrite Hstdin, length_app; lia).
  destruct (read_urls_entries entries (S (length (stdin s))) [] s blank rest
              Hstdin Hentries Hblank Hfuel) as (s' & Hrun & Hrest).
  exists s'. split; [|exact Hrest]. exact Hrun.
Qed.

Lemma X10_input_loop_witness :
  exists s',
    read_urls (S (length (stdin Sessions.one_url))) [] Sessions.one_url
    = (inr (typed_urls ["  https://example.com/cat.png "; "example.com"]), s') /\
    stdin s' = ["ignored"] /\
    stdout s' = stdout Sessions.one_url
                ++ transcript ["  https://example.com/cat.png "; "example.com"]
                ++ ["> "] /\
    fs s' = fs Sessions.one_url /\
    existing_hashes s' = existing_hashes Sessions.one_url /\
    requests_made s' = requests_made Sessions.one_url.
Proof.
  apply (X10_input_loop ["  https://example.com/cat.png "; "example.com"] ""
           ["ignored"] Sessions.one_url).
  - reflexivity.
  - repeat constructor; unfold is_blank; vm_compute; discriminate.
  - reflexivity.
Defined.

(** X11: when the input ends before an empty entry is typed, the input
    loop raises [EOFError], which nothing in [main] catches: the URLs
    typed so far are lost and no download starts. *)
Theorem X11_input_ends_early (fuel : nat) (urls : list string) (s : store) :
  Forall (fun line => ~ is_blank line) (stdin s) ->
  length (stdin s) < fuel ->
  exists s',
    read_urls fuel urls s = (inl (EOFError "EOF when reading a line"), s') /\
    stdin s' = [] /\
    stdout s' = stdout s ++ transcript (stdin s) ++ ["> "] /\
    fs s' = fs s /\
    requests_made s' = requests_made s.
Proof.
  remember (stdin s) as entries eqn:Hstdin. symmetry in Hstdin.
  revert fuel urls s Hstdin.
  induction entries as [|entry entries IH]; intros fuel urls s Hstdin Hentries Hfuel;
    (destruct fuel as [|fuel]; [cbn [length] in Hfuel; lia|]);
    cbn [read_urls]; unfold mbind at 1, M_bind at 1, input;
    destruct s as [files hashes out inp made tmp log]; simpl_store_in_all;
    subst inp.
  - eexists. split; [reflexivity|]. simpl_store. done.
  - apply Forall_cons in Hentries as [Hentry Hentries].
    unfold is_blank in Hentry. rewrite bool_decide_eq_false_2 by done.
    unfold transcript. cbn [map concat]. fold (transcript entries).
    change (Py.startswith "http://" (Py.strip entry)
            || Py.startswith "https://" (Py.strip entry))
      with (is_http_url (Py.strip entry)).
    cbn [length] in Hfuel.
    destruct (is_http_url (Py.strip entry)).
    + match goal with |- context [read_urls fuel ?u ?st] =>
        destruct (IH fuel u st) as (s' & Hrun & Hrest);
          [reflexivity|exact Hentries|simpl_store; lia|]
      end.
      exists s'. rewrite Hrun. simpl_store_in_all.
      destruct Hrest as (-> & -> & -> & ->).
      split_and!; try done. by rewrite <- !app_assoc.
    + unfold mbind, M_bind, print, modify. simpl_store.
      match goal with |- context [read_urls fuel ?u ?st] =>
        destruct (IH fuel u st) as (s' & Hrun & Hrest);
          [reflexivity|exact Hentries|simpl_store; lia|]
      end.
      exists s'. rewrite Hrun. simpl_store_in_all.
      destruct Hrest as (-> & -> & -> & ->).
      split_and!; try done. by rewrite <- !app_assoc.
Qed.

Lemma X11_input_ends_early_witness :
  exists s',
    read_urls 2 [] Sessions.no_empty_line
    = (inl (EOFError "EOF when reading a line"), s') /\
    stdin s' = [] /\
    stdout s' = stdout Sessions.no_empty_line
                ++ transcript (stdin Sessions.no_empty_line) ++ ["> "] /\
    fs s' = fs Sessions.no_empty_line /\
    requests_made s' = requests_made Sessions.no_empty_line.
Proof.
  apply (X11_input_ends_early 2 [] Sessions.no_empty_line).
  - repeat constructor; unfold is_blank; vm_compute; discriminate.
  - cbn [length stdin Sessions.no_empty_line Sessions.typing]. lia.
Defined.
(** loading the hash index reads nothing from the terminal *)
Lemma for_each_hash_entry_stdin (output_dir : string) (names : list string)
    (s : store) :
  stdin (for_each names (hash_entry output_dir) s).2 = stdin s.
Proof.
  revert s. induction names as [|name names IH]; intros s; [done|].
  cbn [for_each]. unfold mbind at 1, M_bind at 1.
  unfold hash_entry at 1, os_path_isfile, mbind, M_bind.
  destruct (bool_decide _).
  - unfold calculate_file_hash.
    destruct (fs s !! Py.join output_dir name); [|done].
    unfold hashes_add, modify. rewrite IH. by destruct s.
  - unfold mret, M_ret. apply IH.
Qed.

Lemma load_existing_hashes_stdin (output_dir : string) (s : store) :
  stdin (load_existing_hashes output_dir s).2 = stdin s.
Proof.
  unfold load_existing_hashes, modify, os_listdir, mbind, M_bind.
  rewrite for_each_hash_entry_stdin. by destruct s.
Qed.

(** [main] up to the downloads: the greeting, the hash index, the URLs *)
Lemma main_until_downloads (E : env) (s : store) (entries : list string)
    (blank : string) (rest : list string) :
  stdin s = entries ++ blank :: rest ->
  Forall (fun line => ~ is_blank line) entries ->
  is_blank blank ->
  exists s0,
    fs s0 = fs s /\
    requests_made s0 = requests_made s /\
    stdin s0 = rest /\
    stdout s0 = stdout s ++ greeting ++ transcript entries ++ ["> "] /\
    (forall h, h ∈ existing_hashes s0 <->
       exists path name data,
         entry_name "Fetched_Images" path = Some name /\
         fs s !! path = Some data /\
         h = SHA256.hexdigest data) /\
    main E s
    = if bool_decide (typed_urls entries = []) then
        print "✗ No valid URLs provided" s0
      else
        match download_all E (typed_urls entries) "Fetched_Images" 0 s0 with
        | (inr success_count, s1) =>
            (inr tt,
             set_stdout (fun out => out ++ summary (length (typed_urls entries))
                                                   success_count) s1)
        | (inl e, s1) => (inl e, s1)
        end.
Proof.
  intros Hstdin Hentries Hblank.
  unfold main. unfold mbind at 1 2 3 4 5, M_bind at 1 2 3 4 5.
  unfold print at 1 2 3, modify.
  set (sa := set_stdout _ (set_stdout _ (set_stdout _ s))).
  destruct (load_existing_hashes_spec "Fetched_Images" sa)
    as (sb & Hload & Hfs & Hout & Hmade & Hhashes).
  pose proof (load_existing_hashes_stdin "Fetched_Images" sa) as Hin.
  rewrite Hload in Hin |- *. cbn [snd] in Hin.
  unfold print at 1, modify.
  set (sc := set_stdout _ sb).
  assert (stdin sc = entries ++ blank :: rest) as Hstdin_c.
  { subst sc sa. destruct sb, s; simpl_store_in_all. congruence. }
  unfold mbind at 1, M_bind at 1. rewrite Hstdin_c.
  destruct (read_urls_entries entries (S (length (entries ++ blank :: rest)))
              [] sc blank rest Hstdin_c Hentries Hblank)
    as (sd & Hread & Hrest & Hout_d & Hfs_d & Hhashes_d & Hmade_d).
  { rewrite length_app. lia. }
  unfold mbind at 1, M_bind at 1. rewrite Hread. cbn [app].
  exists sd. split_and!.
  - rewrite Hfs_d. subst sc sa. destruct sb, s; simpl_store_in_all. congruence.
  - rewrite Hmade_d. subst sc sa. destruct sb, s; simpl_store_in_all. congruence.
  - done.
  - rewrite Hout_d. subst sc sa. destruct sb, s; simpl_store_in_all.
    subst. unfold greeting. by rewrite <- !app_assoc.
  - intros h. rewrite Hhashes_d. subst sc sa.
    destruct sb, s; simpl_store_in_all. apply Hhashes.
  - destruct (typed_urls entries) as [|url urls]; [done|].
    rewrite bool_decide_eq_false_2 by done.
    unfold mbind, M_bind.
    destruct (download_all E (url :: urls) "Fetched_Images" 0 sd)
      as [[e|success_count] s1]; [done|].
    unfold print, modify. f_equal. destruct s1; simpl_store. f_equal.
    unfold summary. by rewrite <- !app_assoc.
Qed.

(** X12: when the user types no URL before the empty entry, [main]
    prints "No valid URLs provided" and returns: it has made no request
    and changed no file. *)
Theorem X12_no_valid_url (E : env) (s : store) (entries : list string)
    (blank : string) (rest : list string) :
  stdin s = entries ++ blank :: rest ->
  Forall (fun line => ~ is_blank line) entries ->
  is_blank blank ->
  typed_urls entries = [] ->
  exists s',
    main E s = (inr tt, s') /\
    stdout s' = stdout s ++ greeting ++ transcript entries
                ++ ["> "; "✗ No valid URLs provided"] /\
    fs s' = fs s /\
    requests_made s' = requests_made s.
Proof.
  intros Hstdin Hentries Hblank Hnone.
  destruct (main_until_downloads E s entries blank rest Hstdin Hentries Hblank)
    as (s0 & Hfs & Hmade & _ & Hout & _ & Hmain).
  rewrite bool_decide_eq_true_2 in Hmain by done.
  unfold print, modify in Hmain.
  eexists. split; [exact Hmain|]. destruct s0; simpl_store_in_all.
  split_and!; [|done..]. rewrite Hout. by rewrite <- !app_assoc.
Qed.

Lemma X12_no_valid_url_witness :
  exists s',
    main (Scenario.always Scenario.png_abc) Sessions.no_urls = (inr tt, s') /\
    stdout s' = stdout Sessions.no_urls ++ greeting
                ++ transcript ["cat.png"; " ftp://example.com/cat.png"]
                ++ ["> "; "✗ No valid URLs provided"] /\
    fs s' = fs Sessions.no_urls /\
    requests_made s' = requests_made Sessions.no_urls.
Proof.
  apply (X12_no_valid_url (Scenario.always Scenario.png_abc) Sessions.no_urls
           ["cat.png"; " ftp://example.com/cat.png"] " " []).
  - reflexivity.
  - repeat constructor; unfold is_blank; vm_compute; discriminate.
  - reflexivity.
  - reflexivity.
Defined.

(** X13: when the user types at least one URL before the empty entry,
    [main] loads the hash index from the files of "Fetched_Images", runs
    the loop over the URLs typed, in the order typed, and, when the loop
    ends, prints the summary: the number of successes, and the number of
    URLs less the successes as the number of failures.  When a call
    raises, [main] ends with that exception and prints no summary. *)
Theorem X13_main_downloads_and_sums_up (E : env) (s : store)
    (entries : list string) (blank : string) (rest : list string) :
  stdin s = entries ++ blank :: rest ->
  Forall (fun line => ~ is_blank line) entries ->
  is_blank blank ->
  typed_urls entries ≠ [] ->
  exists s0,
    fs s0 = fs s /\
    requests_made s0 = requests_made s /\
    (forall h, h ∈ existing_hashes s0 <->
       exists path name data,
         entry_name "Fetched_Images" path = Some name /\
         fs s !! path = Some data /\
         h = SHA256.hexdigest data) /\
    match download_all E (typed_urls entries) "Fetched_Images" 0 s0 with
    | (inr success_count, s1) =>
        success_count <= length (typed_urls entries) /\
        exists s',
          main E s = (inr tt, s') /\
          fs s' = fs s1 /\
          stdout s' = stdout s1
                      ++ summary (length (typed_urls entries)) success_count
    | (inl e, s1) => main E s = (inl e, s1)
    end.
Proof.
  intros Hstdin Hentries Hblank Hsome.
  destruct (main_until_downloads E s entries blank rest Hstdin Hentries Hblank)
    as (s0 & Hfs & Hmade & _ & _ & Hhashes & Hmain).
  exists s0. split_and!; [done..|].
  rewrite bool_decide_eq_false_2 in Hmain by done.
  destruct (download_all E (typed_urls entries) "Fetched_Images" 0 s0)
    as [[e|success_count] s1] eqn:Hloop; [done|].
  split.
  - clear Hmain. revert Hloop. generalize (typed_urls entries). intros l Hloop.
    assert (forall l c n sa sb,
              download_all E l "Fetched_Images" c sa = (inr n, sb) ->
              n <= c + length l) as Hbound.
    { clear. induction l as [|u l IH]; intros c n sa sb H.
      - cbn in H. injection H as <- _. lia.
      - cbn [download_all] in H. unfold mbind, M_bind in H.
        destruct (download_image E u "Fetched_Images" sa) as [[e|ok] sm];
          [done|].
        apply IH in H. cbn [length]. destruct ok; lia. }
    apply Hbound in Hloop. lia.
  - eexists. split; [exact Hmain|]. by destruct s1.
Qed.

Lemma X13_main_downloads_and_sums_up_witness :
  exists s0,
    fs s0 = fs Sessions.one_url /\
    requests_made s0 = requests_made Sessions.one_url /\
    (forall h, h ∈ existing_hashes s0 <->
       exists path name data,
         entry_name "Fetched_Images" path = Some name /\
         fs Sessions.one_url !! path = Some data /\
         h = SHA256.hexdigest data) /\
    match download_all (Scenario.always Scenario.png_abc)
            (typed_urls ["  https://example.com/cat.png "; "example.com"])
            "Fetched_Images" 0 s0 with
    | (inr success_count, s1) =>
        success_count
        <= length (typed_urls ["  https://example.com/cat.png "; "example.com"]) /\
        exists s',
          main (Scenario.always Scenario.png_abc) Sessions.one_url = (inr tt, s') /\
          fs s' = fs s1 /\
          stdout s' = stdout s1
                      ++ summary (length (typed_urls
                           ["  https://example.com/cat.png "; "example.com"]))
                           success_count
    | (inl e, s1) =>
        main (Scenario.always Scenario.png_abc) Sessions.one_url = (inl e, s1)
    end.
Proof.
  apply (X13_main_downloads_and_sums_up (Scenario.always Scenario.png_abc)
           Sessions.one_url ["  https://example.com/cat.png "; "example.com"]
           "" ["ignored"]).
  - reflexivity.
  - repeat constructor; unfold is_blank; vm_compute; discriminate.
  - reflexivity.
  - vm_compute. discriminate.
Defined.
(** ** From one run to the next *)

(** a file stored in the directory under a name without a slash is an
    entry of the directory, under that name *)
Lemma entry_name_of_join (dir name : string) :
  name ≠ "" -> Py.contains "/" name = false ->
  entry_name dir (Py.join dir name) = Some name.
Proof.
  intros Hne Hslash. destruct name as [|c name]; [done|].
  cbn [Py.contains] in Hslash.
  destruct (Ascii.eqb "/" c) eqn:Hc; [done|].
  rewrite join_relative
    by (intros ->; by rewrite Ascii.eqb_refl in Hc).
  unfold entry_name.
  rewrite startswith_append, slice_from_append.
  cbn [Py.truthy Py.contains andb]. by rewrite Hc, Hslash.
Qed.

Section Later_runs.

Variable E : env.

Lemma spec_filename_nonempty url content_type now :
  spec_filename E url content_type now ≠ "".
Proof.
  unfold spec_filename. destruct (inferred_extension E content_type) as [ext|];
    [|done].
  destruct (bool_decide _) eqn:Hbase; [done|].
  by apply bool_decide_eq_false in Hbase.
Qed.

Lemma spec_filename_no_slash url content_type now :
  (forall ext, guess_extension E content_type = Some ext ->
               Py.contains "/" ext = false) ->
  Py.contains "/" (spec_filename E url content_type now) = false.
Proof.
  intros Hext. unfold spec_filename, inferred_extension.
  destruct (guess_extension E content_type) as [ext|] eqn:Hguess.
  - destruct (Py.truthy ext).
    + destruct (bool_decide _); [|apply basename_no_slash].
      rewrite !contains_append, strftime_no_slash, (Hext ext) by done.
      reflexivity.
    + rewrite !contains_append, strftime_no_slash. reflexivity.
  - rewrite !contains_append, strftime_no_slash. reflexivity.
Qed.

End Later_runs.

(** X14: what a successful call stores is known to later runs.  The
    file is stored as an entry of the output directory, so that a run
    which finds it there unchanged loads its hash into the index, and
    rejects the same content as a duplicate.  (The file name holds no
    slash as long as the extensions of the mimetypes table hold none.) *)
Theorem X14_stored_file_is_known_to_later_runs (E : env) (s s1 : store)
    (url output_dir : string) (r : response) :
  http E (S (requests_made s)) url = inr r ->
  download_image E url output_dir s = (inr true, s1) ->
  (forall ext, guess_extension E (default "" (content_type_header r)) = Some ext ->
               Py.contains "/" ext = false) ->
  let filename := spec_filename E url (default "" (content_type_header r))
                    (clock E (S (requests_made s))) in
  let filepath := Py.join output_dir filename in
  let data := concat (content r) in
  fs s1 !! filepath = Some data /\
  entry_name output_dir filepath = Some filename /\
  forall s2, fs s2 !! filepath = Some data ->
    exists s3,
      load_existing_hashes output_dir s2 = (inr tt, s3) /\
      SHA256.hexdigest data ∈ existing_hashes s3.
Proof.
  intros Hget Hrun Hext filename filepath data.
  destruct (download_image_true_inv E s url output_dir s1 Hrun)
    as (r' & Hacc & Hstream & Hfresh & Hnodir).
  assert (r' = r) as ->.
  { destruct Hacc as [Hget' _]. rewrite Hget in Hget'. by simplify_eq. }
  destruct (download_image_accepted E s url output_dir r Hacc Hstream)
    as (s1' & Hrun' & _ & _ & Heffect).
  rewrite Hrun in Hrun'.
  rewrite bool_decide_eq_false_2 in Hrun', Heffect by done.
  rewrite Hnodir in Hrun', Heffect.
  assert (s1' = s1) as -> by by simplify_eq.
  destruct Heffect as (Hfs & _).
  assert (entry_name output_dir filepath = Some filename) as Hentry.
  { apply entry_name_of_join;
      [apply spec_filename_nonempty|by apply spec_filename_no_slash]. }
  split_and!; [|done|].
  - rewrite Hfs. apply lookup_insert_eq.
  - intros s2 Hfile.
    destruct (load_existing_hashes_spec output_dir s2)
      as (s3 & Hload & _ & _ & _ & Hhashes).
    exists s3. split; [done|]. apply Hhashes.
    by exists filepath, filename, data.
Qed.

Lemma X14_stored_file_is_known_to_later_runs_witness :
  fs (Scenario.cat_fetch).2
    !! Py.join Scenario.output_dir
         (spec_filename (Scenario.always Scenario.png_abc)
            "https://example.com/cat.png"
            (default "" (content_type_header Scenario.png_abc))
            (clock (Scenario.always Scenario.png_abc)
               (S (requests_made Scenario.empty_dir))))
  = Some (concat (content Scenario.png_abc)).
Proof.
  apply (X14_stored_file_is_known_to_later_runs
           (Scenario.always Scenario.png_abc) Scenario.empty_dir
           (Scenario.cat_fetch).2 "https://example.com/cat.png"
           Scenario.output_dir Scenario.png_abc).
  - reflexivity.
  - vm_compute. reflexivity.
  - intros ext Hext. vm_compute in Hext. injection Hext as <-. reflexivity.
Defined.
(** X15: file names are not compared.  A successful call replaces
    whatever file was at its final path, without a message; the hash of
    the file it has replaced stays in the index, so that the replaced
    content can no longer be fetched either. *)
Theorem X15_same_name_is_overwritten (E : env) (s : store)
    (url output_dir : string) (r : response) (old : list byte) :
  accepted E s url r ->
  content_error r = None ->
  let filename := spec_filename E url (default "" (content_type_header r))
                    (clock E (S (requests_made s))) in
  let filepath := Py.join output_dir filename in
  let data := concat (content r) in
  fs s !! filepath = Some old ->
  SHA256.hexdigest old ∈ existing_hashes s ->
  SHA256.hexdigest data ∉ existing_hashes s ->
  exists s',
    download_image E url output_dir s = (inr true, s') /\
    fs s' !! filepath = Some data /\
    stdout s' = stdout s ++ ["✓ Successfully fetched: " +:+ filename;
                             "✓ Image saved to: " +:+ filepath] /\
    SHA256.hexdigest old ∈ existing_hashes s' /\
    SHA256.hexdigest data ∈ existing_hashes s'.
Proof.
  intros Hacc Hstream filename filepath data Hold Hknown Hfresh.
  destruct (download_image_accepted E s url output_dir r Hacc Hstream)
    as (s' & Hrun & _ & _ & Heffect).
  fold filename filepath data in Hrun, Heffect.
  rewrite bool_decide_eq_false_2 in Hrun, Heffect by done.
  assert (is_directory (fs s) filepath = false) as Hfile.
  { unfold is_directory. rewrite Hold.
    rewrite (bool_decide_eq_true_2 (is_Some (Some old))) by by eexists.
    apply andb_false_r. }
  rewrite Hfile in Hrun, Heffect. cbn [negb andb] in Hrun.
  destruct Heffect as (Hfs & Hhashes & Hout & _).
  exists s'. split_and!; [done| |done| |].
  - rewrite Hfs. apply lookup_insert_eq.
  - rewrite Hhashes. by apply elem_of_union_r.
  - rewrite Hhashes. by apply elem_of_union_l, elem_of_singleton.
Qed.

Lemma X15_same_name_is_overwritten_witness :
  exists s',
    download_image (Scenario.always Scenario.png_abc)
      "https://example.com/cat.png" Scenario.output_dir Sessions.dir_with_cat
    = (inr true, s') /\
    fs s' !! "Fetched_Images/cat.png" = Some (concat (content Scenario.png_abc)) /\
    stdout s' = ["✓ Successfully fetched: cat.png";
                 "✓ Image saved to: Fetched_Images/cat.png"] /\
    SHA256.hexdigest (list_byte_of_string "old") ∈ existing_hashes s' /\
    SHA256.hexdigest (concat (content Scenario.png_abc)) ∈ existing_hashes s'.
Proof.
  apply (X15_same_name_is_overwritten (Scenario.always Scenario.png_abc)
           Sessions.dir_with_cat "https://example.com/cat.png"
           Scenario.output_dir Scenario.png_abc (list_byte_of_string "old")).
  - split_and!; vm_compute; reflexivity.
  - reflexivity.
  - reflexivity.
  - apply (bool_decide_unpack _). vm_compute. exact I.
  - intros Hin. apply (bool_decide_pack _) in Hin. vm_compute in Hin. exact Hin.
Defined.
